(** * EduAdmin dashboard: activation, group and attendance workflows

    A shallow embedding of the client-side decision logic of the admin and
    teacher pages (React components over a remote API), and the properties
    of the workflow specification checked against it.

    Every component is modelled as a record holding its [useState] cells,
    the pending flag of its mutation, and the environment it acts on: the
    log of API calls issued, the query cache of the query client and the
    notifications raised.  Event handlers are functions from state to
    state. *)

From Stdlib Require Import ZArith QArith_base Lia Bool List Ascii String.
From Stdlib Require Import DecimalPos DecimalZ.
From stdpp Require Import base list strings gmap.
Import ListNotations.

Local Open Scope Z_scope.
Local Open Scope list_scope.

(** ** JavaScript values used by the pages *)

(** A JS string is a sequence of UTF-16 code units. *)
Definition jsstring := list N.

(** An ASCII literal of the source as a JS string. *)
Definition js (s : string) : jsstring :=
  map N_of_ascii (list_ascii_of_string s).

(** Code units that [String.prototype.trim] strips: WhiteSpace and
    LineTerminator of the language specification. *)
Definition isWhiteSpace (c : N) : bool :=
  ((9 <=? c) && (c <=? 13) || (c =? 32) || (c =? 160) || (c =? 5760)
   || (8192 <=? c) && (c <=? 8202) || (c =? 8232) || (c =? 8233)
   || (c =? 8239) || (c =? 8287) || (c =? 12288) || (c =? 65279))%N.

Fixpoint trimStart (s : jsstring) : jsstring :=
  match s with
  | c :: r => if isWhiteSpace c then trimStart r else s
  | [] => []
  end.

Definition trimEnd (s : jsstring) : jsstring := rev (trimStart (rev s)).

Definition trim (s : jsstring) : jsstring := trimEnd (trimStart s).

(** The class [\d] of a regular expression: the ten ASCII digits. *)
Definition isDigit (c : N) : bool := ((48 <=? c) && (c <=? 57))%N.

(** Truthiness of a string: non-empty. *)
Definition truthy (s : jsstring) : bool :=
  match s with [] => false | _ => true end.

(** A JS number as the pages look at one: the result of [Number(...)] on a
    string.  Finite values are rationals (every double is one). *)
Inductive jsnum :=
| JNaN
| JInf (negative : bool)
| JFin (q : Q).

Definition Number_isFinite (n : jsnum) : bool :=
  match n with JFin _ => true | _ => false end.

(** [n > 0] *)
Definition gt0 (n : jsnum) : bool :=
  match n with
  | JFin q => 0 <? Qnum q
  | JInf negative => negb negative
  | JNaN => false
  end.

(** Truthiness of a number: neither zero nor NaN. *)
Definition truthyNum (n : jsnum) : bool :=
  match n with
  | JFin q => negb (Qnum q =? 0)
  | JInf _ => true
  | JNaN => false
  end.

(** The global function [Number] applied to a string is an interface of the
    host; the pages only pass its result on, or test it with the three
    functions above. *)
Class NumberOfString := Number : jsstring -> jsnum.

(** [Number.prototype.toString] on an integer id. *)
Fixpoint digitsOfUint (d : Decimal.uint) : jsstring :=
  match d with
  | Decimal.Nil => []
  | Decimal.D0 r => 48%N :: digitsOfUint r
  | Decimal.D1 r => 49%N :: digitsOfUint r
  | Decimal.D2 r => 50%N :: digitsOfUint r
  | Decimal.D3 r => 51%N :: digitsOfUint r
  | Decimal.D4 r => 52%N :: digitsOfUint r
  | Decimal.D5 r => 53%N :: digitsOfUint r
  | Decimal.D6 r => 54%N :: digitsOfUint r
  | Decimal.D7 r => 55%N :: digitsOfUint r
  | Decimal.D8 r => 56%N :: digitsOfUint r
  | Decimal.D9 r => 57%N :: digitsOfUint r
  end.

Definition toString (id : Z) : jsstring :=
  match Z.to_int id with
  | Decimal.Pos d => digitsOfUint d
  | Decimal.Neg d => 45%N :: digitsOfUint d
  end.

(** An instance of [Number] for running the model: it reads a decimal
    integer literal with an optional minus sign, the empty string as 0, and
    anything else as NaN.  On the strings [toString] produces it is what
    the host computes. *)
Fixpoint uintOfDigits (s : jsstring) : option Decimal.uint :=
  match s with
  | [] => Some Decimal.Nil
  | c :: r =>
      match uintOfDigits r with
      | None => None
      | Some d =>
          if (c =? 48)%N then Some (Decimal.D0 d)
          else if (c =? 49)%N then Some (Decimal.D1 d)
          else if (c =? 50)%N then Some (Decimal.D2 d)
          else if (c =? 51)%N then Some (Decimal.D3 d)
          else if (c =? 52)%N then Some (Decimal.D4 d)
          else if (c =? 53)%N then Some (Decimal.D5 d)
          else if (c =? 54)%N then Some (Decimal.D6 d)
          else if (c =? 55)%N then Some (Decimal.D7 d)
          else if (c =? 56)%N then Some (Decimal.D8 d)
          else if (c =? 57)%N then Some (Decimal.D9 d)
          else None
      end
  end.

Definition decimalNumber : NumberOfString := fun s =>
  match s with
  | [] => JFin (inject_Z 0)
  | c :: r =>
      if (c =? 45)%N then
        match r, uintOfDigits r with
        | _ :: _, Some d => JFin (inject_Z (Z.of_int (Decimal.Neg d)))
        | _, _ => JNaN
        end
      else
        match uintOfDigits s with
        | Some d => JFin (inject_Z (Z.of_int (Decimal.Pos d)))
        | None => JNaN
        end
  end.

(** ** The environment of a page: API client, query client, notifications *)

Record AttendanceEntry := {
  student_id : Z;
  is_present : bool
}.

(** The API calls the modelled handlers issue, with their JSON bodies. *)
Inductive Request :=
| PostActivateStudent (studentId : Z) (groupId : jsnum) (level : jsstring)
| PostAddStudents (groupId : jsnum) (studentIds : list Z)
| PostRemoveStudent (groupId : jsnum) (studentId : Z)
| PostAttendance (groupId : jsnum) (date : jsstring)
    (attendance : list AttendanceEntry)
| PostGroup (name level : jsstring) (mainTeacher : jsnum)
    (assistantTeacher : option jsnum)
| PutGroup (path : jsstring) (name level : jsstring) (mainTeacher : jsnum)
    (assistantTeacher : option jsnum).

(** One element of a query key. *)
Inductive keypart :=
| KStr (s : jsstring)
| KNum (n : Z)
| KNull.

#[global] Instance keypart_eq_dec : EqDecision keypart.
Proof. solve_decision. Defined.

Definition QueryKey := list keypart.

(** A cached query: its key and whether it has been marked stale. *)
Record Query := {
  queryKey : QueryKey;
  isInvalidated : bool
}.

(** Key matching of the query client with [exact] unset: the filter key
    [b] matches a query key [a] when every position of [b] holds the same
    primitive in [a]. *)
Fixpoint partialMatchKey (a b : QueryKey) {struct b} : bool :=
  match b with
  | [] => true
  | y :: b' =>
      match a with
      | x :: a' => bool_decide (x = y) && partialMatchKey a' b'
      | [] => false
      end
  end.

Definition invalidate (filter : QueryKey) (q : Query) : Query :=
  if partialMatchKey (queryKey q) filter
  then {| queryKey := queryKey q; isInvalidated := true |}
  else q.

(** Messages are kept by their translation key ([t(key)]), or as the raw
    text a server response carried. *)
Inductive Msg :=
| T (k : string)
| Raw (s : jsstring).

Inductive Variant := Default | Destructive.

Record Toast := {
  variant : Variant;
  title : Msg;
  description : Msg
}.

Record Env := {
  requests : list Request;
  queries : list Query;
  toasts : list Toast
}.

Definition api_send (r : Request) (e : Env) : Env :=
  {| requests := requests e ++ [r]; queries := queries e; toasts := toasts e |}.

Definition invalidateQueries (filter : QueryKey) (e : Env) : Env :=
  {| requests := requests e;
     queries := map (invalidate filter) (queries e);
     toasts := toasts e |}.

Definition toast (x : Toast) (e : Env) : Env :=
  {| requests := requests e; queries := queries e; toasts := toasts e ++ [x] |}.

(** A validation issue of a schema: the field and the message. *)
Record Issue := {
  path : string;
  message : string
}.

(** ** pages/admin/AdminNewStudents.tsx *)

Module AdminNewStudents.

Record NewStudent := {
  id : Z;
  full_name : jsstring;
  phone : jsstring
}.

Record GroupListItem := {
  group_id : Z;
  group_name : jsstring;
  group_level : jsstring
}.

(** [activateSchema.safeParse]: the issues found, in field order; the parse
    succeeds when there is none. *)
Definition activateSchema (studentId : Z) (groupId level : jsstring)
  : list Issue :=
  (if 0 <? studentId then []
   else [{| path := "studentId"; message := "Student is required" |}])
  ++ (if (1 <=? length groupId)%nat then []
      else [{| path := "groupId"; message := "Group is required" |}])
  ++ (if (1 <=? length level)%nat then []
      else [{| path := "level"; message := "Level is required" |}]).

(** The component state: the [useState] cells, the query data of
    ['adminGroups'], the pending flag of [activateMutation] and the
    environment. *)
Record State := {
  selectedStudent : option NewStudent;
  selectedGroupId : jsstring;
  selectedLevel : jsstring;
  isActivateOpen : bool;
  activateTouched : bool;
  groups : option (list GroupListItem);
  isPending : bool;
  env : Env
}.

Definition withEnv (f : Env -> Env) (st : State) : State :=
  {| selectedStudent := selectedStudent st;
     selectedGroupId := selectedGroupId st;
     selectedLevel := selectedLevel st;
     isActivateOpen := isActivateOpen st;
     activateTouched := activateTouched st;
     groups := groups st;
     isPending := isPending st;
     env := f (env st) |}.

Definition setPending (b : bool) (st : State) : State :=
  {| selectedStudent := selectedStudent st;
     selectedGroupId := selectedGroupId st;
     selectedLevel := selectedLevel st;
     isActivateOpen := isActivateOpen st;
     activateTouched := activateTouched st;
     groups := groups st;
     isPending := b;
     env := env st |}.

Definition setActivateTouched (b : bool) (st : State) : State :=
  {| selectedStudent := selectedStudent st;
     selectedGroupId := selectedGroupId st;
     selectedLevel := selectedLevel st;
     isActivateOpen := isActivateOpen st;
     activateTouched := b;
     groups := groups st;
     isPending := isPending st;
     env := env st |}.

Definition setSelection (s : option NewStudent) (g l : jsstring) (o : bool)
    (st : State) : State :=
  {| selectedStudent := s;
     selectedGroupId := g;
     selectedLevel := l;
     isActivateOpen := o;
     activateTouched := activateTouched st;
     groups := groups st;
     isPending := isPending st;
     env := env st |}.

(** [selectedStudent?.id ?? 0] *)
Definition studentId (st : State) : Z :=
  match selectedStudent st with Some s => id s | None => 0 end.

Definition activateValidation (st : State) : list Issue :=
  activateSchema (studentId st) (selectedGroupId st) (selectedLevel st).

Definition isActivateValid (st : State) : bool :=
  match activateValidation st with [] => true | _ => false end.

Definition activateErrors (st : State) : string :=
  match find (fun i => String.eqb (path i) "groupId") (activateValidation st) with
  | Some i => message i
  | None => ""
  end.

Definition isActivating (st : State) : bool := isPending st.

Definition isActivateDisabled (st : State) : bool :=
  negb (isActivateValid st) || isActivating st.

Section Handlers.
Context {NumberImpl : NumberOfString}.

(** [activateMutation.mutate(vars)]: the mutation becomes pending and its
    [mutationFn] posts to [/admin/activate-student]. *)
Definition activateMutation_mutate (sid : Z) (gid : jsnum) (level : jsstring)
    (st : State) : State :=
  withEnv (api_send (PostActivateStudent sid gid level)) (setPending true st).

Definition handleActivate (st : State) : State :=
  if negb (isActivateValid st) then
    withEnv (toast {| variant := Destructive;
                      title := T "admin.newStudents.validationError";
                      description := T "admin.newStudents.fixFields" |})
      (setActivateTouched true st)
  else
    match selectedStudent st with
    | Some s =>
        activateMutation_mutate (id s) (Number (selectedGroupId st))
          (selectedLevel st) st
    | None => st (* [selectedStudent!.id]: excluded by the validation above *)
    end.

(** The submit button: [onClick={handleActivate}] under
    [disabled={isActivateDisabled}]. *)
Definition activateButton_onClick (st : State) : State :=
  if isActivateDisabled st then st else handleActivate st.

End Handlers.

(** [onSuccess] of [activateMutation], and the mutation leaving the pending
    state. *)
Definition activateMutation_onSuccess (st : State) : State :=
  let st := withEnv (invalidateQueries [KStr (js "newStudents")]) st in
  let st := withEnv (invalidateQueries [KStr (js "adminStudents")]) st in
  let st := withEnv (invalidateQueries [KStr (js "adminGroups")]) st in
  let st := setSelection None [] [] false st in
  withEnv (toast {| variant := Default;
                    title := T "admin.newStudents.activateSuccess";
                    description := T "admin.newStudents.activateSuccessDesc" |})
    st.

Definition activateMutation_onError (st : State) : State :=
  withEnv (toast {| variant := Destructive;
                    title := T "common.error";
                    description := T "admin.newStudents.activateError" |})
    st.

(** The server's answer to the pending call arrives. *)
Definition activateMutation_settle (ok : bool) (st : State) : State :=
  setPending false
    (if ok then activateMutation_onSuccess st else activateMutation_onError st).

Definition handleGroupChange (groupId : jsstring) (st : State) : State :=
  let st := if negb (activateTouched st) then setActivateTouched true st else st in
  let selectedGroup :=
    match groups st with
    | Some gs =>
        find (fun g => bool_decide (toString (group_id g) = groupId)) gs
    | None => None
    end in
  setSelection (selectedStudent st) groupId
    (match selectedGroup with Some g => group_level g | None => [] end)
    (isActivateOpen st) st.

(** The group [Select]: [onValueChange={handleGroupChange}] under
    [disabled={isActivating}]. *)
Definition groupSelect_onValueChange (groupId : jsstring) (st : State) : State :=
  if isActivating st then st else handleGroupChange groupId st.

(** The row button of the table. *)
Definition rowActivate_onClick (student : NewStudent) (st : State) : State :=
  setActivateTouched false (setSelection (Some student) [] [] true st).

(** [onOpenChange] of the dialog. *)
Definition dialog_onOpenChange (open : bool) (st : State) : State :=
  if isActivating st then st
  else if negb open
       then setActivateTouched false (setSelection None [] [] open st)
       else setSelection (selectedStudent st) (selectedGroupId st)
              (selectedLevel st) open st.

(** The cancel button, [disabled={isActivating}]. *)
Definition cancelButton_onClick (st : State) : State :=
  if isActivating st then st
  else setSelection (selectedStudent st) (selectedGroupId st)
         (selectedLevel st) false st.

(** What the operator can do inside the open dialog. *)
Inductive DialogEvent :=
| ClickActivate
| ClickCancel
| OpenChange (open : bool)
| SelectGroup (groupId : jsstring).

Definition dialogStep {NumberImpl : NumberOfString} (st : State)
    (e : DialogEvent) : State :=
  match e with
  | ClickActivate => activateButton_onClick st
  | ClickCancel => cancelButton_onClick st
  | OpenChange open => dialog_onOpenChange open st
  | SelectGroup g => groupSelect_onValueChange g st
  end.

End AdminNewStudents.

(** ** components/admin/AddStudentsDialog.tsx *)

(** [Array.from(new Set(xs))]: the distinct elements in order of first
    occurrence. *)
Definition Set_add (acc : list Z) (x : Z) : list Z :=
  if bool_decide (x ∈ acc) then acc else acc ++ [x].

Definition Array_from_Set (xs : list Z) : list Z := fold_left Set_add xs [].

(** [String.prototype.includes]. *)
Fixpoint startsWith (s q : jsstring) {struct q} : bool :=
  match q with
  | [] => true
  | c :: q' =>
      match s with
      | d :: s' => (c =? d)%N && startsWith s' q'
      | [] => false
      end
  end.

Fixpoint includes (s q : jsstring) : bool :=
  startsWith s q ||
  match s with
  | _ :: s' => includes s' q
  | [] => false
  end.

(** [String.prototype.toLowerCase] is the host's case mapping. *)
Class LowerCase := toLowerCase : jsstring -> jsstring.

Module AddStudentsDialog.

Record NewStudent := {
  id : Z;
  full_name : option jsstring;
  phone : option jsstring
}.

Record NewStudentsResponse := {
  new_students : list NewStudent;
  students_without_group : list NewStudent
}.

(** Props ([groupId]), [useState] cells, the query data of ['newStudents'],
    the pending flag of [addStudentsMutation] and the environment. *)
Record State := {
  groupId : jsstring;
  searchQuery : jsstring;
  selectedStudents : list Z;
  selectionError : string;
  data : option NewStudentsResponse;
  isPending : bool;
  env : Env
}.

Definition setSelectionError (e : string) (st : State) : State :=
  {| groupId := groupId st; searchQuery := searchQuery st;
     selectedStudents := selectedStudents st; selectionError := e;
     data := data st; isPending := isPending st; env := env st |}.

Definition setSelectedStudents (l : list Z) (st : State) : State :=
  {| groupId := groupId st; searchQuery := searchQuery st;
     selectedStudents := l; selectionError := selectionError st;
     data := data st; isPending := isPending st; env := env st |}.

Definition mutate (r : Request) (st : State) : State :=
  {| groupId := groupId st; searchQuery := searchQuery st;
     selectedStudents := selectedStudents st;
     selectionError := selectionError st;
     data := data st; isPending := true; env := api_send r (env st) |}.

Definition isSubmitting (st : State) : bool := isPending st.

Definition allAvailableStudents (st : State) : list NewStudent :=
  match data st with
  | None => []
  | Some d => new_students d ++ students_without_group d
  end.

Section Handlers.
Context {NumberImpl : NumberOfString} {LowerImpl : LowerCase}.

Definition numericGroupId (st : State) : jsnum := Number (groupId st).

Definition isGroupIdValid (st : State) : bool :=
  Number_isFinite (numericGroupId st) && gt0 (numericGroupId st).

Definition filteredStudents (st : State) : list NewStudent :=
  let q := trim (searchQuery st) in
  if negb (truthy q) then allAvailableStudents st
  else
    let qLower := toLowerCase q in
    filter (fun student =>
              let name := toLowerCase (default [] (full_name student)) in
              let phone := default [] (phone student) in
              includes name qLower || includes phone q)
      (allAvailableStudents st).

Definition handleToggleStudent (studentId : Z) (st : State) : State :=
  let st := setSelectionError "" st in
  let prev := selectedStudents st in
  setSelectedStudents
    (if bool_decide (studentId ∈ prev)
     then filter (fun id => negb (id =? studentId)) prev
     else prev ++ [studentId]) st.

Definition handleAddStudents (st : State) : State :=
  if negb (isGroupIdValid st) then
    setSelectionError "admin.groups.invalidGroupId" st
  else
    let uniqueIds := Array_from_Set (selectedStudents st) in
    if (length uniqueIds =? 0)%nat then
      setSelectionError "admin.groups.selectAtLeastOne" st
    else if (100 <? length uniqueIds)%nat then
      setSelectionError "admin.groups.maxStudentsError" st
    else
      mutate (PostAddStudents (numericGroupId st) (selectedStudents st)) st.

Definition handleSelectAllFiltered (st : State) : State :=
  let st := setSelectionError "" st in
  let ids := map id (filteredStudents st) in
  let next := Array_from_Set (selectedStudents st ++ ids) in
  if (100 <? length next)%nat then
    setSelectionError "admin.groups.maxStudentsError" st
  else
    setSelectedStudents next st.

Definition handleClearSelection (st : State) : State :=
  setSelectedStudents [] (setSelectionError "" st).

(** The footer button: [onClick={handleAddStudents}], disabled when the
    group id is invalid, nothing is selected or a request is pending. *)
Definition addButton_onClick (st : State) : State :=
  if negb (isGroupIdValid st)
     || (length (selectedStudents st) =? 0)%nat
     || isSubmitting st
  then st else handleAddStudents st.

(** The select-all button: disabled when the filtered list is empty or a
    request is pending. *)
Definition selectAllButton_onClick (st : State) : State :=
  if (length (filteredStudents st) =? 0)%nat || isSubmitting st
  then st else handleSelectAllFiltered st.

End Handlers.

(** The error object of a failed request, as [getApiErrorMessage] reads
    it: [response.data.message], [response.data.error] and [message]. *)
Record ApiError := {
  response_data_message : option jsstring;
  response_data_error : option jsstring;
  error_message : option jsstring
}.

(** [a || b] on a string that may be missing. *)
Definition orElse (a : option jsstring) (b : Msg) : Msg :=
  match a with
  | Some (c :: r) => Raw (c :: r)
  | _ => b
  end.

Definition getApiErrorMessage (err : ApiError) (fallback : Msg) : Msg :=
  orElse (response_data_message err)
    (orElse (response_data_error err) (orElse (error_message err) fallback)).

Definition handleClose (st : State) : State :=
  {| groupId := groupId st; searchQuery := [];
     selectedStudents := []; selectionError := "";
     data := data st; isPending := isPending st; env := env st |}.

Definition withEnv (f : Env -> Env) (st : State) : State :=
  {| groupId := groupId st; searchQuery := searchQuery st;
     selectedStudents := selectedStudents st;
     selectionError := selectionError st;
     data := data st; isPending := isPending st; env := f (env st) |}.

Definition addStudentsMutation_onSuccess (st : State) : State :=
  let st :=
    withEnv (invalidateQueries [KStr (js "adminGroupDetail"); KStr (groupId st)])
      st in
  let st := withEnv (invalidateQueries [KStr (js "newStudents")]) st in
  let st := withEnv (toast {| variant := Default;
                              title := T "common.success";
                              description := T "admin.groups.addSuccess" |})
              st in
  handleClose st.

Definition addStudentsMutation_onError (err : ApiError) (st : State) : State :=
  withEnv (toast {| variant := Destructive;
                    title := T "common.error";
                    description :=
                      getApiErrorMessage err (T "admin.groups.updateError") |})
    st.

(** The server's answer: [None] on success, [Some err] on failure. *)
Definition addStudentsMutation_settle (answer : option ApiError) (st : State)
  : State :=
  let st :=
    match answer with
    | None => addStudentsMutation_onSuccess st
    | Some err => addStudentsMutation_onError err st
    end in
  {| groupId := groupId st; searchQuery := searchQuery st;
     selectedStudents := selectedStudents st;
     selectionError := selectionError st;
     data := data st; isPending := false; env := env st |}.

(** The search input, [disabled={isSubmitting}], and the arrival of the
    query data. *)
Definition search_onChange (q : jsstring) (st : State) : State :=
  if isSubmitting st then st
  else
    {| groupId := groupId st; searchQuery := q;
       selectedStudents := selectedStudents st;
       selectionError := selectionError st;
       data := data st; isPending := isPending st; env := env st |}.

Definition dataLoaded (d : NewStudentsResponse) (st : State) : State :=
  {| groupId := groupId st; searchQuery := searchQuery st;
     selectedStudents := selectedStudents st;
     selectionError := selectionError st;
     data := Some d; isPending := isPending st; env := env st |}.

(** The dialog as it opens for a group. *)
Definition opened (groupId : jsstring) (e : Env) : State :=
  {| groupId := groupId; searchQuery := []; selectedStudents := [];
     selectionError := ""; data := None; isPending := false; env := e |}.

(** What can happen to the open dialog. *)
Inductive Event :=
| Toggle (studentId : Z)
| SelectAll
| ClearSelection
| ClickAdd
| Search (q : jsstring)
| Loaded (d : NewStudentsResponse)
| Settled (answer : option ApiError).

(** The clear button is disabled when nothing is selected or a request is
    pending; a row toggles on click whatever the pending flag. *)
Definition step {NumberImpl : NumberOfString} {LowerImpl : LowerCase}
    (st : State) (e : Event) : State :=
  match e with
  | Toggle i => handleToggleStudent i st
  | SelectAll => selectAllButton_onClick st
  | ClearSelection =>
      if (length (selectedStudents st) =? 0)%nat || isSubmitting st
      then st else handleClearSelection st
  | ClickAdd => addButton_onClick st
  | Search q => search_onChange q st
  | Loaded d => dataLoaded d st
  | Settled answer => addStudentsMutation_settle answer st
  end.

End AddStudentsDialog.

(** ** pages/admin/AdminGroupDetail.tsx *)

Module AdminGroupDetail.

Record UpdateGroupData := {
  name : jsstring;
  level : jsstring;
  main_teacher_id : jsstring;
  assistant_teacher_id : jsstring
}.

#[global] Instance UpdateGroupData_eq_dec : EqDecision UpdateGroupData.
Proof. solve_decision. Defined.

(** The group as the detail query returns it: teachers by id. *)
Record GroupDetail := {
  group_name : jsstring;
  group_level : option jsstring;
  main_teacher : option Z;
  assistant_teacher : option Z
}.

(** Route parameter, [useState] cells, the pending flags of the two
    mutations and the environment.  An errors object is a finite map from
    field name to message. *)
Record State := {
  groupId : jsstring;
  isEditOpen : bool;
  initialEditGroup : option UpdateGroupData;
  editErrors : gmap string string;
  editGroup : UpdateGroupData;
  updatePending : bool;
  removePending : bool;
  env : Env
}.

Definition setEdit (o : bool) (i : option UpdateGroupData)
    (e : gmap string string) (g : UpdateGroupData) (st : State) : State :=
  {| groupId := groupId st; isEditOpen := o; initialEditGroup := i;
     editErrors := e; editGroup := g; updatePending := updatePending st;
     removePending := removePending st; env := env st |}.

Definition setEditErrors (e : gmap string string) (st : State) : State :=
  setEdit (isEditOpen st) (initialEditGroup st) e (editGroup st) st.

Definition setEditGroup (g : UpdateGroupData) (st : State) : State :=
  setEdit (isEditOpen st) (initialEditGroup st) (editErrors st) g st.

Definition setPending (u r : bool) (st : State) : State :=
  {| groupId := groupId st; isEditOpen := isEditOpen st;
     initialEditGroup := initialEditGroup st; editErrors := editErrors st;
     editGroup := editGroup st; updatePending := u; removePending := r;
     env := env st |}.

Definition withEnv (f : Env -> Env) (st : State) : State :=
  {| groupId := groupId st; isEditOpen := isEditOpen st;
     initialEditGroup := initialEditGroup st; editErrors := editErrors st;
     editGroup := editGroup st; updatePending := updatePending st;
     removePending := removePending st; env := f (env st) |}.

(** The initial value of the [editGroup] cell. *)
Definition emptyEditGroup : UpdateGroupData :=
  {| name := []; level := []; main_teacher_id := [];
     assistant_teacher_id := [] |}.

(** [x?.id.toString() || ""] *)
Definition teacherIdString (t : option Z) : jsstring :=
  match t with Some i => toString i | None => [] end.

(** The effect that pre-fills the form once the group is loaded and the
    dialog is open. *)
Definition prefillEffect (group : option GroupDetail) (st : State) : State :=
  match group with
  | Some g =>
      if isEditOpen st then
        let next :=
          {| name := group_name g;
             level := default [] (group_level g);
             main_teacher_id := teacherIdString (main_teacher g);
             assistant_teacher_id := teacherIdString (assistant_teacher g) |} in
        setEdit (isEditOpen st) (Some next) ∅ next st
      else st
  | None => st
  end.

Definition trimmedEditName (st : State) : jsstring := trim (name (editGroup st)).

Definition validateEditGroup (st : State) : gmap string string :=
  let errors : gmap string string := ∅ in
  let errors :=
    if negb (truthy (trimmedEditName st))
    then <["name" := "admin.groups.detail.nameRequired"]> errors
    else if (length (trimmedEditName st) <? 2)%nat
    then <["name" := "admin.groups.detail.nameTooShort"]> errors
    else if (80 <? length (trimmedEditName st))%nat
    then <["name" := "admin.groups.detail.nameTooLong"]> errors
    else errors in
  let errors :=
    if negb (truthy (trim (level (editGroup st))))
    then <["level" := "admin.groups.detail.levelRequired"]> errors
    else errors in
  let errors :=
    if negb (truthy (main_teacher_id (editGroup st)))
    then <["main_teacher_id" := "admin.groups.detail.mainTeacherRequired"]> errors
    else errors in
  let errors :=
    if truthy (assistant_teacher_id (editGroup st))
       && bool_decide (assistant_teacher_id (editGroup st)
                       = main_teacher_id (editGroup st))
    then <["assistant_teacher_id" := "admin.groups.detail.assistantDifferent"]> errors
    else errors in
  errors.

(** [Object.keys(errors).length === 0] *)
Definition noKeys (errors : gmap string string) : bool :=
  (size errors =? 0)%nat.

Definition isEditValid (st : State) : bool := noKeys (validateEditGroup st).

Definition normalize (d : UpdateGroupData) : UpdateGroupData :=
  {| name := trim (name d);
     level := trim (level d);
     main_teacher_id := main_teacher_id d;
     assistant_teacher_id := assistant_teacher_id d |}.

(** The two normalized records are compared through [JSON.stringify],
    which is injective on records of four strings. *)
Definition isEditDirty (st : State) : bool :=
  match initialEditGroup st with
  | None => false
  | Some i => negb (bool_decide (normalize (editGroup st) = normalize i))
  end.

Section Handlers.
Context {NumberImpl : NumberOfString}.

(** [updateGroupMutation.mutate(data)] with its [mutationFn]. *)
Definition updateGroupMutation_mutate (d : UpdateGroupData) (st : State)
  : State :=
  withEnv
    (api_send
       (PutGroup (groupId st) (trim (name d)) (trim (level d))
          (Number (main_teacher_id d))
          (if truthy (assistant_teacher_id d)
           then Some (Number (assistant_teacher_id d)) else None)))
    (setPending true (removePending st) st).

Definition handleUpdateGroup (st : State) : State :=
  let errors := validateEditGroup st in
  let st' := setEditErrors errors st in
  if (0 <? size errors)%nat then st'
  else if negb (isEditDirty st) then
    withEnv (toast {| variant := Default;
                      title := T "admin.groups.detail.noChanges";
                      description := T "admin.groups.detail.nothingToUpdate" |})
      st'
  else
    updateGroupMutation_mutate
      {| name := trimmedEditName st;
         level := trim (level (editGroup st));
         main_teacher_id := main_teacher_id (editGroup st);
         assistant_teacher_id := assistant_teacher_id (editGroup st) |}
      st'.

(** [removeStudentMutation.mutate(studentId)] with its [mutationFn]. *)
Definition removeStudentMutation_mutate (studentId : Z) (st : State) : State :=
  withEnv (api_send (PostRemoveStudent (Number (groupId st)) studentId))
    (setPending (updatePending st) true st).

(** [confirmed] is the operator's answer to [confirm(...)]. *)
Definition handleRemoveStudent (studentId : Z) (confirmed : bool)
    (st : State) : State :=
  if confirmed then removeStudentMutation_mutate studentId st else st.

(** The remove button of a row, [disabled={removeStudentMutation.isPending}]. *)
Definition removeButton_onClick (studentId : Z) (confirmed : bool)
    (st : State) : State :=
  if removePending st then st else handleRemoveStudent studentId confirmed st.

End Handlers.

Definition removeStudentMutation_onSuccess (st : State) : State :=
  let st :=
    withEnv (invalidateQueries [KStr (js "adminGroupDetail"); KStr (groupId st)])
      st in
  withEnv (toast {| variant := Default;
                    title := T "common.success";
                    description := T "admin.groups.detail.removeSuccess" |})
    st.

Definition removeStudentMutation_onError (st : State) : State :=
  withEnv (toast {| variant := Destructive;
                    title := T "common.error";
                    description := T "admin.groups.detail.removeError" |})
    st.

Definition removeStudentMutation_settle (ok : bool) (st : State) : State :=
  setPending (updatePending st) false
    (if ok then removeStudentMutation_onSuccess st
     else removeStudentMutation_onError st).

(** [onValueChange] of the assistant-teacher [Select]. *)
Definition assistantSelect_onValueChange (value : jsstring) (st : State)
  : State :=
  setEditGroup
    {| name := name (editGroup st);
       level := level (editGroup st);
       main_teacher_id := main_teacher_id (editGroup st);
       assistant_teacher_id :=
         if bool_decide (value = js "none") then [] else value |}
    st.

(** [getApiErrorMessage] of this page: the same four-way fallback as in
    the add-students dialog. *)
Definition getApiErrorMessage (err : AddStudentsDialog.ApiError)
    (fallback : Msg) : Msg :=
  AddStudentsDialog.orElse (AddStudentsDialog.response_data_message err)
    (AddStudentsDialog.orElse (AddStudentsDialog.response_data_error err)
       (AddStudentsDialog.orElse (AddStudentsDialog.error_message err)
          fallback)).

Definition updateGroupMutation_onSuccess (st : State) : State :=
  let st :=
    withEnv (invalidateQueries [KStr (js "adminGroupDetail"); KStr (groupId st)])
      st in
  let st :=
    setEdit false (initialEditGroup st) (editErrors st) (editGroup st) st in
  withEnv (toast {| variant := Default;
                    title := T "common.success";
                    description := T "admin.groups.updateSuccess" |})
    st.

Definition updateGroupMutation_onError (err : AddStudentsDialog.ApiError)
    (st : State) : State :=
  withEnv (toast {| variant := Destructive;
                    title := T "common.error";
                    description :=
                      getApiErrorMessage err (T "admin.groups.updateError") |})
    st.

(** The server's answer to the update: [None] on success, [Some err] on
    failure. *)
Definition updateGroupMutation_settle
    (answer : option AddStudentsDialog.ApiError) (st : State) : State :=
  setPending false (removePending st)
    (match answer with
     | None => updateGroupMutation_onSuccess st
     | Some err => updateGroupMutation_onError err st
     end).

(** [onOpenChange] of the edit dialog. *)
Definition editDialog_onOpenChange (open : bool) (st : State) : State :=
  if negb open then
    if updatePending st then st
    else setEdit false (initialEditGroup st) ∅ (editGroup st) st
  else setEdit true (initialEditGroup st) (editErrors st) (editGroup st) st.

(** The cancel button of the edit dialog. *)
Definition editCancel_onClick (st : State) : State :=
  if updatePending st then st
  else setEdit false (initialEditGroup st) ∅ (editGroup st) st.

(** The edit form: [onSubmit] calls [handleUpdateGroup]; its submit button
    is disabled while the update is pending, and when the form is not
    dirty or not valid. *)
Definition editForm_onSubmit {NumberImpl : NumberOfString} (st : State)
  : State :=
  if updatePending st || negb (isEditDirty st) || negb (isEditValid st)
  then st else handleUpdateGroup st.

End AdminGroupDetail.

(** ** pages/admin/AdminGroups.tsx *)

Module AdminGroups.

Record GroupFormData := {
  name : jsstring;
  level : jsstring;
  main_teacher_id : jsstring;
  assistant_teacher_id : jsstring
}.

(** [groupSchema.safeParse]: the issues found, in field order. *)
Definition groupSchema (f : GroupFormData) : list Issue :=
  (if (1 <=? length (trim (name f)))%nat then []
   else [{| path := "name"; message := "Group name is required" |}])
  ++ (if (1 <=? length (trim (level f)))%nat then []
      else [{| path := "level"; message := "Level is required" |}])
  ++ (if (1 <=? length (trim (main_teacher_id f)))%nat then []
      else [{| path := "main_teacher_id";
               message := "Main teacher is required" |}]).

Record Touched := {
  t_name : bool;
  t_level : bool;
  t_main_teacher_id : bool;
  t_assistant_teacher_id : bool
}.

Record State := {
  isDialogOpen : bool;
  editingGroupId : option Z;
  groupForm : GroupFormData;
  touched : Touched;
  createPending : bool;
  updatePending : bool;
  env : Env
}.

(** The initial value of the [groupForm] cell, also set by
    [openCreateDialog]. *)
Definition emptyGroupForm : GroupFormData :=
  {| name := []; level := []; main_teacher_id := [];
     assistant_teacher_id := [] |}.

Definition setGroupForm (f : GroupFormData) (st : State) : State :=
  {| isDialogOpen := isDialogOpen st; editingGroupId := editingGroupId st;
     groupForm := f; touched := touched st;
     createPending := createPending st; updatePending := updatePending st;
     env := env st |}.

Definition setTouched (t : Touched) (st : State) : State :=
  {| isDialogOpen := isDialogOpen st; editingGroupId := editingGroupId st;
     groupForm := groupForm st; touched := t;
     createPending := createPending st; updatePending := updatePending st;
     env := env st |}.

Definition mutate (create : bool) (r : Request) (st : State) : State :=
  {| isDialogOpen := isDialogOpen st; editingGroupId := editingGroupId st;
     groupForm := groupForm st; touched := touched st;
     createPending := if create then true else createPending st;
     updatePending := if create then updatePending st else true;
     env := api_send r (env st) |}.

Definition withEnv (f : Env -> Env) (st : State) : State :=
  {| isDialogOpen := isDialogOpen st; editingGroupId := editingGroupId st;
     groupForm := groupForm st; touched := touched st;
     createPending := createPending st; updatePending := updatePending st;
     env := f (env st) |}.

Definition validation (st : State) : list Issue := groupSchema (groupForm st).

Definition isFormValid (st : State) : bool :=
  match validation st with [] => true | _ => false end.

Definition isSaving (st : State) : bool :=
  createPending st || updatePending st.

Definition isSubmitDisabled (st : State) : bool :=
  negb (isFormValid st) || isSaving st.

Section Handlers.
Context {NumberImpl : NumberOfString}.

Definition handleSubmit (st : State) : State :=
  if negb (isFormValid st) then
    withEnv (toast {| variant := Destructive;
                      title := T "admin.groups.validationError";
                      description := T "admin.groups.fixFields" |})
      (setTouched {| t_name := true; t_level := true;
                     t_main_teacher_id := true;
                     t_assistant_teacher_id := true |} st)
  else
    let f := groupForm st in
    let main := Number (main_teacher_id f) in
    let assistant :=
      if truthy (assistant_teacher_id f)
      then Some (Number (assistant_teacher_id f)) else None in
    match editingGroupId st with
    | Some gid =>
        if negb (gid =? 0)
        then mutate false (PutGroup (toString gid) (name f) (level f) main assistant) st
        else mutate true (PostGroup (name f) (level f) main assistant) st
    | None => mutate true (PostGroup (name f) (level f) main assistant) st
    end.

(** The submit button: [onClick={handleSubmit}] under
    [disabled={isSubmitDisabled}]. *)
Definition submitButton_onClick (st : State) : State :=
  if isSubmitDisabled st then st else handleSubmit st.

End Handlers.

(** [onValueChange] of the assistant-teacher [Select],
    [disabled={!!isSaving}]. *)
Definition assistantSelect_onValueChange (value : jsstring) (st : State)
  : State :=
  if isSaving st then st
  else
    setGroupForm
      {| name := name (groupForm st);
         level := level (groupForm st);
         main_teacher_id := main_teacher_id (groupForm st);
         assistant_teacher_id :=
           if bool_decide (value = js "none") then [] else value |}
      st.

(** The message of the first issue of a field, or the empty string
    ([fieldErrors]). *)
Definition fieldError (field : string) (st : State) : string :=
  match find (fun i => String.eqb (path i) field) (validation st) with
  | Some i => message i
  | None => ""
  end.

Definition untouched : Touched :=
  {| t_name := false; t_level := false; t_main_teacher_id := false;
     t_assistant_teacher_id := false |}.

Definition closeDialog (st : State) : State :=
  {| isDialogOpen := false; editingGroupId := None;
     groupForm := groupForm st; touched := touched st;
     createPending := createPending st; updatePending := updatePending st;
     env := env st |}.

Definition openCreateDialog (st : State) : State :=
  {| isDialogOpen := true; editingGroupId := None;
     groupForm := emptyGroupForm; touched := untouched;
     createPending := createPending st; updatePending := updatePending st;
     env := env st |}.

Definition openEditDialog (id : Z) (st : State) : State :=
  {| isDialogOpen := true; editingGroupId := Some id;
     groupForm := groupForm st; touched := touched st;
     createPending := createPending st; updatePending := updatePending st;
     env := env st |}.

(** Truthiness of [editingGroupId]: neither [null] nor 0. *)
Definition isEditing (st : State) : bool :=
  match editingGroupId st with
  | Some gid => negb (gid =? 0)
  | None => false
  end.

(** The group as the detail query of the dialog returns it. *)
Record GroupDetail := {
  gd_name : jsstring;
  gd_level : option jsstring;
  gd_main_teacher : option Z;
  gd_assistant_teacher : option Z
}.

(** [x?.id.toString() || ""] *)
Definition teacherIdString (t : option Z) : jsstring :=
  match t with Some i => toString i | None => [] end.

(** The effect on [editingGroupId], [groupDetail] and [isDialogOpen]: it
    fills the form from the loaded group when editing, and empties it when
    not editing. *)
Definition formEffect (groupDetail : option GroupDetail) (st : State) : State :=
  if isEditing st then
    match groupDetail with
    | Some g =>
        setTouched untouched
          (setGroupForm
             {| name := gd_name g;
                level := default [] (gd_level g);
                main_teacher_id := teacherIdString (gd_main_teacher g);
                assistant_teacher_id :=
                  teacherIdString (gd_assistant_teacher g) |}
             st)
    | None => st
    end
  else setTouched untouched (setGroupForm emptyGroupForm st).

Definition createGroupMutation_onSuccess (st : State) : State :=
  let st := withEnv (invalidateQueries [KStr (js "adminGroups")]) st in
  let st := closeDialog st in
  withEnv (toast {| variant := Default;
                    title := T "common.success";
                    description := T "admin.groups.createSuccess" |})
    st.

Definition createGroupMutation_onError (st : State) : State :=
  withEnv (toast {| variant := Destructive;
                    title := T "common.error";
                    description := T "admin.groups.createError" |})
    st.

(** The second element of the key ['adminGroupDetail', editingGroupId]. *)
Definition editingKey (st : State) : keypart :=
  match editingGroupId st with
  | Some gid => KNum gid
  | None => KNull
  end.

Definition updateGroupMutation_onSuccess (st : State) : State :=
  let st := withEnv (invalidateQueries [KStr (js "adminGroups")]) st in
  let st :=
    withEnv (invalidateQueries [KStr (js "adminGroupDetail"); editingKey st])
      st in
  let st := closeDialog st in
  withEnv (toast {| variant := Default;
                    title := T "common.success";
                    description := T "admin.groups.updateSuccess" |})
    st.

Definition updateGroupMutation_onError (st : State) : State :=
  withEnv (toast {| variant := Destructive;
                    title := T "common.error";
                    description := T "admin.groups.updateError" |})
    st.

(** The server's answer to the create call. *)
Definition createGroupMutation_settle (ok : bool) (st : State) : State :=
  let st :=
    if ok then createGroupMutation_onSuccess st
    else createGroupMutation_onError st in
  {| isDialogOpen := isDialogOpen st; editingGroupId := editingGroupId st;
     groupForm := groupForm st; touched := touched st;
     createPending := false; updatePending := updatePending st;
     env := env st |}.

(** The server's answer to the update call. *)
Definition updateGroupMutation_settle (ok : bool) (st : State) : State :=
  let st :=
    if ok then updateGroupMutation_onSuccess st
    else updateGroupMutation_onError st in
  {| isDialogOpen := isDialogOpen st; editingGroupId := editingGroupId st;
     groupForm := groupForm st; touched := touched st;
     createPending := createPending st; updatePending := false;
     env := env st |}.

End AdminGroups.

(** ** Attendance sheets of the teacher pages *)

Record GroupStudent := {
  gs_id : Z;
  gs_full_name : jsstring;
  gs_phone : jsstring
}.

(** [for (const s of students) initial[s.id] = true] *)
Definition allPresent (students : list GroupStudent) : gmap Z bool :=
  fold_left (fun initial s => <[gs_id s := true]> initial) students ∅.

(** One element of the submitted array:
    [{ student_id: s.id, is_present: (marks[s.id] ?? true) === true }] *)
Definition payloadEntry (marks : gmap Z bool) (s : GroupStudent)
  : AttendanceEntry :=
  {| student_id := gs_id s;
     is_present := Bool.eqb (default true (marks !! gs_id s)) true |}.

(** The teacher attendance page (TeacherAttendance). *)
Module TeacherAttendance.

(** [useState] cells, the query data of ['teacherGroupStudents', id] with
    its loading flag, the pending flag of [saveAttendanceMutation] and the
    environment. *)
Record State := {
  selectedDate : jsstring;
  selectedGroupId : jsstring;
  attendanceByKey : gmap jsstring (gmap Z bool);
  students : option (list GroupStudent);
  studentsLoading : bool;
  isPending : bool;
  env : Env
}.

Definition setAttendanceByKey (m : gmap jsstring (gmap Z bool)) (st : State)
  : State :=
  {| selectedDate := selectedDate st; selectedGroupId := selectedGroupId st;
     attendanceByKey := m; students := students st;
     studentsLoading := studentsLoading st; isPending := isPending st;
     env := env st |}.

Definition setPending (b : bool) (st : State) : State :=
  {| selectedDate := selectedDate st; selectedGroupId := selectedGroupId st;
     attendanceByKey := attendanceByKey st; students := students st;
     studentsLoading := studentsLoading st; isPending := b;
     env := env st |}.

Definition withEnv (f : Env -> Env) (st : State) : State :=
  {| selectedDate := selectedDate st; selectedGroupId := selectedGroupId st;
     attendanceByKey := attendanceByKey st; students := students st;
     studentsLoading := studentsLoading st; isPending := isPending st;
     env := f (env st) |}.

(** [selectedGroupId ? `${selectedGroupId}:${selectedDate}` : ""] *)
Definition key (st : State) : jsstring :=
  if truthy (selectedGroupId st)
  then selectedGroupId st ++ js ":" ++ selectedDate st
  else [].

(** [key ? attendanceByKey[key] || {} : {}] *)
Definition attendanceForSelection (st : State) : gmap Z bool :=
  if truthy (key st) then default ∅ (attendanceByKey st !! key st) else ∅.

(** The effect that initializes the sheet of the selection. *)
Definition initEffect (st : State) : State :=
  if negb (truthy (key st)) then st
  else
    match students st with
    | None | Some [] => st
    | Some l =>
        match attendanceByKey st !! key st with
        | Some _ => st
        | None =>
            setAttendanceByKey (<[key st := allPresent l]> (attendanceByKey st)) st
        end
    end.

Definition setStudentPresence (studentId : Z) (present : bool) (st : State)
  : State :=
  if negb (truthy (key st)) then st
  else
    setAttendanceByKey
      (<[key st := <[studentId := present]>
                     (default ∅ (attendanceByKey st !! key st))]>
         (attendanceByKey st))
      st.

(** A click on the present or the absent button of a student. *)
Definition mark (st : State) (m : Z * bool) : State :=
  setStudentPresence m.1 m.2 st.

Definition totalStudents (st : State) : nat :=
  match students st with Some l => length l | None => 0%nat end.

Section Handlers.
Context {NumberImpl : NumberOfString}.

Definition selectedGroupIdNum (st : State) : jsnum :=
  Number (selectedGroupId st).

Definition saveAttendanceMutation_mutate (gid : jsnum) (date : jsstring)
    (attendance : list AttendanceEntry) (st : State) : State :=
  withEnv (api_send (PostAttendance gid date attendance)) (setPending true st).

(** [onClick] of the save button. *)
Definition save_onClick (st : State) : State :=
  if negb (truthyNum (selectedGroupIdNum st)) || negb (truthy (key st)) then st
  else
    match students st with
    | None | Some [] => st
    | Some l =>
        let payloadAttendance := map (payloadEntry (attendanceForSelection st)) l in
        saveAttendanceMutation_mutate (selectedGroupIdNum st) (selectedDate st)
          payloadAttendance st
    end.

(** The save button: disabled without students, while saving, and while
    the students load. *)
Definition saveButton_onClick (st : State) : State :=
  if (totalStudents st =? 0)%nat || isPending st || studentsLoading st
  then st else save_onClick st.

End Handlers.

(** [onSuccess(data)]: [message] is [data?.message] when it is a non-empty
    string. *)
Definition saveAttendanceMutation_onSuccess (message : option jsstring)
    (st : State) : State :=
  withEnv (toast {| variant := Default;
                    title := T "common.success";
                    description :=
                      match message with
                      | Some (c :: m) => Raw (c :: m)
                      | _ => T "teacher.attendance.saveSuccess"
                      end |})
    st.

Definition saveAttendanceMutation_onError (st : State) : State :=
  withEnv (toast {| variant := Destructive;
                    title := T "common.error";
                    description := T "teacher.attendance.saveError" |})
    st.

(** The server's answer: [Some message] on success, [None] on failure. *)
Definition saveAttendanceMutation_settle (answer : option (option jsstring))
    (st : State) : State :=
  setPending false
    (match answer with
     | Some message => saveAttendanceMutation_onSuccess message st
     | None => saveAttendanceMutation_onError st
     end).

(** The date input. *)
Definition setSelectedDate (d : jsstring) (st : State) : State :=
  {| selectedDate := d; selectedGroupId := selectedGroupId st;
     attendanceByKey := attendanceByKey st; students := students st;
     studentsLoading := studentsLoading st; isPending := isPending st;
     env := env st |}.

(** [Object.values] of a sheet. *)
Definition values (sheet : gmap Z bool) : list bool := (map_to_list sheet).*2.

(** [Object.values(attendanceForSelection).filter(Boolean).length] *)
Definition presentCount (st : State) : nat :=
  length (filter (fun v => v = true) (values (attendanceForSelection st))).

(** [Object.values(attendanceForSelection).filter((v) => v === false).length] *)
Definition absentCount (st : State) : nat :=
  length (filter (fun v => v = false) (values (attendanceForSelection st))).

(** [Math.max(0, totalStudents - presentCount - absentCount)] *)
Definition unmarkedCount (st : State) : Z :=
  Z.max 0
    (Z.of_nat (totalStudents st) - Z.of_nat (presentCount st)
     - Z.of_nat (absentCount st)).

End TeacherAttendance.

(** The attendance tab of pages/teacher/GroupDetail.tsx. *)
Module GroupDetail.

Record State := {
  groupId : jsstring;
  selectedDate : jsstring;
  attendanceByDate : gmap jsstring (gmap Z bool);
  students : option (list GroupStudent);
  isPending : bool;
  env : Env
}.

Definition setAttendanceByDate (m : gmap jsstring (gmap Z bool)) (st : State)
  : State :=
  {| groupId := groupId st; selectedDate := selectedDate st;
     attendanceByDate := m; students := students st;
     isPending := isPending st; env := env st |}.

Definition mutate (r : Request) (st : State) : State :=
  {| groupId := groupId st; selectedDate := selectedDate st;
     attendanceByDate := attendanceByDate st; students := students st;
     isPending := true; env := api_send r (env st) |}.

(** [attendanceByDate[selectedDate] || {}] *)
Definition attendanceForDate (st : State) : gmap Z bool :=
  default ∅ (attendanceByDate st !! selectedDate st).

(** The effect that initializes the sheet of the selected date. *)
Definition initEffect (st : State) : State :=
  match students st with
  | None | Some [] => st
  | Some l =>
      match attendanceByDate st !! selectedDate st with
      | Some _ => st
      | None =>
          setAttendanceByDate
            (<[selectedDate st := allPresent l]> (attendanceByDate st)) st
      end
  end.

Definition setStudentPresence (studentId : Z) (isPresent : bool) (st : State)
  : State :=
  setAttendanceByDate
    (<[selectedDate st := <[studentId := isPresent]>
                            (default ∅ (attendanceByDate st !! selectedDate st))]>
       (attendanceByDate st))
    st.

(** A click on the present or the absent button of a student. *)
Definition mark (st : State) (m : Z * bool) : State :=
  setStudentPresence m.1 m.2 st.

Section Handlers.
Context {NumberImpl : NumberOfString}.

Definition groupIdNum (st : State) : jsnum := Number (groupId st).

(** [onClick] of the save button. *)
Definition save_onClick (st : State) : State :=
  match students st with
  | None | Some [] => st
  | Some l =>
      let attendance := map (payloadEntry (attendanceForDate st)) l in
      mutate (PostAttendance (groupIdNum st) (selectedDate st) attendance) st
  end.

(** The save button, [disabled={saveAttendanceMutation.isPending}]. *)
Definition saveButton_onClick (st : State) : State :=
  if isPending st then st else save_onClick st.

End Handlers.

(** The date input of the attendance tab. *)
Definition setSelectedDate (d : jsstring) (st : State) : State :=
  {| groupId := groupId st; selectedDate := d;
     attendanceByDate := attendanceByDate st; students := students st;
     isPending := isPending st; env := env st |}.

End GroupDetail.

(** A notification with the given variant, title and description. *)
Definition notify (v : Variant) (t d : Msg) : Toast :=
  {| variant := v; title := t; description := d |}.

(** The create-assignment dialog of pages/teacher/GroupDetail.tsx. *)
Module CreateAssignment.

Record NewAssignment := {
  title : jsstring;
  content : jsstring;
  due_date : jsstring
}.

(** The body of [POST /teacher/assignments]. *)
Inductive Call :=
| PostAssignment (title content : jsstring) (group_id : Z) (due_date : jsstring).

(** [group_id] is [group.id] of the group the page shows; the page is
    rendered only when that group is the one with id [groupIdNum], so the
    query key ['teacherAssignments', groupIdNum] holds the same number. *)
Record State := {
  group_id : Z;
  isCreateOpen : bool;
  newAssignment : NewAssignment;
  isPending : bool;
  sent : list Call;
  env : Env
}.

Definition emptyAssignment : NewAssignment :=
  {| title := []; content := []; due_date := [] |}.

Definition withEnv (f : Env -> Env) (st : State) : State :=
  {| group_id := group_id st; isCreateOpen := isCreateOpen st;
     newAssignment := newAssignment st; isPending := isPending st;
     sent := sent st; env := f (env st) |}.

Definition setDialog (open : bool) (a : NewAssignment) (st : State) : State :=
  {| group_id := group_id st; isCreateOpen := open;
     newAssignment := a; isPending := isPending st;
     sent := sent st; env := env st |}.

Definition createAssignmentMutation_mutate (c : Call) (st : State) : State :=
  {| group_id := group_id st; isCreateOpen := isCreateOpen st;
     newAssignment := newAssignment st; isPending := true;
     sent := sent st ++ [c]; env := env st |}.

(** [onClick] of the save button of the dialog. *)
Definition save_onClick (st : State) : State :=
  let a := newAssignment st in
  if negb (truthy (title a)) || negb (truthy (content a))
     || negb (truthy (due_date a))
  then
    withEnv (toast (notify Destructive (T "admin.groups.validationError")
                      (T "teacher.assignments.createError")))
      st
  else
    createAssignmentMutation_mutate
      (PostAssignment (title a) (content a) (group_id st) (due_date a)) st.

(** The save button, [disabled={createAssignmentMutation.isPending}]. *)
Definition saveButton_onClick (st : State) : State :=
  if isPending st then st else save_onClick st.

(** The cancel button, disabled while the call is pending. *)
Definition cancelButton_onClick (st : State) : State :=
  if isPending st then st else setDialog false (newAssignment st) st.

Definition createAssignmentMutation_onSuccess (st : State) : State :=
  let st :=
    withEnv (invalidateQueries
               [KStr (js "teacherAssignments"); KNum (group_id st)]) st in
  let st :=
    withEnv (toast (notify Default (T "common.success")
                      (T "teacher.assignments.createSuccess"))) st in
  setDialog false emptyAssignment st.

Definition createAssignmentMutation_onError (st : State) : State :=
  withEnv (toast (notify Destructive (T "common.error")
                    (T "teacher.assignments.createError")))
    st.

(** The server's answer to the pending call arrives. *)
Definition createAssignmentMutation_settle (ok : bool) (st : State) : State :=
  let st :=
    if ok then createAssignmentMutation_onSuccess st
    else createAssignmentMutation_onError st in
  {| group_id := group_id st; isCreateOpen := isCreateOpen st;
     newAssignment := newAssignment st; isPending := false;
     sent := sent st; env := env st |}.

End CreateAssignment.

(** ** Phone fields of the student and teacher forms *)

(** [\d{n}] at the head of [s]: the rest of the input after [n] digits. *)
Fixpoint matchDigits (n : nat) (s : jsstring) : option jsstring :=
  match n with
  | O => Some s
  | S n' =>
      match s with
      | c :: r => if isDigit c then matchDigits n' r else None
      | [] => None
      end
  end.

(** [/^\d{12}$/.test(s)] *)
Definition test_digits12 (s : jsstring) : bool :=
  match matchDigits 12 s with
  | Some [] => true
  | _ => false
  end.

(** The address syntax that [z.string().email()] accepts is the schema
    library's; the forms only use its verdict. *)
Class EmailSyntax := isEmail : jsstring -> bool.

(** A literal character of a pattern at the head of [s]. *)
Definition matchChar (c : N) (s : jsstring) : option jsstring :=
  match s with
  | d :: r => if (c =? d)%N then Some r else None
  | [] => None
  end.

(** [/^\d{4}-\d{2}-\d{2}$/.test(s)] *)
Definition test_date (s : jsstring) : bool :=
  match matchDigits 4 s with
  | Some r1 =>
      match matchChar 45 r1 with
      | Some r2 =>
          match matchDigits 2 r2 with
          | Some r3 =>
              match matchChar 45 r3 with
              | Some r4 =>
                  match matchDigits 2 r4 with
                  | Some [] => true
                  | _ => false
                  end
              | None => false
              end
          | None => false
          end
      | None => false
      end
  | None => false
  end.

(** The preprocessing of the optional fields: a blank string counts as
    not provided. *)
Definition blankToUndefined (v : jsstring) : option jsstring :=
  match trim v with
  | [] => None
  | _ => Some v
  end.

(** [safeParse(...).success]: no issue was found. *)
Definition accepts_issues (issues : list Issue) : bool :=
  match issues with [] => true | _ => false end.

(** The student dialog (StudentDialog): field [phone] of [studentSchema]. *)
Module StudentDialog.

Definition studentSchema_phone (phone : jsstring) : list Issue :=
  if test_digits12 phone then []
  else [{| path := "phone";
           message := "Phone number must be exactly 12 digits" |}].

Record StudentFormData := {
  name : jsstring;
  email : jsstring;
  phone : jsstring;
  avatar_url : jsstring;
  payment_expiry : jsstring;
  status : jsstring
}.

(** [studentSchema.safeParse]: the issues found, in field order. *)
Definition studentSchema {EmailImpl : EmailSyntax} (f : StudentFormData)
  : list Issue :=
  (if (1 <=? length (trim (name f)))%nat then []
   else [{| path := "name"; message := "Full name is required" |}])
  ++ studentSchema_phone (phone f)
  ++ match blankToUndefined (email f) with
     | None => []
     | Some v =>
         if isEmail v then []
         else [{| path := "email"; message := "Invalid email" |}]
     end
  ++ match blankToUndefined (payment_expiry f) with
     | None => []
     | Some v =>
         if test_date v then []
         else [{| path := "payment_expiry"; message := "Invalid date" |}]
     end.

Record Touched := {
  t_name : bool;
  t_phone : bool;
  t_email : bool;
  t_payment_expiry : bool;
  t_status : bool
}.

(** The API calls of the dialog. *)
Inductive Call :=
| PostStudent (data : StudentFormData)
| PutStudent (id : Z) (data : StudentFormData).

(** The props ([studentToEdit], by the id of the student), the [useState]
    cells, the pending flags of the two mutations, the calls sent and the
    environment. *)
Record State := {
  studentToEdit : option Z;
  formData : StudentFormData;
  createdCredentials : option jsstring;
  isCopied : bool;
  touched : Touched;
  createPending : bool;
  updatePending : bool;
  sent : list Call;
  env : Env
}.

Definition withEnv (f : Env -> Env) (st : State) : State :=
  {| studentToEdit := studentToEdit st; formData := formData st;
     createdCredentials := createdCredentials st; isCopied := isCopied st;
     touched := touched st; createPending := createPending st;
     updatePending := updatePending st; sent := sent st;
     env := f (env st) |}.

Definition setTouched (t : Touched) (st : State) : State :=
  {| studentToEdit := studentToEdit st; formData := formData st;
     createdCredentials := createdCredentials st; isCopied := isCopied st;
     touched := t; createPending := createPending st;
     updatePending := updatePending st; sent := sent st; env := env st |}.

Definition setFormData (f : StudentFormData) (st : State) : State :=
  {| studentToEdit := studentToEdit st; formData := f;
     createdCredentials := createdCredentials st; isCopied := isCopied st;
     touched := touched st; createPending := createPending st;
     updatePending := updatePending st; sent := sent st; env := env st |}.

Definition setCredentials (c : option jsstring) (copied : bool) (st : State)
  : State :=
  {| studentToEdit := studentToEdit st; formData := formData st;
     createdCredentials := c; isCopied := copied;
     touched := touched st; createPending := createPending st;
     updatePending := updatePending st; sent := sent st; env := env st |}.

Definition mutate (create : bool) (c : Call) (st : State) : State :=
  {| studentToEdit := studentToEdit st; formData := formData st;
     createdCredentials := createdCredentials st; isCopied := isCopied st;
     touched := touched st;
     createPending := if create then true else createPending st;
     updatePending := if create then updatePending st else true;
     sent := sent st ++ [c]; env := env st |}.

Section Handlers.
Context {EmailImpl : EmailSyntax}.

Definition validation (st : State) : list Issue := studentSchema (formData st).

Definition isFormValid (st : State) : bool := accepts_issues (validation st).

(** The message of the first issue of a field, or the empty string
    ([fieldErrors]). *)
Definition fieldError (field : string) (st : State) : string :=
  match find (fun i => String.eqb (path i) field) (validation st) with
  | Some i => message i
  | None => ""
  end.

Definition isSaving (st : State) : bool := createPending st || updatePending st.

Definition isSubmitDisabled (st : State) : bool :=
  isSaving st || negb (isFormValid st).

Definition handleSubmit (st : State) : State :=
  if negb (isFormValid st) then
    withEnv (toast {| variant := Destructive;
                      title := T "admin.groups.validationError";
                      description := T "admin.groups.fixFields" |})
      (setTouched {| t_name := true; t_phone := true; t_email := true;
                     t_payment_expiry := true; t_status := true |} st)
  else
    match studentToEdit st with
    | Some id => mutate false (PutStudent id (formData st)) st
    | None => mutate true (PostStudent (formData st)) st
    end.

(** The submit button: [onClick={handleSubmit}] under
    [disabled={isSubmitDisabled}]. *)
Definition submitButton_onClick (st : State) : State :=
  if isSubmitDisabled st then st else handleSubmit st.

End Handlers.

(** [handleClose]: the credentials are dropped (and the parent closes the
    dialog). *)
Definition handleClose (st : State) : State :=
  setCredentials None (isCopied st) st.

(** [onSuccess] of [createStudentMutation]; [copied] tells whether the
    clipboard accepted the password, which is when the notification is
    raised. *)
Definition createStudentMutation_onSuccess (password : jsstring)
    (copied : bool) (st : State) : State :=
  let st := withEnv (invalidateQueries [KStr (js "adminStudents")]) st in
  let st := withEnv (invalidateQueries [KStr (js "newStudents")]) st in
  let st := setCredentials (Some password) (isCopied st) st in
  if copied then
    withEnv (toast {| variant := Default;
                      title := T "common.success";
                      description := T "admin.students.createSuccess" |})
      (setCredentials (createdCredentials st) true st)
  else st.

Definition createStudentMutation_onError (st : State) : State :=
  withEnv (toast {| variant := Destructive;
                    title := T "common.error";
                    description := T "admin.students.createError" |})
    st.

Definition updateStudentMutation_onSuccess (st : State) : State :=
  let st := withEnv (invalidateQueries [KStr (js "adminStudents")]) st in
  let st := withEnv (invalidateQueries [KStr (js "newStudents")]) st in
  let st := handleClose st in
  withEnv (toast {| variant := Default;
                    title := T "common.success";
                    description := T "admin.students.updateSuccess" |})
    st.

Definition updateStudentMutation_onError (st : State) : State :=
  withEnv (toast {| variant := Destructive;
                    title := T "common.error";
                    description := T "admin.students.updateError" |})
    st.

Definition settled (create : bool) (st : State) : State :=
  {| studentToEdit := studentToEdit st; formData := formData st;
     createdCredentials := createdCredentials st; isCopied := isCopied st;
     touched := touched st;
     createPending := if create then false else createPending st;
     updatePending := if create then updatePending st else false;
     sent := sent st; env := env st |}.

(** The server's answer to the create call: [Some (password, copied)] on
    success, [None] on failure. *)
Definition createStudentMutation_settle (answer : option (jsstring * bool))
    (st : State) : State :=
  settled true
    (match answer with
     | Some (password, copied) =>
         createStudentMutation_onSuccess password copied st
     | None => createStudentMutation_onError st
     end).

(** The server's answer to the update call. *)
Definition updateStudentMutation_settle (ok : bool) (st : State) : State :=
  settled false
    (if ok then updateStudentMutation_onSuccess st
     else updateStudentMutation_onError st).

End StudentDialog.

(** The teachers page (AdminTeachers): field [phone] of [teacherSchema]. *)
Module AdminTeachers.

Definition teacherSchema_phone (phone : jsstring) : list Issue :=
  if (1 <=? length (trim phone))%nat then []
  else [{| path := "phone"; message := "Phone is required" |}].

Record TeacherFormData := {
  name : jsstring;
  email : jsstring;
  phone : jsstring;
  teacher_type : jsstring
}.

(** [teacherSchema.safeParse]: the issues found, in field order. *)
Definition teacherSchema {EmailImpl : EmailSyntax} (f : TeacherFormData)
  : list Issue :=
  (if (1 <=? length (trim (name f)))%nat then []
   else [{| path := "name"; message := "Full name is required" |}])
  ++ (if isEmail (trim (email f)) then []
      else [{| path := "email"; message := "Invalid email" |}])
  ++ teacherSchema_phone (phone f)
  ++ (if bool_decide (teacher_type f = js "main")
         || bool_decide (teacher_type f = js "assistant")
      then []
      else [{| path := "teacher_type"; message := "Role is required" |}]).

(** A teacher as the list endpoint returns it. *)
Record Teacher := {
  id : Z;
  teacher_name : jsstring;
  teacher_email : jsstring;
  teacher_phone : jsstring;
  position : option jsstring
}.

Record Touched := {
  t_name : bool;
  t_email : bool;
  t_phone : bool;
  t_teacher_type : bool
}.

(** The API calls of the page. *)
Inductive Call :=
| PostTeacher (data : TeacherFormData)
| PutTeacher (id : Z) (data : TeacherFormData)
| PatchPassword (id : Z) (new_password : jsstring).

(** The [useState] cells, the query data of ['adminTeachersList'], the
    pending flags of the three mutations, the calls sent and the
    environment. *)
Record State := {
  isDialogOpen : bool;
  editingTeacherId : option Z;
  resetPasswordId : option Z;
  newPassword : jsstring;
  teacherForm : TeacherFormData;
  touched : Touched;
  createdTeacherCredentials : option jsstring;
  teachers : option (list Teacher);
  createPending : bool;
  updatePending : bool;
  resetPending : bool;
  sent : list Call;
  env : Env
}.

Definition withEnv (f : Env -> Env) (st : State) : State :=
  {| isDialogOpen := isDialogOpen st; editingTeacherId := editingTeacherId st;
     resetPasswordId := resetPasswordId st; newPassword := newPassword st;
     teacherForm := teacherForm st; touched := touched st;
     createdTeacherCredentials := createdTeacherCredentials st;
     teachers := teachers st; createPending := createPending st;
     updatePending := updatePending st; resetPending := resetPending st;
     sent := sent st; env := f (env st) |}.

Definition setDialog (open : bool) (editing : option Z) (f : TeacherFormData)
    (t : Touched) (st : State) : State :=
  {| isDialogOpen := open; editingTeacherId := editing;
     resetPasswordId := resetPasswordId st; newPassword := newPassword st;
     teacherForm := f; touched := t;
     createdTeacherCredentials := createdTeacherCredentials st;
     teachers := teachers st; createPending := createPending st;
     updatePending := updatePending st; resetPending := resetPending st;
     sent := sent st; env := env st |}.

Definition setReset (id : option Z) (password : jsstring) (st : State) : State :=
  {| isDialogOpen := isDialogOpen st; editingTeacherId := editingTeacherId st;
     resetPasswordId := id; newPassword := password;
     teacherForm := teacherForm st; touched := touched st;
     createdTeacherCredentials := createdTeacherCredentials st;
     teachers := teachers st; createPending := createPending st;
     updatePending := updatePending st; resetPending := resetPending st;
     sent := sent st; env := env st |}.

Definition setCredentials (c : option jsstring) (st : State) : State :=
  {| isDialogOpen := isDialogOpen st; editingTeacherId := editingTeacherId st;
     resetPasswordId := resetPasswordId st; newPassword := newPassword st;
     teacherForm := teacherForm st; touched := touched st;
     createdTeacherCredentials := c;
     teachers := teachers st; createPending := createPending st;
     updatePending := updatePending st; resetPending := resetPending st;
     sent := sent st; env := env st |}.

Definition setPending (c u r : bool) (st : State) : State :=
  {| isDialogOpen := isDialogOpen st; editingTeacherId := editingTeacherId st;
     resetPasswordId := resetPasswordId st; newPassword := newPassword st;
     teacherForm := teacherForm st; touched := touched st;
     createdTeacherCredentials := createdTeacherCredentials st;
     teachers := teachers st; createPending := c;
     updatePending := u; resetPending := r;
     sent := sent st; env := env st |}.

Definition send (c : Call) (st : State) : State :=
  {| isDialogOpen := isDialogOpen st; editingTeacherId := editingTeacherId st;
     resetPasswordId := resetPasswordId st; newPassword := newPassword st;
     teacherForm := teacherForm st; touched := touched st;
     createdTeacherCredentials := createdTeacherCredentials st;
     teachers := teachers st; createPending := createPending st;
     updatePending := updatePending st; resetPending := resetPending st;
     sent := sent st ++ [c]; env := env st |}.

Definition untouched : Touched :=
  {| t_name := false; t_email := false; t_phone := false;
     t_teacher_type := false |}.

(** Truthiness of an id cell: neither [null] nor 0. *)
Definition truthyId (i : option Z) : bool :=
  match i with
  | Some z => negb (z =? 0)
  | None => false
  end.

Section Handlers.
Context {EmailImpl : EmailSyntax} {LowerImpl : LowerCase}.

Definition dialogValidation (st : State) : list Issue :=
  teacherSchema (teacherForm st).

Definition isFormValid (st : State) : bool :=
  accepts_issues (dialogValidation st).

Definition isSaving (st : State) : bool := createPending st || updatePending st.

Definition isSubmitDisabled (st : State) : bool :=
  isSaving st || negb (isFormValid st).

(** [updateTeacherMutation] puts to [/admin/teachers/${editingTeacherId}]. *)
Definition handleSubmit (st : State) : State :=
  if negb (isFormValid st) then
    withEnv (toast {| variant := Destructive;
                      title := T "admin.groups.validationError";
                      description := T "admin.groups.fixFields" |})
      (setDialog (isDialogOpen st) (editingTeacherId st) (teacherForm st)
         {| t_name := true; t_email := true; t_phone := true;
            t_teacher_type := true |} st)
  else
    match editingTeacherId st with
    | Some id =>
        if negb (id =? 0) then
          send (PutTeacher id (teacherForm st))
            (setPending (createPending st) true (resetPending st) st)
        else
          send (PostTeacher (teacherForm st))
            (setPending true (updatePending st) (resetPending st) st)
    | None =>
        send (PostTeacher (teacherForm st))
          (setPending true (updatePending st) (resetPending st) st)
    end.

(** The submit button: [onClick={handleSubmit}] under
    [disabled={isSubmitDisabled}]. *)
Definition submitButton_onClick (st : State) : State :=
  if isSubmitDisabled st then st else handleSubmit st.

Definition handleResetPassword (st : State) : State :=
  if negb (truthy (newPassword st)) || (length (newPassword st) <? 6)%nat then
    withEnv (toast {| variant := Destructive;
                      title := T "admin.groups.validationError";
                      description := T "admin.teachers.passwordMinLength" |})
      st
  else
    match resetPasswordId st with
    | Some id =>
        if negb (id =? 0) then
          send (PatchPassword id (newPassword st))
            (setPending (createPending st) (updatePending st) true st)
        else st
    | None => st
    end.

(** The save button of the reset dialog,
    [disabled={resetPasswordMutation.isPending}]. *)
Definition resetButton_onClick (st : State) : State :=
  if resetPending st then st else handleResetPassword st.

Definition openCreateDialog (st : State) : State :=
  setDialog true None
    {| name := []; email := []; phone := []; teacher_type := js "main" |}
    untouched st.

(** [teacher.position?.toLowerCase() === "main" ? "main" : "assistant"] *)
Definition teacherTypeOf (t : Teacher) : jsstring :=
  match position t with
  | Some p =>
      if bool_decide (toLowerCase p = js "main") then js "main"
      else js "assistant"
  | None => js "assistant"
  end.

Definition openEditDialog (teacher : Teacher) (st : State) : State :=
  setDialog true (Some (id teacher))
    {| name := teacher_name teacher;
       email := teacher_email teacher;
       phone := teacher_phone teacher;
       teacher_type := teacherTypeOf teacher |}
    untouched st.

(** [teachers?.filter((t) => t.position?.toLowerCase() === "main").length || 0] *)
Definition countPosition (p : jsstring) (st : State) : nat :=
  match teachers st with
  | Some l =>
      length
        (List.filter (fun t => match position t with
                               | Some q => bool_decide (toLowerCase q = p)
                               | None => false
                               end) l)
  | None => 0%nat
  end.

Definition mainTeachersCount (st : State) : nat := countPosition (js "main") st.

Definition assistantTeachersCount (st : State) : nat :=
  countPosition (js "assistant") st.

End Handlers.

Definition closeDialog (st : State) : State :=
  setDialog false None (teacherForm st) untouched st.

Definition resetPasswordMutation_onSuccess (st : State) : State :=
  withEnv (toast {| variant := Default;
                    title := T "common.success";
                    description := T "admin.teachers.passwordUpdateSuccess" |})
    (setReset None [] st).

Definition resetPasswordMutation_onError (st : State) : State :=
  withEnv (toast {| variant := Destructive;
                    title := T "common.error";
                    description := T "admin.teachers.resetPasswordError" |})
    st.

(** The server's answer to the reset call. *)
Definition resetPasswordMutation_settle (ok : bool) (st : State) : State :=
  let st :=
    if ok then resetPasswordMutation_onSuccess st
    else resetPasswordMutation_onError st in
  setPending (createPending st) (updatePending st) false st.

(** The reset button of a row, the password input and the cancel button of
    the reset dialog. *)
Definition rowReset_onClick (teacher : Teacher) (st : State) : State :=
  setReset (Some (id teacher)) (newPassword st) st.

Definition password_onChange (v : jsstring) (st : State) : State :=
  setReset (resetPasswordId st) v st.

Definition resetCancel_onClick (st : State) : State :=
  setReset None (newPassword st) st.

Definition createTeacherMutation_onSuccess (password : jsstring) (st : State)
  : State :=
  let st := withEnv (invalidateQueries [KStr (js "adminTeachersList")]) st in
  let st := closeDialog st in
  let st := setCredentials (Some password) st in
  withEnv (toast {| variant := Default;
                    title := T "common.success";
                    description := T "admin.teachers.createdSuccess" |})
    st.

Definition updateTeacherMutation_onSuccess (st : State) : State :=
  let st := withEnv (invalidateQueries [KStr (js "adminTeachersList")]) st in
  let st := closeDialog st in
  withEnv (toast {| variant := Default;
                    title := T "common.success";
                    description := T "admin.teachers.updateSuccess" |})
    st.

Definition createTeacherMutation_onError (st : State) : State :=
  withEnv (toast {| variant := Destructive;
                    title := T "common.error";
                    description := T "admin.teachers.createError" |})
    st.

Definition updateTeacherMutation_onError (st : State) : State :=
  withEnv (toast {| variant := Destructive;
                    title := T "common.error";
                    description := T "admin.teachers.updateError" |})
    st.

(** The server's answer to the create call: the generated password on
    success.  The copy of the password to the clipboard and its
    [isCopied] cell are left out; they touch no cell of [State]. *)
Definition createTeacherMutation_settle (answer : option jsstring)
    (st : State) : State :=
  let st :=
    match answer with
    | Some password => createTeacherMutation_onSuccess password st
    | None => createTeacherMutation_onError st
    end in
  setPending false (updatePending st) (resetPending st) st.

(** The server's answer to the update call. *)
Definition updateTeacherMutation_settle (ok : bool) (st : State) : State :=
  let st :=
    if ok then updateTeacherMutation_onSuccess st
    else updateTeacherMutation_onError st in
  setPending (createPending st) false (resetPending st) st.

End AdminTeachers.


(** ** Vocabulary of the specification *)

(** The cached collections named by the head of their query key. *)
Definition inCollections (names : list jsstring) (q : Query) : bool :=
  match queryKey q with
  | KStr s :: _ => bool_decide (s ∈ names)
  | _ => false
  end.

Definition markStale (q : Query) : Query :=
  {| queryKey := queryKey q; isInvalidated := true |}.

(** Exactly twelve ASCII digits. *)
Definition exactly12Digits (s : jsstring) : Prop :=
  length s = 12%nat /\ Forall (fun c => (48 <= c <= 57)%N) s.

(** A log of API calls grew by exactly the call [r]. *)
Definition issues (before after : Env) (r : Request) : Prop :=
  requests after = requests before ++ [r].

(** ** Scenarios of the specification *)

Definition freshQuery (k : QueryKey) : Query :=
  {| queryKey := k; isInvalidated := false |}.

(** The cache of an admin session: pool, lists, and the detail of group 7
    under the key of the detail page (string id) and of the groups page
    (numeric id). *)
Definition adminCache : list Query :=
  [ freshQuery [KStr (js "newStudents")];
    freshQuery [KStr (js "adminStudents")];
    freshQuery [KStr (js "adminGroups")];
    freshQuery [KStr (js "adminTeachers")];
    freshQuery [KStr (js "adminGroupDetail"); KStr (js "7")];
    freshQuery [KStr (js "adminGroupDetail"); KStr (js "8")];
    freshQuery [KStr (js "adminGroupDetail"); KNum 7] ].

Definition adminEnv : Env :=
  {| requests := []; queries := adminCache; toasts := [] |}.

(** Student 42 chosen for group 7 of level B1, dialog open. *)
Definition activate42 : AdminNewStudents.State :=
  {| AdminNewStudents.selectedStudent :=
       Some {| AdminNewStudents.id := 42;
               AdminNewStudents.full_name := js "Ann";
               AdminNewStudents.phone := js "998901234567" |};
     AdminNewStudents.selectedGroupId := js "7";
     AdminNewStudents.selectedLevel := js "B1";
     AdminNewStudents.isActivateOpen := true;
     AdminNewStudents.activateTouched := true;
     AdminNewStudents.groups :=
       Some [ {| AdminNewStudents.group_id := 7;
                 AdminNewStudents.group_name := js "Morning";
                 AdminNewStudents.group_level := js "B1" |} ];
     AdminNewStudents.isPending := false;
     AdminNewStudents.env := adminEnv |}.



(** The create dialog of the groups page as [openCreateDialog] leaves it. *)
Definition createDialog : AdminGroups.State :=
  {| AdminGroups.isDialogOpen := true;
     AdminGroups.editingGroupId := None;
     AdminGroups.groupForm := AdminGroups.emptyGroupForm;
     AdminGroups.touched :=
       {| AdminGroups.t_name := false; AdminGroups.t_level := false;
          AdminGroups.t_main_teacher_id := false;
          AdminGroups.t_assistant_teacher_id := false |};
     AdminGroups.createPending := false;
     AdminGroups.updatePending := false;
     AdminGroups.env := adminEnv |}.

(** A group form naming teacher 3 both as main and as assistant teacher. *)
Definition sameTeacherForm : AdminGroups.GroupFormData :=
  {| AdminGroups.name := js "A";
     AdminGroups.level := js "A1";
     AdminGroups.main_teacher_id := js "3";
     AdminGroups.assistant_teacher_id := js "3" |}.

Definition createSameTeacher : AdminGroups.State :=
  AdminGroups.setGroupForm sameTeacherForm createDialog.

(** The detail page of group 7 with its edit dialog open and untouched. *)
Definition detailPage7 : AdminGroupDetail.State :=
  {| AdminGroupDetail.groupId := js "7";
     AdminGroupDetail.isEditOpen := true;
     AdminGroupDetail.initialEditGroup := None;
     AdminGroupDetail.editErrors := ∅;
     AdminGroupDetail.editGroup := AdminGroupDetail.emptyEditGroup;
     AdminGroupDetail.updatePending := false;
     AdminGroupDetail.removePending := false;
     AdminGroupDetail.env := adminEnv |}.

(** The same edit form with teacher 3 in both roles. *)
Definition editSameTeacher : AdminGroupDetail.State :=
  AdminGroupDetail.setEditGroup
    {| AdminGroupDetail.name := js "A";
       AdminGroupDetail.level := js "A1";
       AdminGroupDetail.main_teacher_id := js "3";
       AdminGroupDetail.assistant_teacher_id := js "3" |}
    detailPage7.

(** [n] students with ids [first], [first + 1], ... *)
Definition studentsFrom (first : Z) (n : nat) : list AddStudentsDialog.NewStudent :=
  map (fun i => {| AddStudentsDialog.id := first + Z.of_nat i;
                   AddStudentsDialog.full_name := Some (js "Student");
                   AddStudentsDialog.phone := Some (js "998901234567") |})
    (seq 0 n).

(** The add-students dialog of group 7 with [n] unassigned students loaded,
    of which students 1 and 2 are ticked. *)
Definition addDialog (n : nat) : AddStudentsDialog.State :=
  {| AddStudentsDialog.groupId := js "7";
     AddStudentsDialog.searchQuery := [];
     AddStudentsDialog.selectedStudents := [1; 2];
     AddStudentsDialog.selectionError := "";
     AddStudentsDialog.data :=
       Some {| AddStudentsDialog.new_students := studentsFrom 1 n;
               AddStudentsDialog.students_without_group := [] |};
     AddStudentsDialog.isPending := false;
     AddStudentsDialog.env := adminEnv |}.

(** A lower-casing for running the model: ASCII letters only. *)
Definition asciiLowerCase : LowerCase :=
  map (fun c => if ((65 <=? c) && (c <=? 90))%N then (c + 32)%N else c).

(** Five students of group 7. *)
Definition fiveStudents : list GroupStudent :=
  map (fun i => {| gs_id := i; gs_full_name := js "Student";
                   gs_phone := js "998901234567" |})
    [1; 2; 3; 4; 5].

(** The attendance page on group 7 and 2024-05-01, students loaded, no
    sheet yet. *)
Definition attendancePage : TeacherAttendance.State :=
  {| TeacherAttendance.selectedDate := js "2024-05-01";
     TeacherAttendance.selectedGroupId := js "7";
     TeacherAttendance.attendanceByKey := ∅;
     TeacherAttendance.students := Some fiveStudents;
     TeacherAttendance.studentsLoading := false;
     TeacherAttendance.isPending := false;
     TeacherAttendance.env := adminEnv |}.

(** The attendance tab of the group page of group 7, same day. *)
Definition attendanceTab : GroupDetail.State :=
  {| GroupDetail.groupId := js "7";
     GroupDetail.selectedDate := js "2024-05-01";
     GroupDetail.attendanceByDate := ∅;
     GroupDetail.students := Some fiveStudents;
     GroupDetail.isPending := false;
     GroupDetail.env := adminEnv |}.

(** Students 2 and 4 marked absent on the initialized sheet. *)
Definition markedPage : TeacherAttendance.State :=
  fold_left TeacherAttendance.mark [(2, false); (4, false)]
    (TeacherAttendance.initEffect attendancePage).

Definition markedTab : GroupDetail.State :=
  fold_left GroupDetail.mark [(2, false); (4, false)]
    (GroupDetail.initEffect attendanceTab).

(** ** Further scenarios *)

(** A server error that carries an error text but no message. *)
Definition serverError : AddStudentsDialog.ApiError :=
  {| AddStudentsDialog.response_data_message := Some [];
     AddStudentsDialog.response_data_error := Some (js "Group is full");
     AddStudentsDialog.error_message :=
       Some (js "Request failed with status code 400") |}.

(** A string that is missing or empty. *)
Definition missing (o : option jsstring) : Prop := o = None \/ o = Some [].

(** [q] occurs in [s]. *)
Definition occursIn (q s : jsstring) : Prop := exists a b, s = a ++ q ++ b.

(** The add-students dialog of group 7 after the data arrived and the
    operator ticked, unticked and selected all. *)
Definition addDialogRun : list AddStudentsDialog.Event :=
  [ AddStudentsDialog.Loaded
      {| AddStudentsDialog.new_students := studentsFrom 1 3;
         AddStudentsDialog.students_without_group := studentsFrom 3 2 |};
    AddStudentsDialog.Toggle 2;
    AddStudentsDialog.SelectAll;
    AddStudentsDialog.Toggle 1 ].

(** A string with no white space at either end. *)
Definition trimmed (s : jsstring) : Prop :=
  forall c, head s = Some c \/ last s = Some c -> isWhiteSpace c = false.

(** Group 7 as the detail query returns it. *)
Definition group7 : AdminGroupDetail.GroupDetail :=
  {| AdminGroupDetail.group_name := js "Morning";
     AdminGroupDetail.group_level := Some (js "B1");
     AdminGroupDetail.main_teacher := Some 3;
     AdminGroupDetail.assistant_teacher := None |}.

(** The edit form of group 7 after the operator renamed the group. *)
Definition renamed7 : AdminGroupDetail.State :=
  AdminGroupDetail.setEditGroup
    {| AdminGroupDetail.name := js "  Evening ";
       AdminGroupDetail.level := js "B1";
       AdminGroupDetail.main_teacher_id := js "3";
       AdminGroupDetail.assistant_teacher_id := [] |}
    (AdminGroupDetail.prefillEffect (Some group7) detailPage7).

(** The create dialog of the groups page with a blank name. *)
Definition blankNameGroup : AdminGroups.State :=
  AdminGroups.setGroupForm
    {| AdminGroups.name := js "  ";
       AdminGroups.level := js "A1";
       AdminGroups.main_teacher_id := js "3";
       AdminGroups.assistant_teacher_id := [] |}
    createDialog.

(** The edit dialog of the groups page on group 7, with teacher 5 as
    assistant. *)
Definition editDialog7 : AdminGroups.State :=
  AdminGroups.setGroupForm
    {| AdminGroups.name := js "Morning ";
       AdminGroups.level := js "B1";
       AdminGroups.main_teacher_id := js "3";
       AdminGroups.assistant_teacher_id := js "5" |}
    (AdminGroups.openEditDialog 7 createDialog).

(** The create-assignment dialog of group 7 with all three fields filled;
    the title is one space. *)
Definition assignmentDialog : CreateAssignment.State :=
  {| CreateAssignment.group_id := 7;
     CreateAssignment.isCreateOpen := true;
     CreateAssignment.newAssignment :=
       {| CreateAssignment.title := js " ";
          CreateAssignment.content := js "Read unit 3";
          CreateAssignment.due_date := js "2024-05-10" |};
     CreateAssignment.isPending := false;
     CreateAssignment.sent := [];
     CreateAssignment.env := adminEnv |}.

(** [n] ASCII digits. *)
Definition digits (n : nat) (s : jsstring) : Prop :=
  length s = n /\ Forall (fun c => (48 <= c <= 57)%N) s.

(** Four digits, a hyphen, two digits, a hyphen, two digits. *)
Definition dateShape (s : jsstring) : Prop :=
  exists y m d,
    s = y ++ [45%N] ++ m ++ [45%N] ++ d
    /\ digits 4 y /\ digits 2 m /\ digits 2 d.

(** A stand-in for the schema library's address syntax in the scenarios:
    the at sign occurs. *)
Definition atSignEmail : EmailSyntax := fun s => bool_decide (64%N ∈ s).

(** The student dialog opened for a new student, with no e-mail address
    and month 99 as the expiry date. *)
Definition newStudentDialog : StudentDialog.State :=
  {| StudentDialog.studentToEdit := None;
     StudentDialog.formData :=
       {| StudentDialog.name := js " Ann Lee";
          StudentDialog.email := js " ";
          StudentDialog.phone := js "998901234567";
          StudentDialog.avatar_url := [];
          StudentDialog.payment_expiry := js "2024-99-99";
          StudentDialog.status := js "NEW_STUDENT" |};
     StudentDialog.createdCredentials := None;
     StudentDialog.isCopied := false;
     StudentDialog.touched :=
       {| StudentDialog.t_name := false; StudentDialog.t_phone := false;
          StudentDialog.t_email := false;
          StudentDialog.t_payment_expiry := false;
          StudentDialog.t_status := false |};
     StudentDialog.createPending := false;
     StudentDialog.updatePending := false;
     StudentDialog.sent := [];
     StudentDialog.env := adminEnv |}.

(** Teachers as the list endpoint returns them; the third has no
    position. *)
Definition kim : AdminTeachers.Teacher :=
  {| AdminTeachers.id := 3; AdminTeachers.teacher_name := js "Kim";
     AdminTeachers.teacher_email := js "kim@school.uz";
     AdminTeachers.teacher_phone := js "+998 90 123 45 67";
     AdminTeachers.position := Some (js "Main") |}.

Definition lola : AdminTeachers.Teacher :=
  {| AdminTeachers.id := 5; AdminTeachers.teacher_name := js "Lola";
     AdminTeachers.teacher_email := js "lola@school.uz";
     AdminTeachers.teacher_phone := js "998901234568";
     AdminTeachers.position := Some (js "Assistant") |}.

Definition omar : AdminTeachers.Teacher :=
  {| AdminTeachers.id := 8; AdminTeachers.teacher_name := js "Omar";
     AdminTeachers.teacher_email := js "omar@school.uz";
     AdminTeachers.teacher_phone := js "998901234569";
     AdminTeachers.position := None |}.

Definition teacherList : list AdminTeachers.Teacher := [kim; lola; omar].

(** The teachers page as it is first shown, once the list has arrived. *)
Definition teachersPage : AdminTeachers.State :=
  {| AdminTeachers.isDialogOpen := false;
     AdminTeachers.editingTeacherId := None;
     AdminTeachers.resetPasswordId := None;
     AdminTeachers.newPassword := [];
     AdminTeachers.teacherForm :=
       {| AdminTeachers.name := []; AdminTeachers.email := [];
          AdminTeachers.phone := [];
          AdminTeachers.teacher_type := js "main" |};
     AdminTeachers.touched := AdminTeachers.untouched;
     AdminTeachers.createdTeacherCredentials := None;
     AdminTeachers.teachers := Some teacherList;
     AdminTeachers.createPending := false;
     AdminTeachers.updatePending := false;
     AdminTeachers.resetPending := false;
     AdminTeachers.sent := [];
     AdminTeachers.env := adminEnv |}.

(** The reset-password dialog opened on the first teacher, with a
    password typed. *)
Definition typedReset : AdminTeachers.State :=
  AdminTeachers.password_onChange (js "secret1")
    (AdminTeachers.rowReset_onClick kim teachersPage).

(** The cells of the attendance page, and of the attendance tab, other
    than the sheets: what the initialization effect and the marks leave
    alone. *)
Definition samePageControls (a b : TeacherAttendance.State) : Prop :=
  TeacherAttendance.selectedGroupId a = TeacherAttendance.selectedGroupId b
  /\ TeacherAttendance.selectedDate a = TeacherAttendance.selectedDate b
  /\ TeacherAttendance.students a = TeacherAttendance.students b
  /\ TeacherAttendance.studentsLoading a = TeacherAttendance.studentsLoading b
  /\ TeacherAttendance.isPending a = TeacherAttendance.isPending b
  /\ TeacherAttendance.env a = TeacherAttendance.env b.

Definition sameTabControls (a b : GroupDetail.State) : Prop :=
  GroupDetail.groupId a = GroupDetail.groupId b
  /\ GroupDetail.selectedDate a = GroupDetail.selectedDate b
  /\ GroupDetail.students a = GroupDetail.students b
  /\ GroupDetail.isPending a = GroupDetail.isPending b
  /\ GroupDetail.env a = GroupDetail.env b.

(** ** The query client *)

Lemma partialMatchKey_prefix (a b : QueryKey) :
  partialMatchKey a b = true <-> b `prefix_of` a.
Proof.
  revert a; induction b as [|y b IH]; intros a; simpl.
  - split; [intros _; apply prefix_nil | reflexivity].
  - destruct a as [|x a].
    + split; [discriminate | intros H; by apply prefix_nil_not in H].
    + rewrite andb_true_iff, bool_decide_eq_true, IH. split.
      * intros [-> H]. by apply prefix_cons.
      * intros H. split.
        -- symmetry. by eapply prefix_cons_inv_1.
        -- by eapply prefix_cons_inv_2.
Qed.

Lemma partialMatchKey_head (s : jsstring) (a : QueryKey) :
  partialMatchKey a [KStr s] =
  match a with KStr s' :: _ => bool_decide (s' = s) | _ => false end.
Proof.
  destruct a as [|[s'| |] a]; simpl; try done.
  rewrite andb_true_r. apply bool_decide_ext. split; congruence.
Qed.

Lemma invalidate_queryKey (k : QueryKey) (q : Query) :
  queryKey (invalidate k q) = queryKey q.
Proof. unfold invalidate. by destruct (partialMatchKey _ _). Qed.

Lemma invalidate_spec (k : QueryKey) (q : Query) :
  invalidate k q = if partialMatchKey (queryKey q) k then markStale q else q.
Proof. reflexivity. Qed.

(** ** Ids as strings and numbers *)

Lemma uintOfDigits_digitsOfUint (d : Decimal.uint) :
  uintOfDigits (digitsOfUint d) = Some d.
Proof. induction d; simpl; rewrite ?IHd; reflexivity. Qed.

Lemma digitsOfUint_head (d : Decimal.uint) (c : N) (r : jsstring) :
  digitsOfUint d = c :: r -> (c =? 45)%N = false.
Proof. destruct d; simpl; intros [= <- _]; reflexivity. Qed.

Lemma digitsOfUint_nil (d : Decimal.uint) :
  digitsOfUint d = [] -> d = Decimal.Nil.
Proof. destruct d; simpl; intros H; congruence. Qed.

(** Reading back the string of an integer id gives the id. *)
Lemma decimalNumber_toString (z : Z) :
  decimalNumber (toString z) = JFin (inject_Z z).
Proof.
  rewrite <- (DecimalZ.of_to z) at 2. unfold toString.
  destruct (Z.to_int z) as [d|d] eqn:E.
  - destruct (digitsOfUint d) as [|c r] eqn:Hd.
    + apply digitsOfUint_nil in Hd. subst d. reflexivity.
    + unfold decimalNumber. rewrite (digitsOfUint_head _ _ _ Hd).
      rewrite <- Hd, uintOfDigits_digitsOfUint. reflexivity.
  - assert (d <> Decimal.Nil) as Hn.
    { destruct z as [|p|p]; simpl in E; try discriminate.
      injection E as <-. apply DecimalPos.Unsigned.to_uint_nonnil. }
    pose proof (uintOfDigits_digitsOfUint d) as Hu.
    destruct (digitsOfUint d) as [|c r] eqn:Hd;
      [by apply digitsOfUint_nil in Hd|].
    unfold decimalNumber. rewrite N.eqb_refl, Hu. reflexivity.
Qed.

(** ** Activation of a new student *)

Section ActivationWorkflow.
Import AdminNewStudents.
Context {NumberImpl : NumberOfString}.

Lemma activateSchema_valid (sid : Z) (gid lvl : jsstring) :
  activateSchema sid gid lvl = [] <-> 0 < sid /\ gid <> [] /\ lvl <> [].
Proof.
  unfold activateSchema.
  destruct (Z.ltb_spec 0 sid) as [Hs|Hs], gid as [|c g], lvl as [|d l];
    simpl; split; try discriminate; try (intros (? & ? & ?); congruence);
    try lia; try (intros (? & ? & ?); lia).
  intros _. repeat split; first lia; discriminate.
Qed.

Lemma isActivateValid_iff (st : State) :
  isActivateValid st = true <->
  0 < studentId st /\ selectedGroupId st <> [] /\ selectedLevel st <> [].
Proof.
  unfold isActivateValid, activateValidation.
  rewrite <- activateSchema_valid.
  destruct (activateSchema _ _ _); split; congruence.
Qed.

Lemma valid_has_student (st : State) :
  isActivateValid st = true ->
  exists s, selectedStudent st = Some s /\ id s = studentId st.
Proof.
  intros Hv. apply isActivateValid_iff in Hv as (H & _).
  unfold studentId in *. destruct (selectedStudent st) as [s|]; [eauto | lia].
Qed.

Lemma not_grown {A} (l : list A) (x : A) : l <> l ++ [x].
Proof.
  intros H. apply (f_equal length) in H.
  rewrite length_app in H. simpl in H. lia.
Qed.

(** What the submit button does, by cases on its guard. *)
Lemma activateButton_enabled (st : State) :
  isActivateValid st = true -> isPending st = false ->
  activateButton_onClick st =
  activateMutation_mutate (studentId st) (Number (selectedGroupId st))
    (selectedLevel st) st.
Proof.
  intros Hv Hp. unfold activateButton_onClick, isActivateDisabled, isActivating.
  rewrite Hv, Hp. simpl. unfold handleActivate. rewrite Hv. simpl.
  destruct (valid_has_student st Hv) as (s & -> & <-). reflexivity.
Qed.

Lemma activateButton_disabled (st : State) :
  isActivateValid st = false \/ isPending st = true ->
  activateButton_onClick st = st.
Proof.
  intros H. unfold activateButton_onClick, isActivateDisabled, isActivating.
  destruct H as [-> | ->]; [reflexivity|].
  by rewrite orb_true_r.
Qed.

(** The handler alone checks the schema, whatever the pending flag. *)
Lemma handleActivate_invalid (st : State) :
  isActivateValid st = false ->
  requests (env (handleActivate st)) = requests (env st).
Proof. intros H. unfold handleActivate. by rewrite H. Qed.

(** The level is derived from the chosen group: a non-empty level after a
    choice is the level of a listed group with that id. *)
Lemma handleGroupChange_level (gid : jsstring) (st : State) :
  selectedGroupId (handleGroupChange gid st) = gid
  /\ (selectedLevel (handleGroupChange gid st) <> [] ->
      exists gs g,
        groups st = Some gs /\ In g gs /\ toString (group_id g) = gid
        /\ group_level g = selectedLevel (handleGroupChange gid st)).
Proof.
  unfold handleGroupChange. split.
  { by destruct (negb (activateTouched st)). }
  assert (groups (if negb (activateTouched st)
                  then setActivateTouched true st else st) = groups st) as ->
    by (by destruct (negb (activateTouched st))).
  simpl. destruct (groups st) as [gs|]; [|done].
  destruct (find _ gs) as [g|] eqn:Hf; [|done].
  intros _. apply find_some in Hf as [Hin Heq].
  apply bool_decide_eq_true in Heq. by exists gs, g.
Qed.

(** C1. An activation attempt issues the activation call if and only if
    the selected student's id is positive, the group id and the derived
    level are non-empty strings, and no activation request is in flight;
    when one of these fails the log of network calls is unchanged. *)
Theorem activation_submission_guard (st : State) :
  ((exists r, issues (env st) (env (activateButton_onClick st)) r) <->
   (0 < studentId st /\ selectedGroupId st <> [] /\ selectedLevel st <> []
    /\ isPending st = false))
  /\ (~ (0 < studentId st /\ selectedGroupId st <> []
         /\ selectedLevel st <> [] /\ isPending st = false) ->
      requests (env (activateButton_onClick st)) = requests (env st)).
Proof.
  destruct (isActivateValid st) eqn:Hv, (isPending st) eqn:Hp.
  - rewrite activateButton_disabled by auto.
    apply isActivateValid_iff in Hv. split; [split|done].
    + intros [r Hr]. by apply not_grown in Hr.
    + intros (_ & _ & _ & ?). discriminate.
  - rewrite activateButton_enabled by auto.
    apply isActivateValid_iff in Hv as (? & ? & ?). split; [split|].
    + intros _. by repeat split.
    + intros _. eexists. reflexivity.
    + intros Hn. destruct Hn. by repeat split.
  - rewrite activateButton_disabled by auto. split; [split|done].
    + intros [r Hr]. by apply not_grown in Hr.
    + intros (_ & _ & _ & ?). discriminate.
  - rewrite activateButton_disabled by auto. split; [split|done].
    + intros [r Hr]. by apply not_grown in Hr.
    + intros (H1 & H2 & H3 & _).
      assert (isActivateValid st = true) by (by apply isActivateValid_iff).
      congruence.
Qed.

Lemma elem_of_three (s a b c : jsstring) :
  bool_decide (s ∈ [a; b; c])
  = bool_decide (s = a) || bool_decide (s = b) || bool_decide (s = c).
Proof.
  apply eq_true_iff_eq. rewrite !orb_true_iff, !bool_decide_eq_true.
  rewrite !elem_of_cons, elem_of_nil. tauto.
Qed.

Lemma activation_onSuccess_queries (st : State) :
  queries (env (activateMutation_onSuccess st)) =
  map (fun q =>
         if inCollections [js "newStudents"; js "adminStudents"; js "adminGroups"] q
         then markStale q else q)
    (queries (env st)).
Proof.
  unfold activateMutation_onSuccess. simpl.
  rewrite !map_map. apply map_ext. intros q.
  unfold invalidate at 1. rewrite !invalidate_queryKey.
  unfold invalidate at 1. rewrite !invalidate_queryKey.
  unfold invalidate, inCollections, markStale.
  rewrite !partialMatchKey_head.
  destruct q as [[|[s| |] k] b]; simpl; try reflexivity.
  rewrite elem_of_three.
  destruct (bool_decide (s = js "newStudents")),
    (bool_decide (s = js "adminStudents")),
    (bool_decide (s = js "adminGroups")); reflexivity.
Qed.

(** C2. A successful activation makes exactly one call, carrying the
    student id, the numeric group id and the level; on success the cached
    collections 'newStudents', 'adminStudents' and 'adminGroups', and no
    other, are marked stale, the student, group and level selections are
    cleared, and the dialog is closed. *)
Theorem activation_success (st : State) :
  isActivateValid st = true -> isPending st = false ->
  requests (env (activateMutation_settle true (activateButton_onClick st)))
  = requests (env st)
    ++ [PostActivateStudent (studentId st) (Number (selectedGroupId st))
          (selectedLevel st)]
  /\ queries (env (activateMutation_settle true (activateButton_onClick st)))
     = map (fun q =>
              if inCollections
                   [js "newStudents"; js "adminStudents"; js "adminGroups"] q
              then markStale q else q)
         (queries (env st))
  /\ selectedStudent (activateMutation_settle true (activateButton_onClick st))
     = None
  /\ selectedGroupId (activateMutation_settle true (activateButton_onClick st))
     = []
  /\ selectedLevel (activateMutation_settle true (activateButton_onClick st))
     = []
  /\ isActivateOpen (activateMutation_settle true (activateButton_onClick st))
     = false
  /\ isPending (activateMutation_settle true (activateButton_onClick st))
     = false.
Proof.
  intros Hv Hp. rewrite activateButton_enabled by assumption.
  unfold activateMutation_settle.
  split; [reflexivity|]. split; [|by repeat split].
  exact (activation_onSuccess_queries
           (activateMutation_mutate (studentId st)
              (Number (selectedGroupId st)) (selectedLevel st) st)).
Qed.

(** While the request is pending every control of the dialog is inert. *)
Lemma pending_dialog_inert (st : State) (e : DialogEvent) :
  isPending st = true -> dialogStep st e = st.
Proof.
  intros Hp. destruct e; simpl.
  - apply activateButton_disabled. by right.
  - unfold cancelButton_onClick, isActivating. by rewrite Hp.
  - unfold dialog_onOpenChange, isActivating. by rewrite Hp.
  - unfold groupSelect_onValueChange, isActivating. by rewrite Hp.
Qed.

Lemma pending_dialog_run (st : State) (es : list DialogEvent) :
  isPending st = true -> fold_left dialogStep es st = st.
Proof.
  intros Hp. induction es as [|e es IH]; simpl; [done|].
  by rewrite pending_dialog_inert.
Qed.

(** C3. When the submitted activation fails, whatever the operator tried
    in the dialog meanwhile, the dialog is as open as it was, the selected
    student, group and level are those of the submission, one destructive
    notification is added, no cached query is touched and no further call
    was made. *)
Theorem activation_failure (st : State) (es : list DialogEvent) :
  isActivateValid st = true -> isPending st = false ->
  isActivateOpen
    (activateMutation_settle false
       (fold_left dialogStep es (activateButton_onClick st)))
  = isActivateOpen st
  /\ selectedStudent
       (activateMutation_settle false
          (fold_left dialogStep es (activateButton_onClick st)))
     = selectedStudent st
  /\ selectedGroupId
       (activateMutation_settle false
          (fold_left dialogStep es (activateButton_onClick st)))
     = selectedGroupId st
  /\ selectedLevel
       (activateMutation_settle false
          (fold_left dialogStep es (activateButton_onClick st)))
     = selectedLevel st
  /\ queries
       (env (activateMutation_settle false
               (fold_left dialogStep es (activateButton_onClick st))))
     = queries (env st)
  /\ toasts
       (env (activateMutation_settle false
               (fold_left dialogStep es (activateButton_onClick st))))
     = toasts (env st)
       ++ [{| variant := Destructive; title := T "common.error";
              description := T "admin.newStudents.activateError" |}]
  /\ requests
       (env (activateMutation_settle false
               (fold_left dialogStep es (activateButton_onClick st))))
     = requests (env st)
       ++ [PostActivateStudent (studentId st) (Number (selectedGroupId st))
             (selectedLevel st)]
  /\ isPending
       (activateMutation_settle false
          (fold_left dialogStep es (activateButton_onClick st)))
     = false.
Proof.
  intros Hv Hp. rewrite activateButton_enabled by assumption.
  rewrite pending_dialog_run by reflexivity.
  by repeat split.
Qed.

End ActivationWorkflow.

(** The scenario of the specification: student 42 into group 7, level B1. *)
Lemma activation_success_witness :
  AdminNewStudents.isActivateValid activate42 = true
  /\ requests
       (AdminNewStudents.env
          (AdminNewStudents.activateMutation_settle true
             (AdminNewStudents.activateButton_onClick
                (NumberImpl := decimalNumber) activate42)))
     = [PostActivateStudent 42 (JFin (inject_Z 7)) (js "B1")]
  /\ AdminNewStudents.isActivateOpen
       (AdminNewStudents.activateMutation_settle true
          (AdminNewStudents.activateButton_onClick
             (NumberImpl := decimalNumber) activate42))
     = false.
Proof.
  split; [reflexivity|].
  destruct (activation_success (NumberImpl := decimalNumber) activate42
              eq_refl eq_refl) as (Hr & _ & _ & _ & _ & Ho & _).
  split; [exact Hr | exact Ho].
Defined.

Lemma activation_failure_witness :
  AdminNewStudents.selectedGroupId
    (AdminNewStudents.activateMutation_settle false
       (fold_left (AdminNewStudents.dialogStep (NumberImpl := decimalNumber))
          [AdminNewStudents.ClickCancel;
           AdminNewStudents.SelectGroup (js "8");
           AdminNewStudents.ClickActivate]
          (AdminNewStudents.activateButton_onClick
             (NumberImpl := decimalNumber) activate42)))
  = js "7".
Proof.
  destruct (activation_failure (NumberImpl := decimalNumber) activate42
              [AdminNewStudents.ClickCancel;
               AdminNewStudents.SelectGroup (js "8");
               AdminNewStudents.ClickActivate]
              eq_refl eq_refl) as (_ & _ & Hg & _).
  exact Hg.
Defined.

Lemma activation_submission_guard_witness :
  exists r,
    issues adminEnv
      (AdminNewStudents.env
         (AdminNewStudents.activateButton_onClick
            (NumberImpl := decimalNumber) activate42)) r.
Proof.
  apply (activation_submission_guard (NumberImpl := decimalNumber) activate42).
  repeat split; try discriminate; reflexivity.
Defined.

(** ** Phone numbers *)

Lemma isDigit_spec (c : N) : isDigit c = true <-> (48 <= c <= 57)%N.
Proof. unfold isDigit. rewrite andb_true_iff, !N.leb_le. tauto. Qed.

Lemma matchDigits_spec (n : nat) (s r : jsstring) :
  matchDigits n s = Some r <->
  exists p, s = p ++ r /\ length p = n /\ Forall (fun c => (48 <= c <= 57)%N) p.
Proof.
  revert s. induction n as [|n IH]; intros s; simpl.
  - split.
    + intros [= ->]. exists []. by repeat split.
    + intros (p & -> & Hl & _). destruct p; [reflexivity | discriminate].
  - destruct s as [|c s].
    + split; [discriminate|]. intros ([|d p] & Hs & Hl & _); discriminate.
    + destruct (isDigit c) eqn:Hc.
      * rewrite IH. apply isDigit_spec in Hc. split.
        -- intros (p & -> & Hl & Hp). exists (c :: p).
           repeat split; [simpl; by rewrite Hl | by constructor].
        -- intros ([|d p] & Hs & Hl & Hp); [discriminate|].
           injection Hs as -> ->. injection Hl as Hl.
           apply Forall_cons in Hp as [_ Hp]. by exists p.
      * split; [discriminate|].
        intros ([|d p] & Hs & Hl & Hp); [discriminate|].
        injection Hs as -> ->. apply Forall_cons in Hp as [Hd _].
        apply isDigit_spec in Hd. congruence.
Qed.

Lemma test_digits12_spec (s : jsstring) :
  test_digits12 s = true <-> exactly12Digits s.
Proof.
  unfold test_digits12, exactly12Digits.
  destruct (matchDigits 12 s) as [r|] eqn:Hm.
  - apply matchDigits_spec in Hm as (p & -> & Hl & Hp).
    destruct r as [|c r].
    + rewrite app_nil_r. by split.
    + split; [discriminate|]. intros [Hlen _].
      rewrite length_app in Hlen. simpl in Hlen. lia.
  - split; [discriminate|]. intros [Hl Hp].
    assert (matchDigits 12 s = Some []) as Hs; [|congruence].
    apply matchDigits_spec. exists s. by rewrite app_nil_r.
Qed.

Lemma trimStart_nil (s : jsstring) :
  trimStart s = [] <-> Forall (fun c => isWhiteSpace c = true) s.
Proof.
  induction s as [|c s IH]; simpl.
  - split; [constructor | reflexivity].
  - destruct (isWhiteSpace c) eqn:Hc.
    + rewrite IH. split; [by constructor|].
      intros H. by apply Forall_cons in H as [_ H].
    + split; [discriminate|]. intros H.
      apply Forall_cons in H as [H _]. congruence.
Qed.

Lemma trimStart_blank (s : jsstring) :
  Forall (fun c => isWhiteSpace c = true) (trimStart s) <->
  Forall (fun c => isWhiteSpace c = true) s.
Proof.
  induction s as [|c s IH]; simpl; [reflexivity|].
  destruct (isWhiteSpace c) eqn:Hc; [|reflexivity].
  rewrite IH. split; [by constructor|].
  intros H. by apply Forall_cons in H as [_ H].
Qed.

Lemma Forall_rev_iff {A} (P : A -> Prop) (l : list A) :
  Forall P (rev l) <-> Forall P l.
Proof.
  split; intros H.
  - rewrite <- (rev_involutive l). by apply Forall_rev.
  - by apply Forall_rev.
Qed.

(** [trim] leaves nothing exactly when the string is blank. *)
Lemma trim_nil (s : jsstring) :
  trim s = [] <-> Forall (fun c => isWhiteSpace c = true) s.
Proof.
  unfold trim, trimEnd.
  rewrite <- trimStart_blank, <- (Forall_rev_iff _ (trimStart s)).
  rewrite <- trimStart_nil.
  split; intros H.
  - apply (f_equal (@rev N)) in H. by rewrite rev_involutive in H.
  - by rewrite H.
Qed.


Lemma blank_or_not (p : jsstring) :
  Forall (fun c => isWhiteSpace c = true) p
  \/ Exists (fun c => isWhiteSpace c = false) p.
Proof.
  induction p as [|c p [IH|IH]].
  - left. constructor.
  - destruct (isWhiteSpace c) eqn:Hc.
    + left. by constructor.
    + right. by apply Exists_cons_hd.
  - right. by apply Exists_cons_tl.
Qed.

Lemma blank_not_both (p : jsstring) :
  Forall (fun c => isWhiteSpace c = true) p ->
  Exists (fun c => isWhiteSpace c = false) p -> False.
Proof.
  intros Hf He. induction He as [c p Hc | c p He IH].
  - apply Forall_cons in Hf as [Hf _]. congruence.
  - apply Forall_cons in Hf as [_ Hf]. by apply IH.
Qed.





(** ** Main and assistant teacher of a group *)

Section GroupForms.
Context {NumberImpl : NumberOfString}.

(** The edit form of the detail page reports the conflict on the
    assistant-teacher field and does not submit. *)
Lemma validateEditGroup_same_teacher (st : AdminGroupDetail.State) :
  AdminGroupDetail.assistant_teacher_id (AdminGroupDetail.editGroup st) <> [] ->
  AdminGroupDetail.assistant_teacher_id (AdminGroupDetail.editGroup st)
  = AdminGroupDetail.main_teacher_id (AdminGroupDetail.editGroup st) ->
  AdminGroupDetail.validateEditGroup st !! "assistant_teacher_id"
  = Some "admin.groups.detail.assistantDifferent"
  /\ AdminGroupDetail.isEditValid st = false
  /\ requests (AdminGroupDetail.env (AdminGroupDetail.handleUpdateGroup st))
     = requests (AdminGroupDetail.env st).
Proof.
  intros Hne Heq.
  assert (exists m : gmap string string,
             AdminGroupDetail.validateEditGroup st
             = <["assistant_teacher_id" :=
                   "admin.groups.detail.assistantDifferent"]> m) as [m Hm].
  { unfold AdminGroupDetail.validateEditGroup.
    rewrite Heq in *. rewrite bool_decide_eq_true_2 by reflexivity.
    destruct (AdminGroupDetail.main_teacher_id (AdminGroupDetail.editGroup st));
      [done|]. simpl. eexists. reflexivity. }
  assert (size (AdminGroupDetail.validateEditGroup st) <> 0%nat) as Hs.
  { rewrite Hm. intros H0. apply map_size_empty_iff in H0.
    by apply insert_non_empty in H0. }
  split; [by rewrite Hm, lookup_insert_eq|]. split.
  - unfold AdminGroupDetail.isEditValid, AdminGroupDetail.noKeys.
    by apply Nat.eqb_neq.
  - unfold AdminGroupDetail.handleUpdateGroup.
    destruct (Nat.ltb_spec 0 (size (AdminGroupDetail.validateEditGroup st)));
      [reflexivity | lia].
Qed.

(** The schema of the groups page has no rule on the assistant field. *)
Lemma groupSchema_ignores_assistant (f : AdminGroups.GroupFormData)
    (a : jsstring) :
  AdminGroups.groupSchema
    {| AdminGroups.name := AdminGroups.name f;
       AdminGroups.level := AdminGroups.level f;
       AdminGroups.main_teacher_id := AdminGroups.main_teacher_id f;
       AdminGroups.assistant_teacher_id := a |}
  = AdminGroups.groupSchema f.
Proof. reflexivity. Qed.

End GroupForms.

(** C5 at the form that names teacher 3 twice: the schema of the groups
    page finds no issue and the create call is sent with both ids equal,
    while the edit form of the detail page rejects the same input. *)
Theorem groups_page_accepts_same_teacher :
  AdminGroups.groupSchema sameTeacherForm = []
  /\ requests
       (AdminGroups.env
          (AdminGroups.submitButton_onClick (NumberImpl := decimalNumber)
             createSameTeacher))
     = [PostGroup (js "A") (js "A1") (JFin (inject_Z 3))
          (Some (JFin (inject_Z 3)))]
  /\ AdminGroupDetail.validateEditGroup editSameTeacher
       !! "assistant_teacher_id"
     = Some "admin.groups.detail.assistantDifferent"
  /\ requests
       (AdminGroupDetail.env
          (AdminGroupDetail.handleUpdateGroup (NumberImpl := decimalNumber)
             editSameTeacher))
     = [].
Proof.
  split; [reflexivity|]. split; [reflexivity|].
  destruct (validateEditGroup_same_teacher (NumberImpl := decimalNumber)
              editSameTeacher) as (H1 & _ & H2);
    [discriminate | reflexivity |].
  split; [exact H1 | exact H2].
Qed.

(** C9 fails: on both forms the state after choosing "none" is the state
    in which no assistant has been chosen yet. *)
Lemma none_marker_conflated :
  ~ (AdminGroups.assistantSelect_onValueChange (js "none") createDialog
     <> createDialog)
  /\ ~ (AdminGroupDetail.assistantSelect_onValueChange (js "none") detailPage7
        <> detailPage7).
Proof. split; intros H; apply H; reflexivity. Qed.

(** C9, as the code has it.  The assistant-teacher select offers an option
    whose value is "none"; choosing it stores the empty string, which is
    also the value of the field before any choice, and every other option
    is stored unchanged. *)
Theorem none_option_stored_as_empty (v : jsstring) :
  (forall st, AdminGroups.isSaving st = false ->
     AdminGroups.assistant_teacher_id
       (AdminGroups.groupForm (AdminGroups.assistantSelect_onValueChange v st))
     = if bool_decide (v = js "none")
       then AdminGroups.assistant_teacher_id AdminGroups.emptyGroupForm
       else v)
  /\ (forall st,
        AdminGroupDetail.assistant_teacher_id
          (AdminGroupDetail.editGroup
             (AdminGroupDetail.assistantSelect_onValueChange v st))
        = if bool_decide (v = js "none")
          then AdminGroupDetail.assistant_teacher_id
                 AdminGroupDetail.emptyEditGroup
          else v).
Proof.
  split; intros st; [intros Hsaving|].
  - unfold AdminGroups.assistantSelect_onValueChange.
    rewrite Hsaving. simpl. by case_bool_decide.
  - unfold AdminGroupDetail.assistantSelect_onValueChange. simpl.
    by case_bool_decide.
Qed.

Lemma none_option_stored_as_empty_witness :
  AdminGroups.assistant_teacher_id
    (AdminGroups.groupForm
       (AdminGroups.assistantSelect_onValueChange (js "none") createSameTeacher))
  = []
  /\ AdminGroupDetail.assistant_teacher_id
       (AdminGroupDetail.editGroup
          (AdminGroupDetail.assistantSelect_onValueChange (js "5")
             editSameTeacher))
     = js "5".
Proof.
  destruct (none_option_stored_as_empty (js "none")) as [Hg _].
  destruct (none_option_stored_as_empty (js "5")) as [_ Hd].
  split; [exact (Hg createSameTeacher eq_refl) | exact (Hd editSameTeacher)].
Defined.

(** ** Adding students to a group *)

Lemma Set_add_fold (xs acc : list Z) :
  NoDup acc ->
  NoDup (fold_left Set_add xs acc)
  /\ forall x, x ∈ fold_left Set_add xs acc <-> x ∈ acc \/ x ∈ xs.
Proof.
  revert acc. induction xs as [|a xs IH]; intros acc Hnd; simpl.
  - split; [assumption|]. intros x. rewrite elem_of_nil. tauto.
  - unfold Set_add at 2 4. case_bool_decide as Ha.
    + destruct (IH acc Hnd) as [H1 H2]. split; [assumption|].
      intros x. rewrite H2, elem_of_cons. split; [tauto|].
      intros [?|[->|?]]; tauto.
    + assert (NoDup (acc ++ [a])) as Hnd'.
      { apply NoDup_app. split; [assumption|]. split; [|apply NoDup_singleton].
        intros x Hx Hx'. apply list_elem_of_singleton in Hx'. by subst. }
      destruct (IH _ Hnd') as [H1 H2]. split; [assumption|].
      intros x. rewrite H2, !elem_of_app, !elem_of_cons, !elem_of_nil.
      tauto.
Qed.

Lemma Array_from_Set_NoDup (xs : list Z) : NoDup (Array_from_Set xs).
Proof. apply Set_add_fold. constructor. Qed.

Lemma Array_from_Set_elem (xs : list Z) (x : Z) :
  x ∈ Array_from_Set xs <-> x ∈ xs.
Proof.
  unfold Array_from_Set.
  destruct (Set_add_fold xs [] (NoDup_nil_2 (A := Z))) as [_ H].
  rewrite H, elem_of_nil. tauto.
Qed.

Lemma Set_add_fold_distinct (xs acc : list Z) :
  NoDup (acc ++ xs) -> fold_left Set_add xs acc = acc ++ xs.
Proof.
  revert acc. induction xs as [|a xs IH]; intros acc Hnd; simpl.
  - by rewrite app_nil_r.
  - assert (a ∉ acc) as Ha.
    { apply NoDup_app in Hnd as (_ & Hd & _). intros Hin.
      apply (Hd a Hin). by left. }
    unfold Set_add at 2. rewrite bool_decide_eq_false_2 by assumption.
    rewrite IH; rewrite <- app_assoc; [reflexivity | exact Hnd].
Qed.

(** A selection without repetition is its own set. *)
Lemma Array_from_Set_distinct (xs : list Z) :
  NoDup xs -> Array_from_Set xs = xs.
Proof. intros H. by apply (Set_add_fold_distinct xs []). Qed.

Section BatchAdd.
Import AddStudentsDialog.
Context {NumberImpl : NumberOfString} {LowerImpl : LowerCase}.

Lemma handleAddStudents_cases (st : State) :
  (handleAddStudents st
   = mutate (PostAddStudents (numericGroupId st) (selectedStudents st)) st
   /\ isGroupIdValid st = true
   /\ (1 <= length (Array_from_Set (selectedStudents st)) <= 100)%nat)
  \/ (requests (env (handleAddStudents st)) = requests (env st)
      /\ isPending (handleAddStudents st) = isPending st
      /\ selectedStudents (handleAddStudents st) = selectedStudents st
      /\ selectionError (handleAddStudents st) <> ""
      /\ (isGroupIdValid st = false
          \/ length (Array_from_Set (selectedStudents st)) = 0%nat
          \/ (100 < length (Array_from_Set (selectedStudents st)))%nat)).
Proof.
  unfold handleAddStudents.
  destruct (isGroupIdValid st) eqn:Hg; simpl.
  2: { right. repeat split; [discriminate | by left]. }
  destruct (Nat.eqb_spec (length (Array_from_Set (selectedStudents st))) 0)
    as [H0|H0].
  { right. repeat split; [discriminate | right; by left]. }
  destruct (Nat.ltb_spec 100 (length (Array_from_Set (selectedStudents st))))
    as [H1|H1].
  { right. repeat split; [discriminate | right; by right]. }
  left. repeat split; lia.
Qed.

(** The selection never holds an id twice. *)
Lemma step_NoDup (st : State) (e : Event) :
  NoDup (selectedStudents st) -> NoDup (selectedStudents (step st e)).
Proof.
  intros Hnd. destruct e; simpl.
  - unfold handleToggleStudent. simpl. case_bool_decide as Hin.
    + by apply NoDup_filter.
    + apply NoDup_app. split; [assumption|]. split; [|apply NoDup_singleton].
      intros x Hx Hx'. apply list_elem_of_singleton in Hx'. by subst.
  - unfold selectAllButton_onClick.
    destruct (_ || _); [assumption|].
    unfold handleSelectAllFiltered. simpl.
    destruct (_ <? _)%nat; simpl; [assumption | apply Array_from_Set_NoDup].
  - destruct (_ || _); [assumption | constructor].
  - unfold addButton_onClick. destruct (_ || _); [assumption|].
    destruct (handleAddStudents_cases st) as [(-> & _) | (_ & _ & -> & _)];
      assumption.
  - unfold search_onChange. by destruct (isSubmitting st).
  - assumption.
  - unfold addStudentsMutation_settle.
    destruct answer; simpl; [assumption | constructor].
Qed.

Lemma run_NoDup (es : list Event) (st : State) :
  NoDup (selectedStudents st) ->
  NoDup (selectedStudents (fold_left step es st)).
Proof.
  revert st. induction es as [|e es IH]; intros st Hnd; simpl; [assumption|].
  apply IH. by apply step_NoDup.
Qed.

Lemma handleAddStudents_issues (st : State) (r : Request) :
  issues (env st) (env (handleAddStudents st)) r ->
  r = PostAddStudents (numericGroupId st) (selectedStudents st)
  /\ (1 <= length (Array_from_Set (selectedStudents st)) <= 100)%nat.
Proof.
  intros Hr. unfold issues in Hr.
  destruct (handleAddStudents_cases st) as [(Heq & _ & Hlen) | (Hsame & _)].
  - rewrite Heq in Hr. simpl in Hr. apply app_inv_head in Hr.
    injection Hr as <-. by split.
  - rewrite Hsame in Hr. by apply not_grown in Hr.
Qed.

(** C6. The add action counts the selection without repetitions: an empty
    selection, or one of more than 100 distinct students, is rejected with
    an error and no network call; a call that is issued carries the
    selection, of between 1 and 100 distinct students.  Selecting all
    filtered students when the union with the selection exceeds 100 leaves
    the selection as it was and shows the capacity error; a union of up to
    100, and so of exactly 100, becomes the selection, without repetition
    and with no error. *)
Theorem batch_add_rules (st : State) :
  ((length (Array_from_Set (selectedStudents st)) = 0%nat
    \/ (100 < length (Array_from_Set (selectedStudents st)))%nat) ->
   requests (env (handleAddStudents st)) = requests (env st)
   /\ requests (env (addButton_onClick st)) = requests (env st)
   /\ selectionError (handleAddStudents st) <> "")
  /\ (forall r, issues (env st) (env (handleAddStudents st)) r ->
        r = PostAddStudents (numericGroupId st) (selectedStudents st)
        /\ (1 <= length (Array_from_Set (selectedStudents st)) <= 100)%nat)
  /\ ((100 < length (Array_from_Set
                       (selectedStudents st ++ map id (filteredStudents st))))%nat ->
      selectedStudents (handleSelectAllFiltered st) = selectedStudents st
      /\ selectionError (handleSelectAllFiltered st)
         = "admin.groups.maxStudentsError"
      /\ requests (env (handleSelectAllFiltered st)) = requests (env st))
  /\ ((length (Array_from_Set
                 (selectedStudents st ++ map id (filteredStudents st)))
       <= 100)%nat ->
      selectedStudents (handleSelectAllFiltered st)
      = Array_from_Set (selectedStudents st ++ map id (filteredStudents st))
      /\ NoDup (selectedStudents (handleSelectAllFiltered st))
      /\ (forall x, x ∈ selectedStudents (handleSelectAllFiltered st) <->
                    x ∈ selectedStudents st
                    \/ x ∈ map id (filteredStudents st))
      /\ selectionError (handleSelectAllFiltered st) = "").
Proof.
  split; [|split; [|split]].
  - intros Hrej.
    destruct (handleAddStudents_cases st) as [(_ & _ & Hlen) | (Hr & _ & _ & He & _)];
      [lia|].
    split; [assumption|]. split; [|assumption].
    unfold addButton_onClick. by destruct (_ || _).
  - apply handleAddStudents_issues.
  - intros Hover. unfold handleSelectAllFiltered. simpl.
    change (filteredStudents (setSelectionError "" st)) with (filteredStudents st).
    apply Nat.ltb_lt in Hover. rewrite Hover. by repeat split.
  - intros Hfit. unfold handleSelectAllFiltered. simpl.
    change (filteredStudents (setSelectionError "" st)) with (filteredStudents st).
    apply Nat.ltb_ge in Hfit. rewrite Hfit. simpl.
    split; [reflexivity|]. split; [apply Array_from_Set_NoDup|].
    split; [|reflexivity].
    intros x. by rewrite Array_from_Set_elem, elem_of_app.
Qed.

Lemma step_groupId (st : State) (e : Event) :
  groupId (step st e) = groupId st.
Proof.
  destruct e; simpl;
    unfold selectAllButton_onClick, handleSelectAllFiltered, addButton_onClick,
      handleAddStudents, search_onChange, addStudentsMutation_settle;
    simpl;
    repeat match goal with
           | |- context [if ?b then _ else _] => destruct b; simpl
           | |- context [match ?a with Some _ => _ | None => _ end] =>
               destruct a; simpl
           end;
    reflexivity.
Qed.

Lemma run_groupId (es : list Event) (gid : jsstring) (e : Env) :
  groupId (fold_left step es (opened gid e)) = gid.
Proof.
  change gid with (groupId (opened gid e)) at 2.
  generalize (opened gid e). induction es as [|ev es IH]; intros st; simpl.
  - reflexivity.
  - by rewrite IH, step_groupId.
Qed.

(** X7. From the opening of the dialog on, every add call carries a
    selection without repetition, of at least 1 and at most 100 students,
    for the group the dialog was opened on. *)
Lemma batch_add_payload (gid : jsstring) (e : Env) (es : list Event)
    (r : Request) :
  issues (env (fold_left step es (opened gid e)))
    (env (handleAddStudents (fold_left step es (opened gid e)))) r ->
  exists ids, r = PostAddStudents (Number gid) ids
              /\ NoDup ids /\ (1 <= length ids <= 100)%nat.
Proof.
  intros Hr.
  assert (NoDup (selectedStudents (fold_left step es (opened gid e)))) as Hnd
    by (apply run_NoDup; constructor).
  assert (groupId (fold_left step es (opened gid e)) = gid) as Hg
    by apply run_groupId.
  destruct (handleAddStudents_issues (fold_left step es (opened gid e)) r Hr)
    as [-> Hlen].
  exists (selectedStudents (fold_left step es (opened gid e))).
  rewrite Array_from_Set_distinct in Hlen by assumption.
  unfold numericGroupId. rewrite Hg.
  split; [reflexivity|]. split; [assumption | lia].
Qed.

End BatchAdd.

Lemma batch_add_rules_witness :
  AddStudentsDialog.selectedStudents
    (AddStudentsDialog.handleSelectAllFiltered (LowerImpl := asciiLowerCase)
       (addDialog 101))
  = [1; 2]
  /\ length
       (AddStudentsDialog.selectedStudents
          (AddStudentsDialog.handleSelectAllFiltered
             (LowerImpl := asciiLowerCase) (addDialog 100)))
     = 100%nat
  /\ requests
       (AddStudentsDialog.env
          (AddStudentsDialog.handleAddStudents (NumberImpl := decimalNumber)
             (AddStudentsDialog.handleClearSelection (addDialog 3))))
     = [].
Proof.
  destruct (batch_add_rules (NumberImpl := decimalNumber)
              (LowerImpl := asciiLowerCase) (addDialog 101))
    as (_ & _ & Hover & _).
  destruct (batch_add_rules (NumberImpl := decimalNumber)
              (LowerImpl := asciiLowerCase) (addDialog 100))
    as (_ & _ & _ & Hfit).
  destruct (batch_add_rules (NumberImpl := decimalNumber)
              (LowerImpl := asciiLowerCase)
              (AddStudentsDialog.handleClearSelection (addDialog 3)))
    as (Hempty & _).
  split; [|split].
  - apply Hover. apply Nat.ltb_lt. vm_compute. reflexivity.
  - destruct Hfit as [-> _].
    + apply Nat.leb_le. vm_compute. reflexivity.
    + vm_compute. reflexivity.
  - apply Hempty. left. reflexivity.
Defined.

(** ** Removing a student from a group *)

Section RemoveStudent.
Import AdminGroupDetail.
Context {NumberImpl : NumberOfString}.

(** C7. Without the operator's confirmation the click changes nothing, so
    no removal call is made.  On confirmation exactly one removal call is
    issued, and when it succeeds the cached queries whose key starts with
    'adminGroupDetail' and this group's id are marked stale while every
    other cached query, the groups list among them, stays as it was. *)
Theorem remove_student_confirmation (st : State) (studentId : Z) :
  removeButton_onClick studentId false st = st
  /\ (removePending st = false ->
      issues (env st) (env (removeButton_onClick studentId true st))
        (PostRemoveStudent (Number (groupId st)) studentId)
      /\ requests
           (env (removeStudentMutation_settle true
                   (removeButton_onClick studentId true st)))
         = requests (env st)
           ++ [PostRemoveStudent (Number (groupId st)) studentId]
      /\ length
           (queries
              (env (removeStudentMutation_settle true
                      (removeButton_onClick studentId true st))))
         = length (queries (env st))
      /\ forall (i : nat) (q : Query),
           queries (env st) !! i = Some q ->
           ([KStr (js "adminGroupDetail"); KStr (groupId st)]
              `prefix_of` queryKey q ->
            queries
              (env (removeStudentMutation_settle true
                      (removeButton_onClick studentId true st))) !! i
            = Some (markStale q))
           /\ (~ [KStr (js "adminGroupDetail"); KStr (groupId st)]
                 `prefix_of` queryKey q ->
               queries
                 (env (removeStudentMutation_settle true
                         (removeButton_onClick studentId true st))) !! i
               = Some q)).
Proof.
  split.
  { unfold removeButton_onClick. by destruct (removePending st). }
  intros Hp. unfold removeButton_onClick. rewrite Hp. simpl.
  split; [reflexivity|]. split; [reflexivity|].
  split; [by rewrite length_map|].
  intros i q Hq. rewrite list_lookup_fmap, Hq. simpl.
  rewrite invalidate_spec.
  destruct (partialMatchKey (queryKey q) _) eqn:Hm.
  - apply partialMatchKey_prefix in Hm. split; [done|]. intros Hn. by destruct Hn.
  - split; [|done]. intros Hpre. apply partialMatchKey_prefix in Hpre.
    congruence.
Qed.

(** The groups list is not under the invalidated key. *)
Lemma groups_list_not_group_detail (gid : jsstring) :
  ~ [KStr (js "adminGroupDetail"); KStr gid] `prefix_of` [KStr (js "adminGroups")].
Proof.
  intros H. apply prefix_cons_inv_1 in H. vm_compute in H. discriminate.
Qed.

End RemoveStudent.

(** The scenario of the specification: student 9 leaves group 7. *)
Lemma remove_student_confirmation_witness :
  AdminGroupDetail.removeButton_onClick (NumberImpl := decimalNumber)
    9 false detailPage7
  = detailPage7
  /\ requests
       (AdminGroupDetail.env
          (AdminGroupDetail.removeStudentMutation_settle true
             (AdminGroupDetail.removeButton_onClick
                (NumberImpl := decimalNumber) 9 true detailPage7)))
     = [PostRemoveStudent (JFin (inject_Z 7)) 9]
  /\ queries
       (AdminGroupDetail.env
          (AdminGroupDetail.removeStudentMutation_settle true
             (AdminGroupDetail.removeButton_onClick
                (NumberImpl := decimalNumber) 9 true detailPage7))) !! 2%nat
     = Some (freshQuery [KStr (js "adminGroups")]).
Proof.
  destruct (remove_student_confirmation (NumberImpl := decimalNumber)
              detailPage7 9) as (H0 & H1).
  destruct (H1 eq_refl) as (_ & Hr & _ & Hq).
  split; [exact H0|]. split; [exact Hr|].
  apply (Hq 2%nat (freshQuery [KStr (js "adminGroups")]) eq_refl).
  apply groups_list_not_group_detail.
Defined.

(** ** Saving attendance *)

Lemma payload_student_ids (marks : gmap Z bool) (l : list GroupStudent) :
  map student_id (map (payloadEntry marks) l) = map gs_id l.
Proof. rewrite map_map. reflexivity. Qed.

Section AttendancePage.
Import TeacherAttendance.
Context {NumberImpl : NumberOfString}.

Lemma truthy_key (st : State) : truthy (key st) = truthy (selectedGroupId st).
Proof. unfold key. by destruct (selectedGroupId st). Qed.

(** The save button either does nothing or submits the whole sheet. *)
Lemma saveButton_cases (st : State) :
  (exists l, students st = Some l /\ l <> []
             /\ truthyNum (selectedGroupIdNum st) = true
             /\ truthy (selectedGroupId st) = true
             /\ isPending st = false /\ studentsLoading st = false
             /\ saveButton_onClick st
                = saveAttendanceMutation_mutate (selectedGroupIdNum st)
                    (selectedDate st)
                    (map (payloadEntry (attendanceForSelection st)) l) st)
  \/ saveButton_onClick st = st.
Proof.
  unfold saveButton_onClick, save_onClick, totalStudents.
  rewrite truthy_key.
  destruct (students st) as [[|s l]|] eqn:Hs; simpl; try (by right).
  destruct (isPending st) eqn:Hp; simpl; [by right|].
  destruct (studentsLoading st) eqn:Hl; simpl; [by right|].
  destruct (truthyNum (selectedGroupIdNum st)) eqn:Hn; simpl; [|by right].
  destruct (truthy (selectedGroupId st)) eqn:Hg; simpl; [|by right].
  left. exists (s :: l). by repeat split.
Qed.

Lemma attendance_save_cases_page (st : State) (r : Request) :
  issues (env st) (env (saveButton_onClick st)) r ->
  exists l,
    students st = Some l
    /\ r = PostAttendance (selectedGroupIdNum st) (selectedDate st)
             (map (payloadEntry (attendanceForSelection st)) l).
Proof.
  intros Hr. unfold issues in Hr.
  destruct (saveButton_cases st) as [(l & Hs & _ & _ & _ & _ & _ & Heq) | Heq];
    rewrite Heq in Hr.
  - simpl in Hr. apply app_inv_head in Hr. injection Hr as <-. by exists l.
  - by apply not_grown in Hr.
Qed.

(** C8. A save of the attendance of a group and date issues exactly one
    call, which carries one entry for every student of the group, in
    order; a call with fewer entries cannot be issued; and when the answer
    arrives, success or failure, no further call is made and no cached
    query is touched. *)
Theorem attendance_save_one_call (st : State) :
  (forall l, students st = Some l -> l <> [] ->
     truthy (selectedGroupId st) = true ->
     truthyNum (selectedGroupIdNum st) = true ->
     isPending st = false -> studentsLoading st = false ->
     issues (env st) (env (saveButton_onClick st))
       (PostAttendance (selectedGroupIdNum st) (selectedDate st)
          (map (payloadEntry (attendanceForSelection st)) l)))
  /\ (forall r, issues (env st) (env (saveButton_onClick st)) r ->
        exists l attendance,
          students st = Some l
          /\ r = PostAttendance (selectedGroupIdNum st) (selectedDate st)
                   attendance
          /\ map student_id attendance = map gs_id l)
  /\ (forall answer,
        requests (env (saveAttendanceMutation_settle answer
                         (saveButton_onClick st)))
        = requests (env (saveButton_onClick st))
        /\ queries (env (saveAttendanceMutation_settle answer
                           (saveButton_onClick st)))
           = queries (env st)).
Proof.
  split; [|split].
  - intros l Hs Hne Hg Hn Hp Hl.
    destruct (saveButton_cases st) as [(l' & Hs' & _ & _ & _ & _ & _ & ->) | Heq].
    + assert (l' = l) as -> by congruence. reflexivity.
    + exfalso. revert Heq.
      unfold saveButton_onClick, save_onClick, totalStudents.
      rewrite truthy_key, Hs, Hp, Hl, Hg, Hn.
      destruct l as [|s l]; [done|]. simpl. intros Heq.
      apply (f_equal isPending) in Heq. rewrite Hp in Heq. discriminate.
  - intros r Hr. destruct (attendance_save_cases_page st r Hr) as (l & Hs & ->).
    exists l, (map (payloadEntry (attendanceForSelection st)) l).
    split; [assumption|]. split; [reflexivity | apply payload_student_ids].
  - intros answer.
    destruct (saveButton_cases st) as [(l & _ & _ & _ & _ & _ & _ & ->) | ->];
      destruct answer; by split.
Qed.

End AttendancePage.

(** The same save on the attendance tab of the group page. *)
Lemma group_tab_save_one_call {NumberImpl : NumberOfString}
    (st : GroupDetail.State) (r : Request) :
  issues (GroupDetail.env st)
    (GroupDetail.env (GroupDetail.saveButton_onClick st)) r ->
  exists l,
    GroupDetail.students st = Some l
    /\ r = PostAttendance (GroupDetail.groupIdNum st)
             (GroupDetail.selectedDate st)
             (map (payloadEntry (GroupDetail.attendanceForDate st)) l).
Proof.
  unfold issues, GroupDetail.saveButton_onClick, GroupDetail.save_onClick.
  destruct (GroupDetail.isPending st);
    [intros Hr; by apply not_grown in Hr|].
  destruct (GroupDetail.students st) as [[|s l]|];
    try (intros Hr; by apply not_grown in Hr).
  simpl. intros Hr. apply app_inv_head in Hr. injection Hr as <-. by eexists.
Qed.

(** The scenario of the specification: group 7 on 2024-05-01, three
    students present and two absent. *)
Lemma attendance_save_one_call_witness :
  requests
    (TeacherAttendance.env
       (TeacherAttendance.saveButton_onClick (NumberImpl := decimalNumber)
          markedPage))
  = [PostAttendance (JFin (inject_Z 7)) (js "2024-05-01")
       [ {| student_id := 1; is_present := true |};
         {| student_id := 2; is_present := false |};
         {| student_id := 3; is_present := true |};
         {| student_id := 4; is_present := false |};
         {| student_id := 5; is_present := true |} ]].
Proof.
  destruct (attendance_save_one_call (NumberImpl := decimalNumber) markedPage)
    as (H & _).
  specialize (H fiveStudents eq_refl).
  unfold issues in H. rewrite H; [vm_compute; reflexivity | | | | |];
    try reflexivity.
  discriminate.
Defined.

(** ** Students without a mark *)

Lemma allPresent_fold (l : list GroupStudent) (m : gmap Z bool) (i : Z) :
  fold_left (fun initial s => <[gs_id s := true]> initial) l m !! i
  = if bool_decide (i ∈ map gs_id l) then Some true else m !! i.
Proof.
  revert m. induction l as [|a l IH]; intros m; simpl; [reflexivity|].
  rewrite IH, lookup_insert.
  repeat case_bool_decide; repeat case_decide; subst; try reflexivity;
    exfalso;
    repeat match goal with
           | H : _ ∉ _ :: _ |- _ => apply not_elem_of_cons in H as [? ?]
           | H : _ ∈ _ :: _ |- _ => apply elem_of_cons in H as [?|?]
           end;
    congruence.
Qed.

(** The initial sheet marks every student present, and nobody else. *)
Lemma allPresent_lookup (l : list GroupStudent) (i : Z) :
  allPresent l !! i = if bool_decide (i ∈ map gs_id l) then Some true else None.
Proof. unfold allPresent. by rewrite allPresent_fold, lookup_empty. Qed.

Lemma allPresent_student (l : list GroupStudent) (s : GroupStudent) :
  s ∈ l -> allPresent l !! gs_id s = Some true.
Proof.
  intros Hs. rewrite allPresent_lookup, bool_decide_eq_true_2; [reflexivity|].
  apply list_elem_of_In, in_map, list_elem_of_In, Hs.
Qed.

(** A missing mark, like a mark "present", is submitted as present. *)
Lemma payloadEntry_default (marks : gmap Z bool) (s : GroupStudent) :
  marks !! gs_id s <> Some false ->
  payloadEntry marks s = {| student_id := gs_id s; is_present := true |}.
Proof.
  intros H. unfold payloadEntry.
  destruct (marks !! gs_id s) as [[|]|]; simpl; congruence.
Qed.

Section UnmarkedOnPage.
Import TeacherAttendance.
Context {NumberImpl : NumberOfString}.

Lemma page_init_keeps (st : State) (l : list GroupStudent) (s : GroupStudent) :
  students st = Some l -> s ∈ l ->
  attendanceForSelection st !! gs_id s <> Some false ->
  attendanceForSelection (initEffect st) !! gs_id s <> Some false.
Proof.
  intros Hl Hs Hm. unfold initEffect.
  destruct (truthy (key st)) eqn:Hk; simpl; [|assumption].
  rewrite Hl. destruct l as [|a l]; [assumption|].
  destruct (attendanceByKey st !! key st) eqn:Hsheet; [assumption|].
  unfold attendanceForSelection.
  change (key (setAttendanceByKey _ st)) with (key st). rewrite Hk. simpl.
  rewrite lookup_insert_eq. simpl.
  by rewrite (allPresent_student _ _ Hs).
Qed.

Lemma page_mark_other (st : State) (m : Z * bool) (i : Z) :
  m.1 <> i ->
  attendanceForSelection (mark st m) !! i = attendanceForSelection st !! i.
Proof.
  intros Hne. unfold mark, setStudentPresence.
  destruct (truthy (key st)) eqn:Hk; simpl; [|reflexivity].
  unfold attendanceForSelection.
  change (key (setAttendanceByKey _ st)) with (key st). rewrite Hk. simpl.
  rewrite lookup_insert_eq. simpl. by rewrite lookup_insert_ne.
Qed.

Lemma page_marks_other (marks : list (Z * bool)) (st : State) (i : Z) :
  Forall (fun m => m.1 <> i) marks ->
  attendanceForSelection (fold_left mark marks st) !! i
  = attendanceForSelection st !! i.
Proof.
  revert st. induction marks as [|m marks IH]; intros st Hf; simpl.
  - reflexivity.
  - apply Forall_cons in Hf as [Hm Hf]. rewrite IH by assumption.
    by apply page_mark_other.
Qed.

Lemma page_marks_students (marks : list (Z * bool)) (st : State) :
  students (fold_left mark marks st) = students st.
Proof.
  revert st. induction marks as [|m marks IH]; intros st; simpl; [reflexivity|].
  rewrite IH. unfold mark, setStudentPresence.
  by destruct (negb (truthy (key st))).
Qed.

Lemma page_init_students (st : State) : students (initEffect st) = students st.
Proof.
  unfold initEffect. destruct (negb (truthy (key st))); [reflexivity|].
  destruct (students st) as [[|a l]|] eqn:Hs; try exact Hs.
  destruct (attendanceByKey st !! key st); exact Hs.
Qed.

Lemma page_unmarked_present (st : State) (l : list GroupStudent)
    (marks : list (Z * bool)) (s : GroupStudent) (r : Request) :
  students st = Some l -> s ∈ l ->
  attendanceForSelection st !! gs_id s <> Some false ->
  Forall (fun m => m.1 <> gs_id s) marks ->
  issues (env (fold_left mark marks (initEffect st)))
    (env (saveButton_onClick (fold_left mark marks (initEffect st)))) r ->
  exists gid date attendance,
    r = PostAttendance gid date attendance
    /\ {| student_id := gs_id s; is_present := true |} ∈ attendance.
Proof.
  intros Hl Hs Hm Hmarks Hr.
  destruct (attendance_save_cases_page (fold_left mark marks (initEffect st)) r Hr)
    as (l' & Hl' & ->).
  rewrite page_marks_students, page_init_students, Hl in Hl'.
  injection Hl' as <-.
  do 3 eexists. split; [reflexivity|].
  apply list_elem_of_In, in_map_iff. exists s.
  split; [|by apply list_elem_of_In].
  apply payloadEntry_default. rewrite page_marks_other by assumption.
  by eapply page_init_keeps.
Qed.

(** On a selection without a sheet the effect creates one on which every
    student is present. *)
Lemma page_init_present (st : State) (l : list GroupStudent)
    (s : GroupStudent) :
  truthy (selectedGroupId st) = true ->
  students st = Some l -> s ∈ l ->
  attendanceByKey st !! key st = None ->
  attendanceForSelection (initEffect st) !! gs_id s = Some true.
Proof.
  intros Hg Hl Hs Hnone. unfold initEffect.
  rewrite truthy_key, Hg, Hl, Hnone. simpl.
  destruct l as [|a l]; [by apply elem_of_nil in Hs|].
  unfold attendanceForSelection.
  change (key (setAttendanceByKey _ st)) with (key st).
  rewrite truthy_key, Hg. simpl. rewrite lookup_insert_eq. simpl.
  by apply allPresent_student.
Qed.

(** An existing sheet is never overwritten by the effect. *)
Lemma page_init_existing (st : State) (sheet : gmap Z bool) :
  attendanceByKey st !! key st = Some sheet -> initEffect st = st.
Proof.
  intros Hsheet. unfold initEffect. rewrite Hsheet.
  destruct (negb (truthy (key st))); [reflexivity|].
  by destruct (students st) as [[|a l]|].
Qed.

Lemma page_init_frame (st : State) : samePageControls (initEffect st) st.
Proof.
  unfold initEffect, samePageControls.
  destruct (negb (truthy (key st))); [done|].
  destruct (students st) as [[|a l]|] eqn:Hs; try done.
  by destruct (attendanceByKey st !! key st).
Qed.

Lemma page_marks_frame (marks : list (Z * bool)) (st : State) :
  samePageControls (fold_left mark marks st) st.
Proof.
  revert st. induction marks as [|m marks IH]; intros st; simpl; [done|].
  destruct (IH (mark st m)) as (H1 & H2 & H3 & H4 & H5 & H6).
  unfold samePageControls. rewrite H1, H2, H3, H4, H5, H6.
  unfold mark, setStudentPresence.
  by destruct (negb (truthy (key st))).
Qed.

(** The save button, when nothing disables it, submits the whole sheet. *)
Lemma page_save_enabled (st : State) (l : list GroupStudent) :
  students st = Some l -> l <> [] ->
  truthy (selectedGroupId st) = true ->
  truthyNum (selectedGroupIdNum st) = true ->
  isPending st = false -> studentsLoading st = false ->
  saveButton_onClick st
  = saveAttendanceMutation_mutate (selectedGroupIdNum st) (selectedDate st)
      (map (payloadEntry (attendanceForSelection st)) l) st.
Proof.
  intros Hl Hne Hg Hn Hp Hload.
  unfold saveButton_onClick, save_onClick, totalStudents.
  rewrite truthy_key, Hl, Hg, Hn, Hp, Hload.
  destruct l as [|a l]; [contradiction|]. reflexivity.
Qed.

Lemma page_unmarked_sent (st : State) (l : list GroupStudent)
    (marks : list (Z * bool)) (s : GroupStudent) :
  students st = Some l -> s ∈ l ->
  attendanceForSelection st !! gs_id s <> Some false ->
  Forall (fun m => m.1 <> gs_id s) marks ->
  truthy (selectedGroupId st) = true ->
  truthyNum (selectedGroupIdNum st) = true ->
  isPending st = false -> studentsLoading st = false ->
  exists attendance,
    issues (env (fold_left mark marks (initEffect st)))
      (env (saveButton_onClick (fold_left mark marks (initEffect st))))
      (PostAttendance (selectedGroupIdNum st) (selectedDate st) attendance)
    /\ {| student_id := gs_id s; is_present := true |} ∈ attendance
    /\ map student_id attendance = map gs_id l.
Proof.
  intros Hl Hs Hm Hmarks Hg Hn Hp Hload.
  destruct (page_marks_frame marks (initEffect st))
    as (G1 & D1 & S1 & L1 & P1 & _).
  destruct (page_init_frame st) as (G2 & D2 & S2 & L2 & P2 & _).
  set (st' := fold_left mark marks (initEffect st)) in *.
  assert (selectedGroupIdNum st' = selectedGroupIdNum st) as Hnum
    by (unfold selectedGroupIdNum; by rewrite G1, G2).
  assert (l <> []) as Hne by (intros ->; by apply elem_of_nil in Hs).
  rewrite (page_save_enabled st' l); try congruence.
  exists (map (payloadEntry (attendanceForSelection st')) l).
  split; [|split].
  - unfold issues. simpl. by rewrite Hnum, D1, D2.
  - apply list_elem_of_In, in_map_iff. exists s.
    split; [|by apply list_elem_of_In].
    apply payloadEntry_default. unfold st'.
    rewrite page_marks_other by assumption.
    by eapply page_init_keeps.
  - apply payload_student_ids.
Qed.

End UnmarkedOnPage.

(** The scenario on the attendance tab of the group page. *)
Example group_tab_scenario :
  requests
    (GroupDetail.env
       (GroupDetail.saveButton_onClick (NumberImpl := decimalNumber) markedTab))
  = [PostAttendance (JFin (inject_Z 7)) (js "2024-05-01")
       [ {| student_id := 1; is_present := true |};
         {| student_id := 2; is_present := false |};
         {| student_id := 3; is_present := true |};
         {| student_id := 4; is_present := false |};
         {| student_id := 5; is_present := true |} ]].
Proof. vm_compute. reflexivity. Qed.

Section UnmarkedOnTab.
Import GroupDetail.
Context {NumberImpl : NumberOfString}.

Lemma tab_init_keeps (st : State) (l : list GroupStudent) (s : GroupStudent) :
  students st = Some l -> s ∈ l ->
  attendanceForDate st !! gs_id s <> Some false ->
  attendanceForDate (initEffect st) !! gs_id s <> Some false.
Proof.
  intros Hl Hs Hm. unfold initEffect.
  rewrite Hl. destruct l as [|a l]; [assumption|].
  destruct (attendanceByDate st !! selectedDate st) eqn:Hsheet; [assumption|].
  unfold attendanceForDate. simpl. rewrite lookup_insert_eq. simpl.
  by rewrite (allPresent_student _ _ Hs).
Qed.

Lemma tab_mark_other (st : State) (m : Z * bool) (i : Z) :
  m.1 <> i ->
  attendanceForDate (mark st m) !! i = attendanceForDate st !! i.
Proof.
  intros Hne. unfold mark, setStudentPresence, attendanceForDate. simpl.
  rewrite lookup_insert_eq. simpl. by rewrite lookup_insert_ne.
Qed.

Lemma tab_marks_other (marks : list (Z * bool)) (st : State) (i : Z) :
  Forall (fun m => m.1 <> i) marks ->
  attendanceForDate (fold_left mark marks st) !! i
  = attendanceForDate st !! i.
Proof.
  revert st. induction marks as [|m marks IH]; intros st Hf; simpl.
  - reflexivity.
  - apply Forall_cons in Hf as [Hm Hf]. rewrite IH by assumption.
    by apply tab_mark_other.
Qed.

Lemma tab_marks_students (marks : list (Z * bool)) (st : State) :
  students (fold_left mark marks st) = students st.
Proof.
  revert st. induction marks as [|m marks IH]; intros st; simpl; [reflexivity|].
  by rewrite IH.
Qed.

Lemma tab_init_students (st : State) : students (initEffect st) = students st.
Proof.
  unfold initEffect.
  destruct (students st) as [[|a l]|] eqn:Hs; try exact Hs.
  destruct (attendanceByDate st !! selectedDate st); exact Hs.
Qed.

Lemma tab_unmarked_present (st : State) (l : list GroupStudent)
    (marks : list (Z * bool)) (s : GroupStudent) (r : Request) :
  students st = Some l -> s ∈ l ->
  attendanceForDate st !! gs_id s <> Some false ->
  Forall (fun m => m.1 <> gs_id s) marks ->
  issues (env (fold_left mark marks (initEffect st)))
    (env (saveButton_onClick (fold_left mark marks (initEffect st)))) r ->
  exists gid date attendance,
    r = PostAttendance gid date attendance
    /\ {| student_id := gs_id s; is_present := true |} ∈ attendance.
Proof.
  intros Hl Hs Hm Hmarks Hr.
  destruct (group_tab_save_one_call (fold_left mark marks (initEffect st)) r Hr)
    as (l' & Hl' & ->).
  rewrite tab_marks_students, tab_init_students, Hl in Hl'.
  injection Hl' as <-.
  do 3 eexists. split; [reflexivity|].
  apply list_elem_of_In, in_map_iff. exists s.
  split; [|by apply list_elem_of_In].
  apply payloadEntry_default. rewrite tab_marks_other by assumption.
  by eapply tab_init_keeps.
Qed.

(** On a date without a sheet the effect creates one on which every
    student is present. *)
Lemma tab_init_present (st : State) (l : list GroupStudent)
    (s : GroupStudent) :
  students st = Some l -> s ∈ l ->
  attendanceByDate st !! selectedDate st = None ->
  attendanceForDate (initEffect st) !! gs_id s = Some true.
Proof.
  intros Hl Hs Hnone. unfold initEffect. rewrite Hl, Hnone.
  destruct l as [|a l]; [by apply elem_of_nil in Hs|].
  unfold attendanceForDate. simpl. rewrite lookup_insert_eq. simpl.
  by apply allPresent_student.
Qed.

(** An existing sheet is never overwritten by the effect. *)
Lemma tab_init_existing (st : State) (sheet : gmap Z bool) :
  attendanceByDate st !! selectedDate st = Some sheet -> initEffect st = st.
Proof.
  intros Hsheet. unfold initEffect. rewrite Hsheet.
  by destruct (students st) as [[|a l]|].
Qed.

Lemma tab_init_frame (st : State) : sameTabControls (initEffect st) st.
Proof.
  unfold initEffect, sameTabControls.
  destruct (students st) as [[|a l]|] eqn:Hs; try done.
  by destruct (attendanceByDate st !! selectedDate st).
Qed.

Lemma tab_marks_frame (marks : list (Z * bool)) (st : State) :
  sameTabControls (fold_left mark marks st) st.
Proof.
  revert st. induction marks as [|m marks IH]; intros st; simpl; [done|].
  destruct (IH (mark st m)) as (H1 & H2 & H3 & H4 & H5).
  unfold sameTabControls. by rewrite H1, H2, H3, H4, H5.
Qed.

(** The save button, unless a save is pending, submits the whole sheet. *)
Lemma tab_save_enabled (st : State) (l : list GroupStudent) :
  students st = Some l -> l <> [] -> isPending st = false ->
  saveButton_onClick st
  = mutate (PostAttendance (groupIdNum st) (selectedDate st)
              (map (payloadEntry (attendanceForDate st)) l)) st.
Proof.
  intros Hl Hne Hp. unfold saveButton_onClick, save_onClick.
  rewrite Hp, Hl. destruct l as [|a l]; [contradiction|]. reflexivity.
Qed.

Lemma tab_unmarked_sent (st : State) (l : list GroupStudent)
    (marks : list (Z * bool)) (s : GroupStudent) :
  students st = Some l -> s ∈ l ->
  attendanceForDate st !! gs_id s <> Some false ->
  Forall (fun m => m.1 <> gs_id s) marks ->
  isPending st = false ->
  exists attendance,
    issues (env (fold_left mark marks (initEffect st)))
      (env (saveButton_onClick (fold_left mark marks (initEffect st))))
      (PostAttendance (groupIdNum st) (selectedDate st) attendance)
    /\ {| student_id := gs_id s; is_present := true |} ∈ attendance
    /\ map student_id attendance = map gs_id l.
Proof.
  intros Hl Hs Hm Hmarks Hp.
  destruct (tab_marks_frame marks (initEffect st))
    as (G1 & D1 & S1 & P1 & _).
  destruct (tab_init_frame st) as (G2 & D2 & S2 & P2 & _).
  set (st' := fold_left mark marks (initEffect st)) in *.
  assert (groupIdNum st' = groupIdNum st) as Hnum
    by (unfold groupIdNum; by rewrite G1, G2).
  assert (l <> []) as Hne by (intros ->; by apply elem_of_nil in Hs).
  rewrite (tab_save_enabled st' l); try congruence.
  exists (map (payloadEntry (attendanceForDate st')) l).
  split; [|split].
  - unfold issues. simpl. by rewrite Hnum, D1, D2.
  - apply list_elem_of_In, in_map_iff. exists s.
    split; [|by apply list_elem_of_In].
    apply payloadEntry_default. unfold st'.
    rewrite tab_marks_other by assumption.
    by eapply tab_init_keeps.
  - apply payload_student_ids.
Qed.

End UnmarkedOnTab.

(** C10. Every attendance save submits a student without an explicitly
    chosen mark as present.  The initialization effect, on the attendance
    page and on the attendance tab of the group page, gives a selection
    that has no sheet yet a sheet on which every student of the group is
    present, and it never overwrites a sheet that exists; the payload
    turns a missing mark into present.  So for a student of the group for
    whom no absence is stored and whom the operator does not mark, the
    save button, when nothing disables it, sends a call that carries one
    entry per student, among them this student with [is_present = true],
    and no call it sends lacks that entry. *)
Theorem unmarked_students_present {NumberImpl : NumberOfString}
    (l : list GroupStudent) (s : GroupStudent) (marks : list (Z * bool)) :
  s ∈ l ->
  Forall (fun m => m.1 <> gs_id s) marks ->
  allPresent l !! gs_id s = Some true
  /\ (forall sheet : gmap Z bool,
        sheet !! gs_id s = None ->
        is_present (payloadEntry sheet s) = true)
  /\ (forall st : TeacherAttendance.State,
        TeacherAttendance.students st = Some l ->
        (truthy (TeacherAttendance.selectedGroupId st) = true ->
         TeacherAttendance.attendanceByKey st !! TeacherAttendance.key st
         = None ->
         TeacherAttendance.attendanceForSelection
           (TeacherAttendance.initEffect st) !! gs_id s = Some true
         /\ TeacherAttendance.attendanceForSelection
              (fold_left TeacherAttendance.mark marks
                 (TeacherAttendance.initEffect st)) !! gs_id s = Some true)
        /\ (forall sheet,
              TeacherAttendance.attendanceByKey st !! TeacherAttendance.key st
              = Some sheet ->
              TeacherAttendance.initEffect st = st)
        /\ (TeacherAttendance.attendanceForSelection st !! gs_id s
            <> Some false ->
            (forall r : Request,
               issues
                 (TeacherAttendance.env
                    (fold_left TeacherAttendance.mark marks
                       (TeacherAttendance.initEffect st)))
                 (TeacherAttendance.env
                    (TeacherAttendance.saveButton_onClick
                       (fold_left TeacherAttendance.mark marks
                          (TeacherAttendance.initEffect st)))) r ->
               exists gid date attendance,
                 r = PostAttendance gid date attendance
                 /\ {| student_id := gs_id s; is_present := true |}
                    ∈ attendance)
            /\ (truthy (TeacherAttendance.selectedGroupId st) = true ->
                truthyNum (TeacherAttendance.selectedGroupIdNum st) = true ->
                TeacherAttendance.isPending st = false ->
                TeacherAttendance.studentsLoading st = false ->
                exists attendance,
                  issues
                    (TeacherAttendance.env
                       (fold_left TeacherAttendance.mark marks
                          (TeacherAttendance.initEffect st)))
                    (TeacherAttendance.env
                       (TeacherAttendance.saveButton_onClick
                          (fold_left TeacherAttendance.mark marks
                             (TeacherAttendance.initEffect st))))
                    (PostAttendance (TeacherAttendance.selectedGroupIdNum st)
                       (TeacherAttendance.selectedDate st) attendance)
                  /\ {| student_id := gs_id s; is_present := true |}
                     ∈ attendance
                  /\ map student_id attendance = map gs_id l)))
  /\ (forall st : GroupDetail.State,
        GroupDetail.students st = Some l ->
        (GroupDetail.attendanceByDate st !! GroupDetail.selectedDate st
         = None ->
         GroupDetail.attendanceForDate (GroupDetail.initEffect st) !! gs_id s
         = Some true
         /\ GroupDetail.attendanceForDate
              (fold_left GroupDetail.mark marks (GroupDetail.initEffect st))
              !! gs_id s = Some true)
        /\ (forall sheet,
              GroupDetail.attendanceByDate st !! GroupDetail.selectedDate st
              = Some sheet ->
              GroupDetail.initEffect st = st)
        /\ (GroupDetail.attendanceForDate st !! gs_id s <> Some false ->
            (forall r : Request,
               issues
                 (GroupDetail.env
                    (fold_left GroupDetail.mark marks
                       (GroupDetail.initEffect st)))
                 (GroupDetail.env
                    (GroupDetail.saveButton_onClick
                       (fold_left GroupDetail.mark marks
                          (GroupDetail.initEffect st)))) r ->
               exists gid date attendance,
                 r = PostAttendance gid date attendance
                 /\ {| student_id := gs_id s; is_present := true |}
                    ∈ attendance)
            /\ (GroupDetail.isPending st = false ->
                exists attendance,
                  issues
                    (GroupDetail.env
                       (fold_left GroupDetail.mark marks
                          (GroupDetail.initEffect st)))
                    (GroupDetail.env
                       (GroupDetail.saveButton_onClick
                          (fold_left GroupDetail.mark marks
                             (GroupDetail.initEffect st))))
                    (PostAttendance (GroupDetail.groupIdNum st)
                       (GroupDetail.selectedDate st) attendance)
                  /\ {| student_id := gs_id s; is_present := true |}
                     ∈ attendance
                  /\ map student_id attendance = map gs_id l))).
Proof.
  intros Hs Hmarks. split; [by apply allPresent_student|]. split; [|split].
  - intros sheet Hnone. rewrite payloadEntry_default; [reflexivity|].
    by rewrite Hnone.
  - intros st Hl. split; [|split; [|split]].
    + intros Hg Hnone.
      pose proof (page_init_present st l s Hg Hl Hs Hnone) as Hinit.
      split; [exact Hinit|].
      by rewrite page_marks_other.
    + intros sheet. apply page_init_existing.
    + intros r Hr. by eapply page_unmarked_present.
    + intros Hg Hn Hp Hload. by apply page_unmarked_sent.
  - intros st Hl. split; [|split; [|split]].
    + intros Hnone.
      pose proof (tab_init_present st l s Hl Hs Hnone) as Hinit.
      split; [exact Hinit|].
      by rewrite tab_marks_other.
    + intros sheet. apply tab_init_existing.
    + intros r Hr. by eapply tab_unmarked_present.
    + intros Hp. by apply tab_unmarked_sent.
Qed.

(** Group 7 on 2024-05-01 with students 2 and 4 marked absent: student 3,
    never marked, is on the initial sheet as present and is sent as
    present, from the attendance page and from the attendance tab. *)
Lemma unmarked_students_present_witness :
  (TeacherAttendance.attendanceForSelection
     (TeacherAttendance.initEffect attendancePage) !! 3 = Some true
   /\ exists attendance,
        issues (TeacherAttendance.env markedPage)
          (TeacherAttendance.env
             (TeacherAttendance.saveButton_onClick
                (NumberImpl := decimalNumber) markedPage))
          (PostAttendance (JFin (inject_Z 7)) (js "2024-05-01") attendance)
        /\ {| student_id := 3; is_present := true |} ∈ attendance
        /\ map student_id attendance = [1; 2; 3; 4; 5])
  /\ (GroupDetail.attendanceForDate (GroupDetail.initEffect attendanceTab) !! 3
      = Some true
      /\ exists attendance,
           issues (GroupDetail.env markedTab)
             (GroupDetail.env
                (GroupDetail.saveButton_onClick
                   (NumberImpl := decimalNumber) markedTab))
             (PostAttendance (JFin (inject_Z 7)) (js "2024-05-01") attendance)
           /\ {| student_id := 3; is_present := true |} ∈ attendance
           /\ map student_id attendance = [1; 2; 3; 4; 5]).
Proof.
  destruct (unmarked_students_present (NumberImpl := decimalNumber)
              fiveStudents
              {| gs_id := 3; gs_full_name := js "Student";
                 gs_phone := js "998901234567" |}
              [(2, false); (4, false)])
    as (_ & _ & Hpage & Htab).
  - apply list_elem_of_In. vm_compute. tauto.
  - repeat constructor; discriminate.
  - split.
    + destruct (Hpage attendancePage eq_refl) as (Hinit & _ & Hsave).
      split; [apply Hinit; reflexivity|].
      apply Hsave; [vm_compute; discriminate | reflexivity..].
    + destruct (Htab attendanceTab eq_refl) as (Hinit & _ & Hsave).
      split; [apply Hinit; reflexivity|].
      apply Hsave; [vm_compute; discriminate | reflexivity].
Defined.

(** ** The group choice of the activation dialog *)

Section GroupChoice.
Import AdminNewStudents.
Context {NumberImpl : NumberOfString}.

(** X1. When the operator picks a group in the activation dialog, the
    group id is stored as picked and the level is taken from the list of
    groups: if no listed group has that id the level is empty and the
    submit button sends nothing; if one has, the level is the level of a
    listed group with that id. *)
Theorem group_choice_derives_level (st : State) (gid : jsstring) :
  isPending st = false ->
  selectedGroupId (groupSelect_onValueChange gid st) = gid
  /\ ((forall gs g, groups st = Some gs -> In g gs ->
                    toString (group_id g) <> gid) ->
      selectedLevel (groupSelect_onValueChange gid st) = []
      /\ activateButton_onClick (groupSelect_onValueChange gid st)
         = groupSelect_onValueChange gid st)
  /\ (forall gs g, groups st = Some gs -> In g gs ->
                   toString (group_id g) = gid ->
      exists g', In g' gs /\ toString (group_id g') = gid
                 /\ selectedLevel (groupSelect_onValueChange gid st)
                    = group_level g').
Proof.
  intros Hp. unfold groupSelect_onValueChange, isActivating. rewrite Hp.
  assert (forall b : bool, groups (if b then setActivateTouched true st else st)
                           = groups st) as Hgr by (by intros []).
  split; [|split].
  - unfold handleGroupChange. by destruct (negb (activateTouched st)).
  - intros Hnone.
    assert (selectedLevel (handleGroupChange gid st) = []) as Hlvl.
    { unfold handleGroupChange. simpl. rewrite Hgr.
      destruct (groups st) as [gs|] eqn:Hgs; [|reflexivity].
      destruct (find _ gs) as [g|] eqn:Hf; [|reflexivity].
      apply find_some in Hf as [Hin Heq].
      apply bool_decide_eq_true in Heq. by destruct (Hnone gs g). }
    split; [assumption|].
    apply activateButton_disabled. left.
    destruct (isActivateValid (handleGroupChange gid st)) eqn:Hv;
      [|reflexivity].
    apply isActivateValid_iff in Hv as (_ & _ & Hl). congruence.
  - intros gs g Hgs Hin Heq.
    unfold handleGroupChange. simpl. rewrite Hgr, Hgs.
    destruct (find _ gs) as [g'|] eqn:Hf.
    + apply find_some in Hf as [Hin' Heq'].
      apply bool_decide_eq_true in Heq'. by exists g'.
    + exfalso. eapply find_none in Hf; [|exact Hin].
      apply bool_decide_eq_false in Hf. contradiction.
Qed.

(** X2. Opening the activation dialog for a student, from whatever state
    the page is in, selects that student with no group and no level: the
    group error is "Group is required" but not yet shown, and the submit
    button sends nothing until a group is picked. *)
Theorem opening_resets_workflow (student : NewStudent) (st : State) :
  selectedStudent (rowActivate_onClick student st) = Some student
  /\ isActivateOpen (rowActivate_onClick student st) = true
  /\ selectedGroupId (rowActivate_onClick student st) = []
  /\ selectedLevel (rowActivate_onClick student st) = []
  /\ activateTouched (rowActivate_onClick student st) = false
  /\ activateErrors (rowActivate_onClick student st) = "Group is required"
  /\ activateButton_onClick (rowActivate_onClick student st)
     = rowActivate_onClick student st.
Proof.
  repeat split.
  - unfold activateErrors, activateValidation, activateSchema, studentId.
    simpl. destruct (0 <? id student); reflexivity.
  - apply activateButton_disabled. left.
    destruct (isActivateValid (rowActivate_onClick student st)) eqn:Hv;
      [|reflexivity].
    by apply isActivateValid_iff in Hv as (_ & Hg & _).
Qed.

End GroupChoice.

Lemma group_choice_derives_level_witness :
  AdminNewStudents.selectedLevel
    (AdminNewStudents.groupSelect_onValueChange (js "8") activate42) = []
  /\ exists g,
       In g [ {| AdminNewStudents.group_id := 7;
                 AdminNewStudents.group_name := js "Morning";
                 AdminNewStudents.group_level := js "B1" |} ]
       /\ toString (AdminNewStudents.group_id g) = js "7"
       /\ AdminNewStudents.selectedLevel
            (AdminNewStudents.groupSelect_onValueChange (js "7") activate42)
          = AdminNewStudents.group_level g.
Proof.
  destruct (group_choice_derives_level (NumberImpl := decimalNumber)
              activate42 (js "8") eq_refl) as (_ & Hnone & _).
  destruct (group_choice_derives_level (NumberImpl := decimalNumber)
              activate42 (js "7") eq_refl) as (_ & _ & Hsome).
  split.
  - apply Hnone. intros gs g [= <-] [<-|[]]. vm_compute. discriminate.
  - eapply Hsome; [reflexivity | left; reflexivity | reflexivity].
Defined.

(** ** The add-students dialog *)

Lemma startsWith_spec (s q : jsstring) :
  startsWith s q = true <-> exists b, s = q ++ b.
Proof.
  revert s. induction q as [|c q IH]; intros s; simpl.
  - split; [intros _; by exists s | reflexivity].
  - destruct s as [|d s].
    + split; [discriminate | intros [b Hb]; discriminate].
    + rewrite andb_true_iff, N.eqb_eq, IH. split.
      * intros [-> [b ->]]. by exists b.
      * intros [b [= -> ->]]. split; [reflexivity | by exists b].
Qed.

(** [includes] is the substring test. *)
Lemma includes_spec (s q : jsstring) :
  includes s q = true <-> occursIn q s.
Proof.
  unfold occursIn. induction s as [|d s IH]; simpl.
  - rewrite orb_false_r, startsWith_spec. split.
    + intros [b Hb]. by exists [], b.
    + intros (a & b & Hab). destruct a; [by exists b | discriminate].
  - rewrite orb_true_iff, startsWith_spec, IH. split.
    + intros [[b ->] | (a & b & ->)]; [by exists [], b | by exists (d :: a), b].
    + intros ([|d' a] & b & Hab).
      * left. by exists b.
      * right. injection Hab as -> ->. by exists a, b.
Qed.

Section AddStudentsMore.
Import AddStudentsDialog.
Context {NumberImpl : NumberOfString} {LowerImpl : LowerCase}.

(** X3. The message of a failed request is the first non-empty text among
    the response's message, the response's error and the error's own
    message, in that order, and the caller's fallback when all three are
    missing or empty; the group detail page uses the same rule. *)
Theorem api_error_message_precedence (err : ApiError) (fallback : Msg) :
  (forall c s, response_data_message err = Some (c :: s) ->
     getApiErrorMessage err fallback = Raw (c :: s))
  /\ (forall c s, missing (response_data_message err) ->
        response_data_error err = Some (c :: s) ->
        getApiErrorMessage err fallback = Raw (c :: s))
  /\ (forall c s, missing (response_data_message err) ->
        missing (response_data_error err) ->
        error_message err = Some (c :: s) ->
        getApiErrorMessage err fallback = Raw (c :: s))
  /\ (missing (response_data_message err) ->
      missing (response_data_error err) ->
      missing (error_message err) ->
      getApiErrorMessage err fallback = fallback)
  /\ AdminGroupDetail.getApiErrorMessage err fallback
     = getApiErrorMessage err fallback.
Proof.
  unfold getApiErrorMessage, missing.
  repeat split.
  - intros c s ->. reflexivity.
  - intros c s [-> | ->] ->; reflexivity.
  - intros c s [-> | ->] [-> | ->] ->; reflexivity.
  - intros [-> | ->] [-> | ->] [-> | ->]; reflexivity.
Qed.

(** X4. A click on a student's row flips that student in the selection
    and nobody else, and clears the selection error; two clicks on a
    student who was not selected give the selection back as it was. *)
Theorem toggle_flips_membership (st : State) (i : Z) :
  (i ∈ selectedStudents (handleToggleStudent i st) <-> i ∉ selectedStudents st)
  /\ (forall x, x <> i ->
        (x ∈ selectedStudents (handleToggleStudent i st) <->
         x ∈ selectedStudents st))
  /\ selectionError (handleToggleStudent i st) = ""
  /\ (i ∉ selectedStudents st ->
      selectedStudents (handleToggleStudent i (handleToggleStudent i st))
      = selectedStudents st).
Proof.
  unfold handleToggleStudent. simpl.
  destruct (decide (i ∈ selectedStudents st)) as [Hin|Hin].
  - rewrite (bool_decide_eq_true_2 _ Hin). repeat split.
    + intros Hf. apply list_elem_of_filter in Hf as [Hf _].
      rewrite Z.eqb_refl in Hf. by destruct Hf.
    + contradiction.
    + intros Hf. by apply list_elem_of_filter in Hf as [_ Hf].
    + intros Hx. apply list_elem_of_filter. split; [|assumption].
      apply negb_prop_intro. intros He. apply Is_true_eq_true in He.
      by apply Z.eqb_eq in He.
    + contradiction.
  - rewrite (bool_decide_eq_false_2 _ Hin). repeat split.
    + intros _. assumption.
    + intros _. apply elem_of_app. right. by left.
    + intros Hx. apply elem_of_app in Hx as [Hx|Hx]; [assumption|].
      apply list_elem_of_singleton in Hx. contradiction.
    + intros Hx. apply elem_of_app. by left.
    + intros _. rewrite bool_decide_eq_true_2
        by (apply elem_of_app; right; by left).
      rewrite filter_app, filter_cons_False, filter_nil, app_nil_r.
      * clear -Hin. induction (selectedStudents st) as [|a l IH];
          [reflexivity|].
        apply not_elem_of_cons in Hin as [Hne Hin].
        rewrite filter_cons_True, IH; [reflexivity | assumption |].
        apply negb_prop_intro. intros He. apply Is_true_eq_true in He.
        apply Z.eqb_eq in He. congruence.
      * rewrite Z.eqb_refl. simpl. tauto.
Qed.

(** X5. The students shown in the dialog are among the available ones; a
    blank search shows them all, and otherwise a student is shown exactly
    when the trimmed search text, lowered, occurs in the lowered name, or
    occurs as typed in the phone. *)
Theorem filtered_students_match (st : State) :
  filteredStudents st `sublist_of` allAvailableStudents st
  /\ (Forall (fun c => isWhiteSpace c = true) (searchQuery st) ->
      filteredStudents st = allAvailableStudents st)
  /\ (Exists (fun c => isWhiteSpace c = false) (searchQuery st) ->
      forall s, s ∈ filteredStudents st <->
        s ∈ allAvailableStudents st
        /\ (occursIn (toLowerCase (trim (searchQuery st)))
              (toLowerCase (default [] (full_name s)))
            \/ occursIn (trim (searchQuery st)) (default [] (phone s)))).
Proof.
  unfold filteredStudents. split; [|split].
  - destruct (negb (truthy (trim (searchQuery st)))); [reflexivity|].
    apply sublist_filter.
  - intros Hb. apply trim_nil in Hb. by rewrite Hb.
  - intros He s.
    destruct (trim (searchQuery st)) as [|c q] eqn:Ht.
    { apply trim_nil in Ht. exfalso. by eapply blank_not_both. }
    simpl. rewrite list_elem_of_filter, <- !includes_spec.
    rewrite <- orb_true_iff. split.
    + intros [Hm Hin]. split; [assumption | by apply Is_true_eq_true].
    + intros [Hin Hm]. split; [by apply Is_true_eq_left | assumption].
Qed.

(** X6. When the add call succeeds, the cached queries of this group's
    detail and of the pool of new students are marked stale and no other,
    the selection, the search text and the selection error are cleared,
    and a success notification is raised. *)
Theorem add_students_success (st : State) :
  selectedStudents (addStudentsMutation_settle None st) = []
  /\ searchQuery (addStudentsMutation_settle None st) = []
  /\ selectionError (addStudentsMutation_settle None st) = ""
  /\ isPending (addStudentsMutation_settle None st) = false
  /\ requests (env (addStudentsMutation_settle None st)) = requests (env st)
  /\ toasts (env (addStudentsMutation_settle None st))
     = toasts (env st)
       ++ [{| variant := Default; title := T "common.success";
              description := T "admin.groups.addSuccess" |}]
  /\ queries (env (addStudentsMutation_settle None st))
     = map (fun q =>
              if bool_decide ([KStr (js "adminGroupDetail"); KStr (groupId st)]
                                `prefix_of` queryKey q)
                 || inCollections [js "newStudents"] q
              then markStale q else q)
         (queries (env st)).
Proof.
  repeat split. simpl. rewrite map_map. apply map_ext. intros q.
  unfold invalidate at 1. rewrite invalidate_queryKey.
  rewrite partialMatchKey_head. unfold invalidate, inCollections, markStale.
  destruct (partialMatchKey (queryKey q) _) eqn:Hm.
  - apply partialMatchKey_prefix in Hm.
    rewrite (bool_decide_eq_true_2 _ Hm). simpl.
    by destruct (queryKey q) as [|[s| |] k]; try destruct (bool_decide _).
  - rewrite bool_decide_eq_false_2; last first.
    { intros Hp. apply partialMatchKey_prefix in Hp. congruence. }
    simpl. destruct q as [[|[s| |] k] b]; simpl; try reflexivity.
    assert (bool_decide (s ∈ [js "newStudents"])
            = bool_decide (s = js "newStudents")) as ->.
    { apply bool_decide_ext. rewrite list_elem_of_singleton. tauto. }
    reflexivity.
Qed.

End AddStudentsMore.

Lemma batch_add_payload_witness :
  exists ids,
    PostAddStudents (JFin (inject_Z 7)) [2; 3; 4]
    = PostAddStudents (JFin (inject_Z 7)) ids
    /\ NoDup ids /\ (1 <= length ids <= 100)%nat.
Proof.
  apply (batch_add_payload (NumberImpl := decimalNumber)
           (LowerImpl := asciiLowerCase) (js "7") adminEnv addDialogRun).
  vm_compute. reflexivity.
Defined.

(** ** Trimming *)

Lemma trimStart_head (s : jsstring) :
  trimStart s = []
  \/ exists c r, trimStart s = c :: r /\ isWhiteSpace c = false.
Proof.
  induction s as [|c s IH]; simpl; [by left|].
  destruct (isWhiteSpace c) eqn:Hc; [assumption|]. right. by exists c, s.
Qed.

Lemma trimStart_snoc (l : jsstring) (c : N) :
  isWhiteSpace c = false -> trimStart (l ++ [c]) = trimStart l ++ [c].
Proof.
  intros Hc. induction l as [|d l IH]; simpl; [by rewrite Hc|].
  by destruct (isWhiteSpace d).
Qed.

Lemma trimEnd_cons (c : N) (r : jsstring) :
  isWhiteSpace c = false -> trimEnd (c :: r) = c :: trimEnd r.
Proof.
  intros Hc. unfold trimEnd. simpl.
  by rewrite trimStart_snoc, rev_app_distr.
Qed.

Lemma trimStart_idem (s : jsstring) : trimStart (trimStart s) = trimStart s.
Proof.
  destruct (trimStart_head s) as [-> | (c & r & -> & Hc)]; [reflexivity|].
  simpl. by rewrite Hc.
Qed.

Lemma trimEnd_idem (s : jsstring) : trimEnd (trimEnd s) = trimEnd s.
Proof. unfold trimEnd. by rewrite rev_involutive, trimStart_idem. Qed.

(** Trimming twice is trimming once. *)
Lemma trim_idem (s : jsstring) : trim (trim s) = trim s.
Proof.
  unfold trim.
  destruct (trimStart_head s) as [-> | (c & r & -> & Hc)]; [reflexivity|].
  rewrite trimEnd_cons by assumption. simpl. rewrite Hc.
  rewrite <- trimEnd_cons by assumption. apply trimEnd_idem.
Qed.

Lemma last_rev_head {A} (l : list A) : last (rev l) = head l.
Proof. destruct l as [|x l]; [reflexivity|]. simpl. apply last_snoc. Qed.

(** A trimmed string has no white space at either end. *)
Lemma trim_trimmed (s : jsstring) : trimmed (trim s).
Proof.
  intros c [Hh | Hl].
  - unfold trim in Hh.
    destruct (trimStart_head s) as [He | (d & r & He & Hd)]; rewrite He in Hh.
    + discriminate.
    + rewrite trimEnd_cons in Hh by assumption. simpl in Hh. congruence.
  - unfold trim, trimEnd in Hl. rewrite last_rev_head in Hl.
    destruct (trimStart_head (rev (trimStart s))) as [He | (d & r & He & Hd)];
      rewrite He in Hl; simpl in Hl; congruence.
Qed.

(** ** The edit form of the group detail page *)

Lemma size_insert_pos (m : gmap string string) (k v : string) :
  (size (<[k := v]> m) =? 0)%nat = false.
Proof.
  apply Nat.eqb_neq. apply map_size_non_empty_iff, insert_non_empty.
Qed.

Lemma size_insert_lt (m : gmap string string) (k v : string) :
  (0 <? size (<[k := v]> m))%nat = true.
Proof.
  apply Nat.ltb_lt. pose proof (size_insert_pos m k v) as H.
  apply Nat.eqb_neq in H. lia.
Qed.

Section EditGroup.
Import AdminGroupDetail.
Context {NumberImpl : NumberOfString}.

(** X8. The edit form of a group is valid exactly when the trimmed name
    has between 2 and 80 characters, the trimmed level is not empty, a
    main teacher is chosen, and the assistant teacher, when chosen, is
    not the main teacher. *)
Theorem edit_form_valid_iff (st : State) :
  isEditValid st = true <->
  (2 <= length (trim (name (editGroup st))) <= 80)%nat
  /\ trim (level (editGroup st)) <> []
  /\ main_teacher_id (editGroup st) <> []
  /\ (assistant_teacher_id (editGroup st) = []
      \/ assistant_teacher_id (editGroup st) <> main_teacher_id (editGroup st)).
Proof.
  unfold isEditValid, noKeys, validateEditGroup, trimmedEditName.
  destruct (trim (name (editGroup st))) as [|c n] eqn:Hn;
    destruct (trim (level (editGroup st))) as [|d l] eqn:Hl;
    destruct (main_teacher_id (editGroup st)) as [|e m] eqn:Hm;
    destruct (assistant_teacher_id (editGroup st)) as [|f a] eqn:Ha;
    simpl truthy; simpl negb; cbv iota;
    try case_bool_decide;
    try destruct (Nat.ltb_spec (length (c :: n)) 2);
    try destruct (Nat.ltb_spec 80 (length (c :: n)));
    simpl andb; cbv iota;
    rewrite ?size_insert_pos, ?map_size_empty;
    (split; [try discriminate | try (intros (? & ? & ? & [?|?]); simpl in *; first [congruence | lia])]).
  all: try (intros _; repeat split; simpl in *; try lia; try discriminate;
            first [by left | by right]).
Qed.

(** X9. Submitting the edit form sends the update exactly when the form
    is valid and differs from the loaded group; the call then carries the
    trimmed name and level, with no white space at either end, the main
    teacher as a number and the assistant teacher as a number or null.  A
    valid but unchanged form raises the "no changes" notification and
    sends nothing; in every case the errors shown are those of the
    validation. *)
Theorem update_group_submission (st : State) :
  ((exists r, issues (env st) (env (handleUpdateGroup st)) r) <->
   isEditValid st = true /\ isEditDirty st = true)
  /\ (isEditValid st = true -> isEditDirty st = true ->
      issues (env st) (env (handleUpdateGroup st))
        (PutGroup (groupId st)
           (trim (name (editGroup st))) (trim (level (editGroup st)))
           (Number (main_teacher_id (editGroup st)))
           (if truthy (assistant_teacher_id (editGroup st))
            then Some (Number (assistant_teacher_id (editGroup st)))
            else None))
      /\ trimmed (trim (name (editGroup st)))
      /\ trimmed (trim (level (editGroup st)))
      /\ updatePending (handleUpdateGroup st) = true)
  /\ (isEditValid st = true -> isEditDirty st = false ->
      requests (env (handleUpdateGroup st)) = requests (env st)
      /\ toasts (env (handleUpdateGroup st))
         = toasts (env st)
           ++ [{| variant := Default;
                  title := T "admin.groups.detail.noChanges";
                  description := T "admin.groups.detail.nothingToUpdate" |}])
  /\ editErrors (handleUpdateGroup st) = validateEditGroup st.
Proof.
  assert (isEditValid st = true ->
          (0 <? size (validateEditGroup st))%nat = false) as Hvalid.
  { unfold isEditValid, noKeys. intros Hv. apply Nat.eqb_eq in Hv.
    rewrite Hv. reflexivity. }
  assert (isEditValid st = false ->
          (0 <? size (validateEditGroup st))%nat = true) as Hinvalid.
  { unfold isEditValid, noKeys. intros Hv. apply Nat.eqb_neq in Hv.
    apply Nat.ltb_lt. lia. }
  split; [|split; [|split]].
  - unfold handleUpdateGroup.
    destruct (isEditValid st) eqn:Hv.
    + rewrite (Hvalid eq_refl). destruct (isEditDirty st) eqn:Hd; simpl.
      * split; [by intros _ | intros _; eexists; reflexivity].
      * split; [|by intros [_ ?]].
        intros [r Hr]. by apply not_grown in Hr.
    + rewrite (Hinvalid eq_refl). split; [|by intros [? _]].
      intros [r Hr]. by apply not_grown in Hr.
  - intros Hv Hd. unfold handleUpdateGroup.
    rewrite (Hvalid Hv), Hd. simpl.
    unfold issues, trimmedEditName. simpl. rewrite !trim_idem.
    repeat split; apply trim_trimmed.
  - intros Hv Hd. unfold handleUpdateGroup.
    rewrite (Hvalid Hv), Hd. simpl. by split.
  - unfold handleUpdateGroup.
    destruct (0 <? size (validateEditGroup st))%nat; [reflexivity|].
    by destruct (negb (isEditDirty st)).
Qed.

(** X10. Once the loaded group has filled the open edit form, the form
    shows no error and counts as unchanged: the submit button is disabled
    and submitting sends nothing. *)
Theorem prefill_is_clean (st : State) (g : GroupDetail) :
  isEditOpen st = true ->
  editErrors (prefillEffect (Some g) st) = ∅
  /\ initialEditGroup (prefillEffect (Some g) st)
     = Some (editGroup (prefillEffect (Some g) st))
  /\ isEditDirty (prefillEffect (Some g) st) = false
  /\ editForm_onSubmit (prefillEffect (Some g) st) = prefillEffect (Some g) st
  /\ requests (env (handleUpdateGroup (prefillEffect (Some g) st)))
     = requests (env st).
Proof.
  intros Ho. unfold prefillEffect. rewrite Ho.
  assert (forall st', initialEditGroup st' = Some (editGroup st') ->
                      isEditDirty st' = false) as Hclean.
  { intros st' Hi. unfold isEditDirty. rewrite Hi.
    by rewrite bool_decide_eq_true_2. }
  split; [reflexivity|]. split; [reflexivity|].
  split; [by apply Hclean|]. split.
  - unfold editForm_onSubmit. rewrite Hclean by reflexivity.
    by rewrite orb_true_r.
  - unfold handleUpdateGroup. rewrite Hclean by reflexivity. simpl.
    by destruct (0 <? size _)%nat.
Qed.

(** X11. When the update of the detail page succeeds, the cached queries
    of this group's detail are marked stale and every other cached query,
    the groups list included, stays as it was; the dialog is closed and a
    success notification is raised.  When it fails the dialog stays open
    with the form as typed, nothing is marked stale, and the notification
    carries the message of the error. *)
Theorem detail_update_settled (st : State) :
  isEditOpen (updateGroupMutation_settle None st) = false
  /\ updatePending (updateGroupMutation_settle None st) = false
  /\ toasts (env (updateGroupMutation_settle None st))
     = toasts (env st)
       ++ [{| variant := Default; title := T "common.success";
              description := T "admin.groups.updateSuccess" |}]
  /\ queries (env (updateGroupMutation_settle None st))
     = map (fun q =>
              if bool_decide ([KStr (js "adminGroupDetail"); KStr (groupId st)]
                                `prefix_of` queryKey q)
              then markStale q else q)
         (queries (env st))
  /\ (forall err,
        isEditOpen (updateGroupMutation_settle (Some err) st) = isEditOpen st
        /\ editGroup (updateGroupMutation_settle (Some err) st) = editGroup st
        /\ updatePending (updateGroupMutation_settle (Some err) st) = false
        /\ queries (env (updateGroupMutation_settle (Some err) st))
           = queries (env st)
        /\ toasts (env (updateGroupMutation_settle (Some err) st))
           = toasts (env st)
             ++ [{| variant := Destructive; title := T "common.error";
                    description :=
                      getApiErrorMessage err (T "admin.groups.updateError") |}]).
Proof.
  split; [reflexivity|]. split; [reflexivity|]. split; [reflexivity|].
  split; [|by intros err].
  simpl. apply map_ext. intros q. rewrite invalidate_spec.
  destruct (partialMatchKey (queryKey q) _) eqn:Hm.
  - apply partialMatchKey_prefix in Hm. by rewrite bool_decide_eq_true_2.
  - rewrite bool_decide_eq_false_2; [reflexivity|].
    intros Hp. apply partialMatchKey_prefix in Hp. congruence.
Qed.

End EditGroup.

Lemma update_group_submission_witness :
  requests
    (AdminGroupDetail.env
       (AdminGroupDetail.handleUpdateGroup (NumberImpl := decimalNumber)
          renamed7))
  = [PutGroup (js "7") (js "Evening") (js "B1") (JFin (inject_Z 3)) None].
Proof.
  destruct (update_group_submission (NumberImpl := decimalNumber) renamed7)
    as (_ & H & _).
  destruct H as (Hr & _); [reflexivity | reflexivity |].
  exact Hr.
Defined.

Lemma prefill_is_clean_witness :
  AdminGroupDetail.editForm_onSubmit (NumberImpl := decimalNumber)
    (AdminGroupDetail.prefillEffect (Some group7) detailPage7)
  = AdminGroupDetail.prefillEffect (Some group7) detailPage7.
Proof.
  destruct (prefill_is_clean (NumberImpl := decimalNumber) detailPage7 group7
              eq_refl) as (_ & _ & _ & H & _).
  exact H.
Defined.

(** ** The dialog of the groups page *)

Lemma length_trim_pos (s : jsstring) :
  (1 <=? length (trim s))%nat = true <->
  Exists (fun c => isWhiteSpace c = false) s.
Proof.
  destruct (trim s) as [|c r] eqn:Ht; simpl.
  - apply trim_nil in Ht. split; [discriminate|].
    intros He. exfalso. by eapply blank_not_both.
  - split; [intros _|reflexivity].
    destruct (blank_or_not s) as [Hb|He]; [|exact He].
    apply trim_nil in Hb. congruence.
Qed.

Lemma length_trim_zero (s : jsstring) :
  (1 <=? length (trim s))%nat = false <->
  Forall (fun c => isWhiteSpace c = true) s.
Proof.
  rewrite <- trim_nil. destruct (trim s); simpl; split; congruence.
Qed.

Section GroupsDialog.
Import AdminGroups.
Context {NumberImpl : NumberOfString}.

Lemma groups_valid_iff (st : State) :
  isFormValid st = true <->
  Exists (fun c => isWhiteSpace c = false) (name (groupForm st))
  /\ Exists (fun c => isWhiteSpace c = false) (level (groupForm st))
  /\ Exists (fun c => isWhiteSpace c = false) (main_teacher_id (groupForm st)).
Proof.
  rewrite <- !length_trim_pos.
  unfold isFormValid, validation, groupSchema.
  destruct (1 <=? length (trim (name (groupForm st))))%nat,
    (1 <=? length (trim (level (groupForm st))))%nat,
    (1 <=? length (trim (main_teacher_id (groupForm st))))%nat;
    simpl; split; try discriminate; try tauto;
    intros (? & ? & ?); discriminate.
Qed.

(** X12. The form of the groups page is valid exactly when name, level
    and main teacher each hold a character that is not white space,
    whatever the assistant teacher.  A blank name gives the message
    "Group name is required"; on an invalid form the submit button is
    disabled, and the submit handler sends nothing, marks every field as
    touched and raises the validation notification. *)
Theorem groups_form_validation (st : State) :
  (isFormValid st = true <->
   Exists (fun c => isWhiteSpace c = false) (name (groupForm st))
   /\ Exists (fun c => isWhiteSpace c = false) (level (groupForm st))
   /\ Exists (fun c => isWhiteSpace c = false) (main_teacher_id (groupForm st)))
  /\ (Forall (fun c => isWhiteSpace c = true) (name (groupForm st)) ->
      fieldError "name" st = "Group name is required")
  /\ (Exists (fun c => isWhiteSpace c = false) (name (groupForm st)) ->
      fieldError "name" st = "")
  /\ (isFormValid st = false ->
      submitButton_onClick st = st
      /\ requests (env (handleSubmit st)) = requests (env st)
      /\ touched (handleSubmit st)
         = {| t_name := true; t_level := true; t_main_teacher_id := true;
              t_assistant_teacher_id := true |}
      /\ toasts (env (handleSubmit st))
         = toasts (env st)
           ++ [{| variant := Destructive;
                  title := T "admin.groups.validationError";
                  description := T "admin.groups.fixFields" |}]).
Proof.
  split; [apply groups_valid_iff|]. split; [|split].
  - intros Hb. apply length_trim_zero in Hb.
    unfold fieldError, validation, groupSchema. by rewrite Hb.
  - intros He. apply length_trim_pos in He.
    unfold fieldError, validation, groupSchema. rewrite He.
    destruct (1 <=? length (trim (level (groupForm st))))%nat,
      (1 <=? length (trim (main_teacher_id (groupForm st))))%nat;
      reflexivity.
  - intros Hv. unfold submitButton_onClick, isSubmitDisabled, handleSubmit.
    rewrite Hv. by repeat split.
Qed.

(** X13. A valid form of the groups page, with no save pending, sends one
    call: the update of the edited group when an edited group id is set
    and is not 0, and the creation of a group otherwise.  The call
    carries name and level as typed, the main teacher as a number, and
    the assistant teacher as a number, or null when none is chosen. *)
Theorem groups_submit_target (st : State) :
  isFormValid st = true -> isSaving st = false ->
  (forall gid, editingGroupId st = Some gid -> gid <> 0 ->
     issues (env st) (env (submitButton_onClick st))
       (PutGroup (toString gid) (name (groupForm st)) (level (groupForm st))
          (Number (main_teacher_id (groupForm st)))
          (if truthy (assistant_teacher_id (groupForm st))
           then Some (Number (assistant_teacher_id (groupForm st)))
           else None))
     /\ updatePending (submitButton_onClick st) = true)
  /\ (editingGroupId st = None \/ editingGroupId st = Some 0 ->
      issues (env st) (env (submitButton_onClick st))
        (PostGroup (name (groupForm st)) (level (groupForm st))
           (Number (main_teacher_id (groupForm st)))
           (if truthy (assistant_teacher_id (groupForm st))
            then Some (Number (assistant_teacher_id (groupForm st)))
            else None))
      /\ createPending (submitButton_onClick st) = true)
  /\ issues (env st)
       (env (submitButton_onClick (assistantSelect_onValueChange (js "none") st)))
       (match editingGroupId st with
        | Some gid =>
            if negb (gid =? 0)
            then PutGroup (toString gid) (name (groupForm st))
                   (level (groupForm st))
                   (Number (main_teacher_id (groupForm st))) None
            else PostGroup (name (groupForm st)) (level (groupForm st))
                   (Number (main_teacher_id (groupForm st))) None
        | None => PostGroup (name (groupForm st)) (level (groupForm st))
                    (Number (main_teacher_id (groupForm st))) None
        end).
Proof.
  intros Hv Hs.
  assert (submitButton_onClick st = handleSubmit st) as Hclick.
  { unfold submitButton_onClick, isSubmitDisabled. by rewrite Hv, Hs. }
  split; [|split].
  - intros gid Hg Hne. rewrite Hclick. unfold handleSubmit.
    rewrite Hv, Hg. simpl.
    destruct (Z.eqb_spec gid 0) as [?|_]; [contradiction|]. by split.
  - intros Hg. rewrite Hclick. unfold handleSubmit. rewrite Hv. simpl.
    destruct Hg as [-> | ->]; by split.
  - unfold assistantSelect_onValueChange. rewrite Hs.
    rewrite bool_decide_eq_true_2 by reflexivity.
    match goal with |- context [setGroupForm ?f st] =>
      set (st' := setGroupForm f st) end.
    assert (isFormValid st' = true) as Hv' by exact Hv.
    assert (isSaving st' = false) as Hs' by exact Hs.
    unfold submitButton_onClick, isSubmitDisabled. rewrite Hv', Hs'. simpl.
    unfold handleSubmit. rewrite Hv'. simpl.
    destruct (editingGroupId st) as [gid|]; [|reflexivity].
    by destruct (gid =? 0).
Qed.

(** X14. When a creation succeeds the cached groups list is marked stale
    and nothing else; when an update succeeds the groups list and the
    detail queries keyed by the edited group's numeric id are marked
    stale and nothing else.  Both close the dialog and forget the edited
    group; a failure marks nothing and leaves the dialog and the form as
    they are. *)
Theorem groups_page_settled (st : State) :
  (queries (env (createGroupMutation_settle true st))
   = map (fun q => if inCollections [js "adminGroups"] q
                   then markStale q else q)
       (queries (env st))
   /\ isDialogOpen (createGroupMutation_settle true st) = false
   /\ editingGroupId (createGroupMutation_settle true st) = None
   /\ createPending (createGroupMutation_settle true st) = false)
  /\ (queries (env (updateGroupMutation_settle true st))
      = map (fun q =>
               if inCollections [js "adminGroups"] q
                  || bool_decide ([KStr (js "adminGroupDetail"); editingKey st]
                                    `prefix_of` queryKey q)
               then markStale q else q)
          (queries (env st))
      /\ isDialogOpen (updateGroupMutation_settle true st) = false
      /\ editingGroupId (updateGroupMutation_settle true st) = None
      /\ updatePending (updateGroupMutation_settle true st) = false)
  /\ (queries (env (createGroupMutation_settle false st)) = queries (env st)
      /\ queries (env (updateGroupMutation_settle false st)) = queries (env st)
      /\ isDialogOpen (createGroupMutation_settle false st) = isDialogOpen st
      /\ isDialogOpen (updateGroupMutation_settle false st) = isDialogOpen st
      /\ groupForm (createGroupMutation_settle false st) = groupForm st
      /\ groupForm (updateGroupMutation_settle false st) = groupForm st).
Proof.
  assert (forall s : jsstring, bool_decide (s ∈ [js "adminGroups"])
                               = bool_decide (s = js "adminGroups")) as Hone.
  { intros s. apply bool_decide_ext. rewrite list_elem_of_singleton. tauto. }
  split; [|split; [|by repeat split]].
  - split; [|by repeat split]. simpl. apply map_ext. intros q.
    rewrite invalidate_spec, partialMatchKey_head. unfold inCollections.
    destruct (queryKey q) as [|[s| |] k]; try reflexivity.
    by rewrite (Hone s).
  - split; [|by repeat split].
    change (queries (env (updateGroupMutation_settle true st)))
      with (map (invalidate [KStr (js "adminGroupDetail"); editingKey st])
              (map (invalidate [KStr (js "adminGroups")]) (queries (env st)))).
    rewrite map_map. apply map_ext.
    intros q. unfold invalidate at 1. rewrite invalidate_queryKey.
    unfold invalidate. rewrite partialMatchKey_head. unfold inCollections.
    assert (partialMatchKey (queryKey q)
              [KStr (js "adminGroupDetail"); editingKey st]
            = bool_decide ([KStr (js "adminGroupDetail"); editingKey st]
                             `prefix_of` queryKey q)) as ->.
    { destruct (partialMatchKey _ _) eqn:Hm.
      - apply partialMatchKey_prefix in Hm. by rewrite bool_decide_eq_true_2.
      - rewrite bool_decide_eq_false_2; [reflexivity|].
        intros Hp. apply partialMatchKey_prefix in Hp. congruence. }
    destruct (bool_decide (_ `prefix_of` _)) eqn:Hp.
    + rewrite orb_true_r. unfold markStale.
      destruct q as [[|[s| |] k] b]; simpl; try reflexivity;
        by destruct (bool_decide (s = js "adminGroups")).
    + rewrite orb_false_r. unfold markStale.
      destruct q as [[|[s| |] k] b]; simpl; try reflexivity.
      by rewrite (Hone s).
Qed.

(** X15. An update made from the groups page marks stale only detail
    queries whose key holds the group id as a number: a detail query
    cached under the id as a string, as the group detail page caches it,
    is left as it was. *)
Theorem groups_update_keeps_string_keyed_detail (st : State) (i : nat)
    (q : Query) (s : jsstring) (k : QueryKey) :
  queries (env st) !! i = Some q ->
  queryKey q = KStr (js "adminGroupDetail") :: KStr s :: k ->
  queries (env (updateGroupMutation_settle true st)) !! i = Some q.
Proof.
  intros Hq Hk.
  change (queries (env (updateGroupMutation_settle true st)))
    with (map (invalidate [KStr (js "adminGroupDetail"); editingKey st])
            (map (invalidate [KStr (js "adminGroups")]) (queries (env st)))).
  rewrite map_map, list_lookup_fmap, Hq. simpl. f_equal.
  assert (invalidate [KStr (js "adminGroups")] q = q) as ->.
  { unfold invalidate. rewrite partialMatchKey_head, Hk.
    by rewrite bool_decide_eq_false_2 by (vm_compute; discriminate). }
  rewrite invalidate_spec.
  destruct (partialMatchKey (queryKey q) _) eqn:Hm; [|reflexivity].
  apply partialMatchKey_prefix in Hm. rewrite Hk in Hm.
  apply prefix_cons_inv_2, prefix_cons_inv_1 in Hm.
  unfold editingKey in Hm. destruct (editingGroupId st); discriminate.
Qed.

End GroupsDialog.

(** The scenario of the specification: a group named with two spaces. *)
Lemma groups_form_validation_witness :
  AdminGroups.fieldError "name" blankNameGroup = "Group name is required"
  /\ requests
       (AdminGroups.env
          (AdminGroups.handleSubmit (NumberImpl := decimalNumber)
             blankNameGroup))
     = [].
Proof.
  destruct (groups_form_validation (NumberImpl := decimalNumber)
              blankNameGroup) as (_ & Hmsg & _ & Hinv).
  split.
  - apply Hmsg. repeat constructor.
  - destruct (Hinv eq_refl) as (_ & Hr & _). exact Hr.
Defined.

Lemma groups_submit_target_witness :
  requests
    (AdminGroups.env
       (AdminGroups.submitButton_onClick (NumberImpl := decimalNumber)
          editDialog7))
  = [PutGroup (js "7") (js "Morning ") (js "B1") (JFin (inject_Z 3))
       (Some (JFin (inject_Z 5)))].
Proof.
  destruct (groups_submit_target (NumberImpl := decimalNumber) editDialog7
              eq_refl eq_refl) as (Hput & _).
  destruct (Hput 7 eq_refl) as (Hr & _); [discriminate|].
  exact Hr.
Defined.

Lemma groups_update_keeps_string_keyed_detail_witness :
  queries
    (AdminGroups.env (AdminGroups.updateGroupMutation_settle true editDialog7))
    !! 4%nat
  = Some (freshQuery [KStr (js "adminGroupDetail"); KStr (js "7")]).
Proof.
  apply (groups_update_keeps_string_keyed_detail editDialog7 4%nat
           (freshQuery [KStr (js "adminGroupDetail"); KStr (js "7")])
           (js "7") []); reflexivity.
Defined.

(** ** Counters and sheets of the attendance pages *)

Lemma count_true_false (l : list bool) :
  (length (filter (fun v => v = true) l) + length (filter (fun v => v = false) l)
   = length l)%nat.
Proof.
  induction l as [|[|] l IH]; [reflexivity| |].
  - rewrite filter_cons_True, filter_cons_False by done. simpl. lia.
  - rewrite filter_cons_False, filter_cons_True by done. simpl. lia.
Qed.

Lemma allPresent_fold_size (l : list GroupStudent) (m : gmap Z bool) :
  NoDup (map gs_id l) ->
  (forall s, s ∈ l -> m !! gs_id s = None) ->
  size (fold_left (fun initial s => <[gs_id s := true]> initial) l m)
  = (size m + length l)%nat.
Proof.
  revert m. induction l as [|a l IH]; intros m Hnd Hfresh; simpl; [lia|].
  apply NoDup_cons in Hnd as [Ha Hnd].
  rewrite IH; [|assumption|].
  - rewrite map_size_insert_None; [lia|]. apply Hfresh. by left.
  - intros s Hs. rewrite lookup_insert_ne; [apply Hfresh; by right|].
    intros Heq. apply Ha. rewrite Heq.
    apply list_elem_of_In, in_map, list_elem_of_In, Hs.
Qed.

Lemma allPresent_size (l : list GroupStudent) :
  NoDup (map gs_id l) -> size (allPresent l) = length l.
Proof.
  intros Hnd. unfold allPresent. rewrite allPresent_fold_size; [|assumption|].
  - by rewrite map_size_empty.
  - intros s _. apply lookup_empty.
Qed.

Lemma allPresent_values (l : list GroupStudent) (v : bool) :
  v ∈ (map_to_list (allPresent l)).*2 -> v = true.
Proof.
  intros Hv. apply list_elem_of_fmap in Hv as ([k w] & -> & Hkw).
  apply elem_of_map_to_list in Hkw. rewrite allPresent_lookup in Hkw.
  simpl. destruct (bool_decide _); congruence.
Qed.

Section AttendanceSheets.
Context {NumberImpl : NumberOfString}.

(** X16. On the attendance page the present and absent counters add up to
    the number of entries of the sheet of the selection.  Right after the
    sheet of a group whose students have distinct ids was initialized,
    every student counts as present, none as absent and none as
    unmarked. *)
Theorem attendance_counters (st : TeacherAttendance.State) :
  (TeacherAttendance.presentCount st + TeacherAttendance.absentCount st
   = size (TeacherAttendance.attendanceForSelection st))%nat
  /\ (forall l,
        TeacherAttendance.students st = Some l -> l <> [] ->
        NoDup (map gs_id l) ->
        truthy (TeacherAttendance.selectedGroupId st) = true ->
        TeacherAttendance.attendanceByKey st !! TeacherAttendance.key st = None ->
        TeacherAttendance.presentCount (TeacherAttendance.initEffect st)
        = length l
        /\ TeacherAttendance.absentCount (TeacherAttendance.initEffect st)
           = 0%nat
        /\ TeacherAttendance.unmarkedCount (TeacherAttendance.initEffect st)
           = 0).
Proof.
  split.
  - unfold TeacherAttendance.presentCount, TeacherAttendance.absentCount,
      TeacherAttendance.values.
    rewrite count_true_false, length_fmap. apply length_map_to_list.
  - intros l Hl Hne Hnd Hg Hfresh.
    assert (TeacherAttendance.attendanceForSelection
              (TeacherAttendance.initEffect st) = allPresent l) as Hsheet.
    { unfold TeacherAttendance.initEffect.
      rewrite truthy_key, Hg, Hl, Hfresh. simpl.
      destruct l as [|a l]; [done|].
      unfold TeacherAttendance.attendanceForSelection.
      change (TeacherAttendance.key (TeacherAttendance.setAttendanceByKey _ st))
        with (TeacherAttendance.key st).
      rewrite truthy_key, Hg. simpl.
      by rewrite lookup_insert_eq. }
    assert (TeacherAttendance.totalStudents (TeacherAttendance.initEffect st)
            = length l) as Htotal.
    { unfold TeacherAttendance.totalStudents.
      by rewrite page_init_students, Hl. }
    assert (TeacherAttendance.absentCount (TeacherAttendance.initEffect st)
            = 0%nat) as Habs.
    { unfold TeacherAttendance.absentCount, TeacherAttendance.values.
      rewrite Hsheet.
      destruct (filter _ _) as [|v vs] eqn:Hf; [reflexivity|].
      assert (v ∈ filter (fun v => v = false) (map_to_list (allPresent l)).*2)
        as Hv by (rewrite Hf; by left).
      apply list_elem_of_filter in Hv as [Hfalse Hin].
      apply allPresent_values in Hin. congruence. }
    assert (TeacherAttendance.presentCount (TeacherAttendance.initEffect st)
            = length l) as Hpres.
    { pose proof (count_true_false
                    (TeacherAttendance.values
                       (TeacherAttendance.attendanceForSelection
                          (TeacherAttendance.initEffect st)))) as Hsum.
      unfold TeacherAttendance.absentCount in Habs.
      unfold TeacherAttendance.presentCount.
      rewrite Habs in Hsum. rewrite Nat.add_0_r in Hsum. rewrite Hsum.
      unfold TeacherAttendance.values.
      rewrite length_fmap, length_map_to_list, Hsheet.
      by apply allPresent_size. }
    split; [assumption|]. split; [assumption|].
    unfold TeacherAttendance.unmarkedCount. rewrite Htotal, Hpres, Habs. lia.
Qed.

(** X17. The mark clicked for a student is what a following save submits
    for that student, on the attendance page and on the attendance tab of
    the group page: the submitted attendance holds the student's id with
    the clicked value. *)
Theorem clicked_mark_is_submitted (l : list GroupStudent) (s : GroupStudent)
    (b : bool) :
  s ∈ l ->
  (forall (st : TeacherAttendance.State) (r : Request),
     TeacherAttendance.students st = Some l ->
     issues
       (TeacherAttendance.env
          (TeacherAttendance.setStudentPresence (gs_id s) b st))
       (TeacherAttendance.env
          (TeacherAttendance.saveButton_onClick
             (TeacherAttendance.setStudentPresence (gs_id s) b st))) r ->
     exists gid date attendance,
       r = PostAttendance gid date attendance
       /\ {| student_id := gs_id s; is_present := b |} ∈ attendance)
  /\ (forall (st : GroupDetail.State) (r : Request),
        GroupDetail.students st = Some l ->
        issues
          (GroupDetail.env (GroupDetail.setStudentPresence (gs_id s) b st))
          (GroupDetail.env
             (GroupDetail.saveButton_onClick
                (GroupDetail.setStudentPresence (gs_id s) b st))) r ->
        exists gid date attendance,
          r = PostAttendance gid date attendance
          /\ {| student_id := gs_id s; is_present := b |} ∈ attendance).
Proof.
  intros Hs. split.
  - intros st r Hl Hr.
    destruct (saveButton_cases (TeacherAttendance.setStudentPresence (gs_id s) b st))
      as [(l' & Hl' & _ & _ & Hg & _ & _ & Heq) | Heq];
      unfold issues in Hr; rewrite Heq in Hr;
      [|by apply not_grown in Hr].
    simpl in Hr. apply app_inv_head in Hr. injection Hr as <-.
    assert (truthy (TeacherAttendance.key st) = true) as Hk.
    { rewrite truthy_key.
      revert Hg. unfold TeacherAttendance.setStudentPresence.
      by destruct (negb (truthy (TeacherAttendance.key st))). }
    assert (l' = l) as ->.
    { revert Hl'. unfold TeacherAttendance.setStudentPresence.
      rewrite Hk. simpl. congruence. }
    do 3 eexists. split; [reflexivity|].
    apply list_elem_of_In, in_map_iff. exists s.
    split; [|by apply list_elem_of_In].
    unfold payloadEntry. f_equal.
    unfold TeacherAttendance.setStudentPresence. rewrite Hk. simpl.
    unfold TeacherAttendance.attendanceForSelection.
    change (TeacherAttendance.key (TeacherAttendance.setAttendanceByKey _ st))
      with (TeacherAttendance.key st).
    rewrite Hk. simpl. rewrite lookup_insert_eq. simpl.
    rewrite lookup_insert_eq. simpl. by destruct b.
  - intros st r Hl Hr.
    destruct (group_tab_save_one_call _ r Hr) as (l' & Hl' & ->).
    simpl in Hl'. assert (l' = l) as -> by congruence.
    do 3 eexists. split; [reflexivity|].
    apply list_elem_of_In, in_map_iff. exists s.
    split; [|by apply list_elem_of_In].
    unfold payloadEntry. f_equal.
    unfold GroupDetail.attendanceForDate, GroupDetail.setStudentPresence.
    simpl. rewrite lookup_insert_eq. simpl.
    rewrite lookup_insert_eq. simpl. by destruct b.
Qed.

(** X18. Sheets are kept per date: a mark clicked on one date does not
    change the sheet of another date of the same group, and it is still
    there when the operator comes back to the first date, on the
    attendance page (with a group selected) and on the attendance tab. *)
Theorem sheets_are_per_date (d : jsstring) (i : Z) (b : bool) :
  (forall st : TeacherAttendance.State,
     d <> TeacherAttendance.selectedDate st ->
     TeacherAttendance.attendanceForSelection
       (TeacherAttendance.setSelectedDate d
          (TeacherAttendance.setStudentPresence i b st))
     = TeacherAttendance.attendanceForSelection
         (TeacherAttendance.setSelectedDate d st)
     /\ (truthy (TeacherAttendance.selectedGroupId st) = true ->
         TeacherAttendance.attendanceForSelection
           (TeacherAttendance.setSelectedDate (TeacherAttendance.selectedDate st)
              (TeacherAttendance.setSelectedDate d
                 (TeacherAttendance.setStudentPresence i b st))) !! i
         = Some b))
  /\ (forall st : GroupDetail.State,
        d <> GroupDetail.selectedDate st ->
        GroupDetail.attendanceForDate
          (GroupDetail.setSelectedDate d (GroupDetail.setStudentPresence i b st))
        = GroupDetail.attendanceForDate (GroupDetail.setSelectedDate d st)
        /\ GroupDetail.attendanceForDate
             (GroupDetail.setSelectedDate (GroupDetail.selectedDate st)
                (GroupDetail.setSelectedDate d
                   (GroupDetail.setStudentPresence i b st))) !! i
           = Some b).
Proof.
  split.
  - intros st Hd. unfold TeacherAttendance.setStudentPresence.
    rewrite truthy_key.
    destruct (truthy (TeacherAttendance.selectedGroupId st)) eqn:Hg; simpl.
    2: { split; [reflexivity | discriminate]. }
    unfold TeacherAttendance.attendanceForSelection, TeacherAttendance.key.
    simpl. rewrite Hg. split.
    + destruct (TeacherAttendance.selectedGroupId st) as [|c g]; [done|].
      simpl. rewrite lookup_insert_ne; [reflexivity|].
      intros Heq. injection Heq as Heq. apply app_inv_head in Heq.
      injection Heq as Heq. congruence.
    + intros _. destruct (TeacherAttendance.selectedGroupId st) as [|c g];
        [done|].
      simpl. rewrite lookup_insert_eq. simpl. apply lookup_insert_eq.
  - intros st Hd. unfold GroupDetail.attendanceForDate,
      GroupDetail.setStudentPresence. simpl. split.
    + by rewrite lookup_insert_ne.
    + rewrite lookup_insert_eq. simpl. apply lookup_insert_eq.
Qed.

End AttendanceSheets.

Lemma clicked_mark_is_submitted_witness :
  exists gid date attendance,
    PostAttendance (JFin (inject_Z 7)) (js "2024-05-01")
      [ {| student_id := 1; is_present := true |};
        {| student_id := 2; is_present := false |};
        {| student_id := 3; is_present := true |};
        {| student_id := 4; is_present := true |};
        {| student_id := 5; is_present := true |} ]
    = PostAttendance gid date attendance
    /\ {| student_id := 2; is_present := false |} ∈ attendance.
Proof.
  destruct (clicked_mark_is_submitted (NumberImpl := decimalNumber)
              fiveStudents
              {| gs_id := 2; gs_full_name := js "Student";
                 gs_phone := js "998901234567" |} false) as [Hpage _].
  - apply list_elem_of_In. vm_compute. tauto.
  - apply (Hpage (TeacherAttendance.initEffect attendancePage));
      [reflexivity | vm_compute; reflexivity].
Defined.

(** ** The create-assignment dialog *)

Section Assignments.
Import CreateAssignment.

(** X19. The save button of the create-assignment dialog sends the call
    exactly when title, content and due date are all non-empty and no
    call is pending; the call carries the three fields as typed and the
    id of the group.  With a field empty it raises the validation
    notification and leaves the form and the dialog as they are.  On
    success the form is emptied, the dialog is closed and the cached
    assignment queries of this group, and no other, are marked stale; on
    failure the form and the dialog stay and nothing is marked stale. *)
Theorem assignment_create_rules (st : State) :
  ((exists c, sent (saveButton_onClick st) = sent st ++ [c]) <->
   title (newAssignment st) <> [] /\ content (newAssignment st) <> []
   /\ due_date (newAssignment st) <> [] /\ isPending st = false)
  /\ (forall c, sent (saveButton_onClick st) = sent st ++ [c] ->
        c = PostAssignment (title (newAssignment st))
              (content (newAssignment st)) (group_id st)
              (due_date (newAssignment st)))
  /\ (isPending st = false ->
      title (newAssignment st) = [] \/ content (newAssignment st) = []
      \/ due_date (newAssignment st) = [] ->
      sent (saveButton_onClick st) = sent st
      /\ newAssignment (saveButton_onClick st) = newAssignment st
      /\ isCreateOpen (saveButton_onClick st) = isCreateOpen st
      /\ toasts (env (saveButton_onClick st))
         = toasts (env st)
           ++ [notify Destructive (T "admin.groups.validationError")
                 (T "teacher.assignments.createError")])
  /\ (newAssignment (createAssignmentMutation_settle true st) = emptyAssignment
      /\ isCreateOpen (createAssignmentMutation_settle true st) = false
      /\ isPending (createAssignmentMutation_settle true st) = false
      /\ queries (env (createAssignmentMutation_settle true st))
         = map (fun q =>
                  if bool_decide
                       ([KStr (js "teacherAssignments"); KNum (group_id st)]
                          `prefix_of` queryKey q)
                  then markStale q else q)
             (queries (env st)))
  /\ (newAssignment (createAssignmentMutation_settle false st)
      = newAssignment st
      /\ isCreateOpen (createAssignmentMutation_settle false st)
         = isCreateOpen st
      /\ isPending (createAssignmentMutation_settle false st) = false
      /\ queries (env (createAssignmentMutation_settle false st))
         = queries (env st)).
Proof.
  assert (forall s : jsstring, negb (truthy s) = false <-> s <> []) as Hne.
  { intros [|c s]; simpl; split; congruence. }
  split; [|split; [|split; [|split]]].
  - unfold saveButton_onClick, save_onClick.
    destruct (isPending st) eqn:Hp.
    { split; [intros [c Hc]; by apply not_grown in Hc|].
      intros (_ & _ & _ & ?). discriminate. }
    destruct (title (newAssignment st)) as [|a t],
             (content (newAssignment st)) as [|b c],
             (due_date (newAssignment st)) as [|d e]; simpl;
      (split;
       [ first [ intros [x Hx]; by apply not_grown in Hx
               | intros _; repeat split; discriminate ]
       | first [ intros (? & ? & ? & _); congruence
               | intros _; eexists; reflexivity ] ]).
  - intros c Hc. unfold saveButton_onClick, save_onClick in Hc.
    destruct (isPending st); [by apply not_grown in Hc|].
    destruct (_ || _); simpl in Hc; [by apply not_grown in Hc|].
    apply app_inv_head in Hc. by injection Hc as <-.
  - intros Hp Hempty. unfold saveButton_onClick, save_onClick. rewrite Hp.
    assert (negb (truthy (title (newAssignment st)))
            || negb (truthy (content (newAssignment st)))
            || negb (truthy (due_date (newAssignment st))) = true) as ->.
    { destruct Hempty as [-> | [-> | ->]]; simpl;
        rewrite ?orb_true_r; reflexivity. }
    by repeat split.
  - split; [reflexivity|]. split; [reflexivity|]. split; [reflexivity|].
    simpl. apply map_ext. intros q. rewrite invalidate_spec.
    destruct (partialMatchKey (queryKey q) _) eqn:Hm.
    + apply partialMatchKey_prefix in Hm. by rewrite bool_decide_eq_true_2.
    + rewrite bool_decide_eq_false_2; [reflexivity|].
      intros Hp. apply partialMatchKey_prefix in Hp. congruence.
  - by repeat split.
Qed.

End Assignments.

Lemma assignment_create_rules_witness :
  CreateAssignment.sent (CreateAssignment.saveButton_onClick assignmentDialog)
  = [CreateAssignment.PostAssignment (js " ") (js "Read unit 3") 7
       (js "2024-05-10")].
Proof.
  destruct (assignment_create_rules assignmentDialog) as ([_ Hyes] & Hc & _).
  destruct Hyes as [c Hsent]; [repeat split; discriminate|].
  rewrite Hsent. rewrite (Hc c Hsent). reflexivity.
Defined.

(** ** The student dialog *)

Lemma matchChar_spec (c : N) (s r : jsstring) :
  matchChar c s = Some r <-> s = c :: r.
Proof.
  unfold matchChar. destruct s as [|d s]; [split; discriminate|].
  destruct (N.eqb_spec c d) as [->|Hne]; split; intros H;
    by simplify_eq.
Qed.

Lemma test_date_spec (s : jsstring) : test_date s = true <-> dateShape s.
Proof.
  unfold test_date, dateShape, digits. split.
  - destruct (matchDigits 4 s) as [r1|] eqn:H1; [|discriminate].
    destruct (matchChar 45 r1) as [r2|] eqn:H2; [|discriminate].
    destruct (matchDigits 2 r2) as [r3|] eqn:H3; [|discriminate].
    destruct (matchChar 45 r3) as [r4|] eqn:H4; [|discriminate].
    destruct (matchDigits 2 r4) as [[|c r5]|] eqn:H5; [|discriminate..].
    intros _.
    apply matchDigits_spec in H1 as (y & -> & Hy & Hy').
    apply matchChar_spec in H2 as ->.
    apply matchDigits_spec in H3 as (m & -> & Hm & Hm').
    apply matchChar_spec in H4 as ->.
    apply matchDigits_spec in H5 as (d & -> & Hd & Hd').
    exists y, m, d. rewrite app_nil_r. by repeat split.
  - intros (y & m & d & -> & [Hy Hy'] & [Hm Hm'] & [Hd Hd']).
    assert (matchDigits 4 (y ++ [45%N] ++ m ++ [45%N] ++ d)
            = Some ([45%N] ++ m ++ [45%N] ++ d)) as ->.
    { apply matchDigits_spec. by exists y. }
    assert (matchChar 45 ([45%N] ++ m ++ [45%N] ++ d)
            = Some (m ++ [45%N] ++ d)) as ->.
    { by apply matchChar_spec. }
    assert (matchDigits 2 (m ++ [45%N] ++ d) = Some ([45%N] ++ d)) as ->.
    { apply matchDigits_spec. by exists m. }
    assert (matchChar 45 ([45%N] ++ d) = Some d) as ->.
    { by apply matchChar_spec. }
    assert (matchDigits 2 d = Some []) as ->.
    { apply matchDigits_spec. exists d. by rewrite app_nil_r. }
    reflexivity.
Qed.

Lemma invalidate_one (a : jsstring) (q : Query) :
  invalidate [KStr a] q = if inCollections [a] q then markStale q else q.
Proof.
  rewrite invalidate_spec, partialMatchKey_head. unfold inCollections.
  destruct (queryKey q) as [|[s| |] k]; try reflexivity.
  assert (bool_decide (s ∈ [a]) = bool_decide (s = a)) as ->; [|reflexivity].
  apply bool_decide_ext. rewrite list_elem_of_singleton. tauto.
Qed.

Lemma invalidate_two (a b : jsstring) (q : Query) :
  invalidate [KStr b] (invalidate [KStr a] q)
  = if inCollections [a; b] q then markStale q else q.
Proof.
  unfold invalidate at 1. rewrite invalidate_queryKey.
  unfold invalidate. rewrite !partialMatchKey_head.
  unfold inCollections, markStale.
  destruct q as [[|[s| |] k] i]; simpl; try reflexivity.
  assert (bool_decide (s ∈ [a; b])
          = bool_decide (s = a) || bool_decide (s = b)) as ->.
  { apply eq_true_iff_eq. rewrite orb_true_iff, !bool_decide_eq_true.
    rewrite !elem_of_cons, elem_of_nil. tauto. }
  by destruct (bool_decide (s = a)), (bool_decide (s = b)).
Qed.

Section Students.
Import StudentDialog.
Context {EmailImpl : EmailSyntax}.

(** X20. The student form is valid exactly when the name has a character
    that is not white space, the phone is exactly twelve digits, the
    e-mail address is blank or has the address syntax, and the expiry
    date is blank or has the shape of four digits, hyphen, two digits,
    hyphen, two digits.  The address is checked as typed, without
    trimming; month and day are not checked against the calendar; avatar
    and status play no part. *)
Theorem student_form_valid_iff (st : State) :
  isFormValid st = true <->
  Exists (fun c => isWhiteSpace c = false) (name (formData st))
  /\ exactly12Digits (phone (formData st))
  /\ (Forall (fun c => isWhiteSpace c = true) (email (formData st))
      \/ isEmail (email (formData st)) = true)
  /\ (Forall (fun c => isWhiteSpace c = true) (payment_expiry (formData st))
      \/ dateShape (payment_expiry (formData st))).
Proof.
  unfold isFormValid, validation, studentSchema, studentSchema_phone,
    blankToUndefined.
  rewrite <- length_trim_pos, <- test_digits12_spec, <- !trim_nil,
    <- test_date_spec.
  destruct (1 <=? length (trim (name (formData st))))%nat;
    destruct (test_digits12 (phone (formData st)));
    destruct (trim (email (formData st))) as [|c1 r1];
    destruct (isEmail (email (formData st)));
    destruct (trim (payment_expiry (formData st))) as [|c2 r2];
    destruct (test_date (payment_expiry (formData st)));
    simpl; split; try discriminate; try tauto;
    intros (? & ? & [?|?] & [?|?]); congruence.
Qed.

(** X21. The submit button of the student dialog sends a call exactly
    when the form is valid and neither mutation is pending.  The call is
    the update of the edited student when the dialog was opened on a
    student and the creation otherwise, and it carries the form as typed
    (the name untrimmed); the dialog is then saving.  Submitting an
    invalid form sends nothing, marks every field touched and raises
    the validation notification. *)
Theorem student_submission (st : State) :
  ((exists c, sent (submitButton_onClick st) = sent st ++ [c]) <->
   isFormValid st = true /\ isSaving st = false)
  /\ (forall c, sent (submitButton_onClick st) = sent st ++ [c] ->
        c = match studentToEdit st with
            | Some id => PutStudent id (formData st)
            | None => PostStudent (formData st)
            end
        /\ isSaving (submitButton_onClick st) = true
        /\ formData (submitButton_onClick st) = formData st)
  /\ (isFormValid st = false ->
      sent (handleSubmit st) = sent st
      /\ touched (handleSubmit st)
         = {| t_name := true; t_phone := true; t_email := true;
              t_payment_expiry := true; t_status := true |}
      /\ toasts (env (handleSubmit st))
         = toasts (env st)
           ++ [notify Destructive (T "admin.groups.validationError")
                 (T "admin.groups.fixFields")]).
Proof.
  split; [|split].
  - unfold submitButton_onClick, isSubmitDisabled, handleSubmit.
    destruct (isSaving st); simpl.
    { split; [intros [c Hc]; by apply not_grown in Hc|].
      intros [_ ?]; discriminate. }
    destruct (isFormValid st); simpl.
    + split; [done|]. intros _.
      destruct (studentToEdit st); eexists; reflexivity.
    + split; [intros [c Hc]; by apply not_grown in Hc|].
      intros [? _]; discriminate.
  - intros c. unfold submitButton_onClick, isSubmitDisabled, handleSubmit.
    destruct (isSaving st) eqn:Hs; simpl;
      [intros Hc; by apply not_grown in Hc|].
    destruct (isFormValid st); simpl;
      [|intros Hc; by apply not_grown in Hc].
    unfold isSaving.
    destruct (studentToEdit st); simpl; intros Hc;
      apply app_inv_head in Hc; injection Hc as <-;
      repeat split; by rewrite ?orb_true_r.
  - intros Hv. unfold handleSubmit. rewrite Hv. by repeat split.
Qed.

(** X22. When the creation of a student succeeds, the cached student
    lists and new-student lists are marked stale and no other query, the
    returned password is kept for display and the form stays as it was;
    the success notification is raised only if the clipboard took the
    password.  When an update succeeds the same queries are marked stale
    and the kept password is dropped.  A failure marks nothing, keeps
    password and form, and raises an error notification. *)
Theorem student_saved (st : State) (password : jsstring) (copied : bool) :
  (queries (env (createStudentMutation_settle (Some (password, copied)) st))
   = map (fun q => if inCollections [js "adminStudents"; js "newStudents"] q
                   then markStale q else q)
       (queries (env st))
   /\ createdCredentials
        (createStudentMutation_settle (Some (password, copied)) st)
      = Some password
   /\ formData (createStudentMutation_settle (Some (password, copied)) st)
      = formData st
   /\ createPending
        (createStudentMutation_settle (Some (password, copied)) st)
      = false
   /\ toasts (env (createStudentMutation_settle (Some (password, copied)) st))
      = toasts (env st)
        ++ (if copied
            then [notify Default (T "common.success")
                    (T "admin.students.createSuccess")]
            else []))
  /\ (queries (env (updateStudentMutation_settle true st))
      = map (fun q => if inCollections [js "adminStudents"; js "newStudents"] q
                      then markStale q else q)
          (queries (env st))
      /\ createdCredentials (updateStudentMutation_settle true st) = None
      /\ updatePending (updateStudentMutation_settle true st) = false
      /\ toasts (env (updateStudentMutation_settle true st))
         = toasts (env st)
           ++ [notify Default (T "common.success")
                 (T "admin.students.updateSuccess")])
  /\ (queries (env (createStudentMutation_settle None st)) = queries (env st)
      /\ queries (env (updateStudentMutation_settle false st))
         = queries (env st)
      /\ createdCredentials (createStudentMutation_settle None st)
         = createdCredentials st
      /\ createdCredentials (updateStudentMutation_settle false st)
         = createdCredentials st
      /\ formData (createStudentMutation_settle None st) = formData st
      /\ formData (updateStudentMutation_settle false st) = formData st
      /\ toasts (env (createStudentMutation_settle None st))
         = toasts (env st)
           ++ [notify Destructive (T "common.error")
                 (T "admin.students.createError")]
      /\ toasts (env (updateStudentMutation_settle false st))
         = toasts (env st)
           ++ [notify Destructive (T "common.error")
                 (T "admin.students.updateError")]).
Proof.
  split; [|split; [|by repeat split]].
  - destruct copied; simpl;
      (split; [rewrite map_map; apply map_ext; intros q;
               apply invalidate_two|]);
      split; try reflexivity; split; try reflexivity;
      split; try reflexivity; by rewrite app_nil_r.
  - split; [|by repeat split]. simpl. rewrite map_map. apply map_ext.
    intros q. apply invalidate_two.
Qed.

End Students.

Lemma student_submission_witness :
  StudentDialog.sent
    (StudentDialog.submitButton_onClick (EmailImpl := atSignEmail)
       newStudentDialog)
  = [StudentDialog.PostStudent (StudentDialog.formData newStudentDialog)].
Proof.
  destruct (student_submission (EmailImpl := atSignEmail) newStudentDialog)
    as ([_ Hyes] & Hc & _).
  destruct Hyes as [c Hsent]; [split; reflexivity|].
  rewrite Hsent. destruct (Hc c Hsent) as [-> _]. reflexivity.
Defined.

(** ** The teachers page *)

Section Teachers.
Import AdminTeachers.
Context {EmailImpl : EmailSyntax} {LowerImpl : LowerCase}.

Lemma teacher_valid_iff (st : State) :
  isFormValid st = true <->
  Exists (fun c => isWhiteSpace c = false) (name (teacherForm st))
  /\ isEmail (trim (email (teacherForm st))) = true
  /\ Exists (fun c => isWhiteSpace c = false) (phone (teacherForm st))
  /\ (teacher_type (teacherForm st) = js "main"
      \/ teacher_type (teacherForm st) = js "assistant").
Proof.
  unfold isFormValid, dialogValidation, teacherSchema, teacherSchema_phone.
  rewrite <- !length_trim_pos.
  destruct (1 <=? length (trim (name (teacherForm st))))%nat;
    destruct (isEmail (trim (email (teacherForm st))));
    destruct (1 <=? length (trim (phone (teacherForm st))))%nat;
    repeat case_bool_decide; simpl; split; try discriminate; try tauto;
    intros (? & ? & ? & [?|?]); congruence.
Qed.

Lemma teacher_submit_cases (st : State) :
  (isFormValid st = true /\ isSaving st = false
   /\ exists c,
        submitButton_onClick st
        = send c (setPending
                    (if truthyId (editingTeacherId st) then createPending st
                     else true)
                    (if truthyId (editingTeacherId st) then true
                     else updatePending st)
                    (resetPending st) st)
        /\ c = match editingTeacherId st with
               | Some i => if i =? 0 then PostTeacher (teacherForm st)
                           else PutTeacher i (teacherForm st)
               | None => PostTeacher (teacherForm st)
               end)
  \/ ((isFormValid st = false \/ isSaving st = true)
      /\ submitButton_onClick st = st).
Proof.
  unfold submitButton_onClick, isSubmitDisabled, handleSubmit.
  destruct (isSaving st); simpl; [right; split; [by right|reflexivity]|].
  destruct (isFormValid st); simpl; [|right; split; [by left|reflexivity]].
  left. split; [reflexivity|]. split; [reflexivity|].
  destruct (editingTeacherId st) as [i|]; simpl;
    [destruct (i =? 0); simpl|]; eexists; split; reflexivity.
Qed.

(** X23. The submit button of the teacher dialog sends a call exactly
    when the name and the phone each have a character that is not white
    space, the trimmed e-mail address has the address syntax, the role is
    main or assistant, and neither mutation is pending.  The call
    carries the form as typed; it is the update of the edited teacher
    when an id other than 0 is being edited, and a creation otherwise. *)
Theorem teacher_submission (st : State) :
  ((exists c, sent (submitButton_onClick st) = sent st ++ [c]) <->
   Exists (fun c => isWhiteSpace c = false) (name (teacherForm st))
   /\ isEmail (trim (email (teacherForm st))) = true
   /\ Exists (fun c => isWhiteSpace c = false) (phone (teacherForm st))
   /\ (teacher_type (teacherForm st) = js "main"
       \/ teacher_type (teacherForm st) = js "assistant")
   /\ isSaving st = false)
  /\ (forall c, sent (submitButton_onClick st) = sent st ++ [c] ->
        c = match editingTeacherId st with
            | Some i => if i =? 0 then PostTeacher (teacherForm st)
                        else PutTeacher i (teacherForm st)
            | None => PostTeacher (teacherForm st)
            end
        /\ isSaving (submitButton_onClick st) = true).
Proof.
  pose proof (teacher_valid_iff st) as Hv.
  destruct (teacher_submit_cases st)
    as [(Hvalid & Hs & c & Hst & Hc) | (Hno & Hst)]; rewrite Hst.
  - split.
    + split; [intros _|intros _; by exists c].
      apply Hv in Hvalid. tauto.
    + intros c' Hc'. simpl in Hc'. apply app_inv_head in Hc'.
      injection Hc' as <-. split; [exact Hc|].
      unfold isSaving. simpl.
      destruct (truthyId (editingTeacherId st)); by rewrite ?orb_true_r.
  - split.
    + split; [intros [c Hc]; by apply not_grown in Hc|].
      intros (H1 & H2 & H3 & H4 & H5).
      destruct Hno as [Hno|Hno]; [|congruence].
      assert (isFormValid st = true) by (apply Hv; tauto). congruence.
    + intros c Hc. by apply not_grown in Hc.
Qed.

(** X24. The edit dialog always opens with a role the form accepts: main
    when the teacher's position reads main in any letter case, and
    assistant for every other position and for a teacher without one.
    Saving the dialog unchanged therefore sends the role assistant for a
    teacher whose position is missing. *)
Theorem edit_dialog_role (teacher : Teacher) (st : State) :
  (teacher_type (teacherForm (openEditDialog teacher st)) = js "main" <->
   exists p, position teacher = Some p /\ toLowerCase p = js "main")
  /\ (teacher_type (teacherForm (openEditDialog teacher st)) = js "main"
      \/ teacher_type (teacherForm (openEditDialog teacher st))
         = js "assistant")
  /\ (position teacher = None ->
      isFormValid (openEditDialog teacher st) = true ->
      isSaving st = false ->
      id teacher <> 0 ->
      sent (submitButton_onClick (openEditDialog teacher st))
      = sent st
        ++ [PutTeacher (id teacher)
              {| name := teacher_name teacher;
                 email := teacher_email teacher;
                 phone := teacher_phone teacher;
                 teacher_type := js "assistant" |}]).
Proof.
  split; [|split].
  - simpl. unfold teacherTypeOf.
    destruct (position teacher) as [p|].
    + case_bool_decide as Hp.
      * split; [intros _; by exists p|reflexivity].
      * split; [discriminate|]. intros (p' & [= <-] & ?). contradiction.
    + split; [discriminate|]. intros (p' & ? & _). discriminate.
  - simpl. unfold teacherTypeOf.
    destruct (position teacher) as [p|]; [case_bool_decide|]; tauto.
  - intros Hp Hv Hs Hid.
    destruct (teacher_submit_cases (openEditDialog teacher st))
      as [(_ & _ & c & Hst & Hc) | ([Hno|Hno] & _)].
    + rewrite Hst. simpl. f_equal. rewrite Hc. simpl.
      destruct (Z.eqb_spec (id teacher) 0) as [?|_]; [contradiction|].
      unfold teacherTypeOf. by rewrite Hp.
    + congruence.
    + unfold isSaving in *. simpl in Hno. congruence.
Qed.

Lemma reset_cases (st : State) :
  (6 <= length (newPassword st))%nat /\ resetPending st = false
  /\ (exists i, resetPasswordId st = Some i /\ i <> 0
      /\ resetButton_onClick st
         = send (PatchPassword i (newPassword st))
             (setPending (createPending st) (updatePending st) true st))
  \/ (length (newPassword st) < 6)%nat /\ resetPending st = false
     /\ resetButton_onClick st
        = withEnv (toast (notify Destructive
                            (T "admin.groups.validationError")
                            (T "admin.teachers.passwordMinLength"))) st
  \/ ((6 <= length (newPassword st))%nat /\ resetPending st = false
      /\ truthyId (resetPasswordId st) = false \/ resetPending st = true)
     /\ resetButton_onClick st = st.
Proof.
  unfold resetButton_onClick, handleResetPassword.
  destruct (resetPending st); [right; right; split; [by right|reflexivity]|].
  destruct (Nat.ltb_spec (length (newPassword st)) 6) as [Hlt|Hge].
  - right; left. rewrite orb_true_r. by repeat split.
  - assert (negb (truthy (newPassword st)) = false) as ->.
    { destruct (newPassword st); [simpl in Hge; lia|reflexivity]. }
    simpl.
    destruct (resetPasswordId st) as [i|] eqn:Hi; simpl.
    + destruct (Z.eqb_spec i 0) as [->|Hne]; simpl.
      * right; right. split; [left; by repeat split|reflexivity].
      * left. split; [exact Hge|]. split; [reflexivity|]. by exists i.
    + right; right. split; [left; by repeat split|reflexivity].
Qed.

(** X25. The save button of the reset-password dialog sends the call
    exactly when the typed password has at least six code units, the
    dialog is open on a teacher whose id is not 0, and no reset is
    pending; the call carries that id and the password as typed.  A
    shorter password sends nothing and raises the validation
    notification.  A success forgets the teacher and empties the
    password; a failure keeps both. *)
Theorem reset_password_rules (st : State) :
  ((exists c, sent (resetButton_onClick st) = sent st ++ [c]) <->
   (6 <= length (newPassword st))%nat
   /\ truthyId (resetPasswordId st) = true
   /\ resetPending st = false)
  /\ (forall c, sent (resetButton_onClick st) = sent st ++ [c] ->
        exists i, resetPasswordId st = Some i
                  /\ c = PatchPassword i (newPassword st)
                  /\ resetPending (resetButton_onClick st) = true)
  /\ ((length (newPassword st) < 6)%nat -> resetPending st = false ->
      sent (resetButton_onClick st) = sent st
      /\ toasts (env (resetButton_onClick st))
         = toasts (env st)
           ++ [notify Destructive (T "admin.groups.validationError")
                 (T "admin.teachers.passwordMinLength")])
  /\ (resetPasswordId (resetPasswordMutation_settle true st) = None
      /\ newPassword (resetPasswordMutation_settle true st) = []
      /\ resetPending (resetPasswordMutation_settle true st) = false)
  /\ (resetPasswordId (resetPasswordMutation_settle false st)
      = resetPasswordId st
      /\ newPassword (resetPasswordMutation_settle false st) = newPassword st
      /\ resetPending (resetPasswordMutation_settle false st) = false).
Proof.
  split; [|split; [|split; [|by repeat split]]].
  - destruct (reset_cases st)
      as [(Hge & Hp & i & Hi & Hne & Hst)
         | [(Hlt & Hp & Hst) | (Hno & Hst)]]; rewrite Hst.
    + split; [intros _|intros _; eexists; reflexivity].
      split; [exact Hge|]. split; [|exact Hp].
      rewrite Hi. simpl. by destruct (Z.eqb_spec i 0).
    + split; [intros [c Hc]; by apply not_grown in Hc|]. lia.
    + split; [intros [c Hc]; by apply not_grown in Hc|].
      intros (_ & Ht & Hp).
      destruct Hno as [(_ & _ & Hf)|Hf]; congruence.
  - intros c.
    destruct (reset_cases st)
      as [(Hge & Hp & i & Hi & Hne & Hst)
         | [(Hlt & Hp & Hst) | (Hno & Hst)]]; rewrite Hst; simpl; intros Hc;
      try by apply not_grown in Hc.
    apply app_inv_head in Hc. injection Hc as <-. by exists i.
  - intros Hlt Hp.
    destruct (reset_cases st)
      as [(Hge & _) | [(_ & _ & Hst) | ([(Hge & _)|Hf] & _)]];
      try lia; try congruence.
    rewrite Hst. by split.
Qed.

(** X26. Cancelling the reset-password dialog keeps the typed password:
    when the dialog is next opened on another teacher, the save button
    sends the earlier password to that teacher without anything being
    typed. *)
Theorem typed_password_survives_cancel (st : State) (teacher : Teacher) :
  (6 <= length (newPassword st))%nat ->
  resetPending st = false ->
  id teacher <> 0 ->
  newPassword (resetCancel_onClick st) = newPassword st
  /\ resetPasswordId (resetCancel_onClick st) = None
  /\ sent (resetButton_onClick
             (rowReset_onClick teacher (resetCancel_onClick st)))
     = sent st ++ [PatchPassword (id teacher) (newPassword st)].
Proof.
  intros Hge Hp Hid. split; [reflexivity|]. split; [reflexivity|].
  destruct (reset_cases (rowReset_onClick teacher (resetCancel_onClick st)))
    as [(_ & _ & i & Hi & _ & Hst)
       | [(Hlt & _) | ([(_ & _ & Hf)|Hf] & _)]].
  - rewrite Hst. simpl in Hi. injection Hi as <-. reflexivity.
  - simpl in Hlt. lia.
  - simpl in Hf. by destruct (Z.eqb_spec (id teacher) 0).
  - simpl in Hf. congruence.
Qed.

Lemma countPosition_split (l : list Teacher) :
  (length (List.filter
             (fun t => match position t with
                       | Some q => bool_decide (toLowerCase q = js "main")
                       | None => false
                       end) l)
   + length (List.filter
               (fun t => match position t with
                         | Some q =>
                             bool_decide (toLowerCase q = js "assistant")
                         | None => false
                         end) l)
   + length (List.filter
               (fun t => match position t with
                         | Some q =>
                             negb (bool_decide (toLowerCase q = js "main"))
                             && negb (bool_decide
                                        (toLowerCase q = js "assistant"))
                         | None => true
                         end) l)
   = length l)%nat.
Proof.
  induction l as [|t l IH]; [reflexivity|]. simpl.
  destruct (position t) as [q|]; [|simpl; lia].
  case_bool_decide as Hm; case_bool_decide as Ha; simpl; try lia.
  rewrite Hm in Ha. vm_compute in Ha. discriminate.
Qed.

(** X27. The two counters of the teachers page count each loaded teacher
    at most once: main teachers, assistant teachers and the teachers whose
    position is missing or reads neither way add up to the loaded list,
    so a teacher without a position appears in neither counter.  Before
    the list is loaded both counters are 0. *)
Theorem teacher_counters (st : State) :
  match teachers st with
  | Some l =>
      (mainTeachersCount st + assistantTeachersCount st
       + length (List.filter
                   (fun t =>
                      match position t with
                      | Some q =>
                          negb (bool_decide (toLowerCase q = js "main"))
                          && negb (bool_decide
                                     (toLowerCase q = js "assistant"))
                      | None => true
                      end) l)
       = length l)%nat
  | None => mainTeachersCount st = 0%nat /\ assistantTeachersCount st = 0%nat
  end.
Proof.
  unfold mainTeachersCount, assistantTeachersCount, countPosition.
  destruct (teachers st) as [l|]; [apply countPosition_split|by split].
Qed.

(** X28. When the creation or the update of a teacher succeeds, the
    cached teachers list is marked stale and no other query, the dialog
    is closed and no teacher is being edited any more, while the form
    keeps what was typed until the dialog is opened again; the creation
    keeps the generated password for display.  A failure marks nothing
    and leaves the dialog open on the same teacher with the form as
    typed. *)
Theorem teacher_saved (st : State) (password : jsstring) :
  (queries (env (createTeacherMutation_settle (Some password) st))
   = map (fun q => if inCollections [js "adminTeachersList"] q
                   then markStale q else q)
       (queries (env st))
   /\ isDialogOpen (createTeacherMutation_settle (Some password) st) = false
   /\ editingTeacherId (createTeacherMutation_settle (Some password) st)
      = None
   /\ createdTeacherCredentials
        (createTeacherMutation_settle (Some password) st)
      = Some password
   /\ teacherForm (createTeacherMutation_settle (Some password) st)
      = teacherForm st
   /\ createPending (createTeacherMutation_settle (Some password) st)
      = false)
  /\ (queries (env (updateTeacherMutation_settle true st))
      = map (fun q => if inCollections [js "adminTeachersList"] q
                      then markStale q else q)
          (queries (env st))
      /\ isDialogOpen (updateTeacherMutation_settle true st) = false
      /\ editingTeacherId (updateTeacherMutation_settle true st) = None
      /\ createdTeacherCredentials (updateTeacherMutation_settle true st)
         = createdTeacherCredentials st
      /\ teacherForm (updateTeacherMutation_settle true st) = teacherForm st
      /\ updatePending (updateTeacherMutation_settle true st) = false)
  /\ (queries (env (createTeacherMutation_settle None st)) = queries (env st)
      /\ queries (env (updateTeacherMutation_settle false st))
         = queries (env st)
      /\ isDialogOpen (createTeacherMutation_settle None st)
         = isDialogOpen st
      /\ isDialogOpen (updateTeacherMutation_settle false st)
         = isDialogOpen st
      /\ editingTeacherId (createTeacherMutation_settle None st)
         = editingTeacherId st
      /\ editingTeacherId (updateTeacherMutation_settle false st)
         = editingTeacherId st
      /\ teacherForm (createTeacherMutation_settle None st) = teacherForm st
      /\ teacherForm (updateTeacherMutation_settle false st)
         = teacherForm st).
Proof.
  split; [|split; [|by repeat split]].
  - split; [|by repeat split]. simpl. apply map_ext. intros q.
    apply invalidate_one.
  - split; [|by repeat split]. simpl. apply map_ext. intros q.
    apply invalidate_one.
Qed.

End Teachers.

Lemma edit_dialog_role_witness :
  AdminTeachers.sent
    (AdminTeachers.submitButton_onClick (EmailImpl := atSignEmail)
       (AdminTeachers.openEditDialog (LowerImpl := asciiLowerCase) omar
          teachersPage))
  = [AdminTeachers.PutTeacher 8
       {| AdminTeachers.name := js "Omar";
          AdminTeachers.email := js "omar@school.uz";
          AdminTeachers.phone := js "998901234569";
          AdminTeachers.teacher_type := js "assistant" |}].
Proof.
  destruct (edit_dialog_role (EmailImpl := atSignEmail)
              (LowerImpl := asciiLowerCase) omar teachersPage)
    as (_ & _ & Hsave).
  apply Hsave; [reflexivity | reflexivity | reflexivity | discriminate].
Defined.

Lemma typed_password_survives_cancel_witness :
  AdminTeachers.sent
    (AdminTeachers.resetButton_onClick
       (AdminTeachers.rowReset_onClick omar
          (AdminTeachers.resetCancel_onClick typedReset)))
  = [AdminTeachers.PatchPassword 8 (js "secret1")].
Proof.
  destruct (typed_password_survives_cancel typedReset omar)
    as (_ & _ & Hsent);
    [vm_compute; lia | reflexivity | discriminate | exact Hsent].
Defined.

Lemma attendance_counters_witness :
  TeacherAttendance.presentCount (TeacherAttendance.initEffect attendancePage)
  = 5%nat
  /\ TeacherAttendance.absentCount (TeacherAttendance.initEffect attendancePage)
     = 0%nat
  /\ TeacherAttendance.unmarkedCount
       (TeacherAttendance.initEffect attendancePage)
     = 0.
Proof.
  destruct (attendance_counters attendancePage) as [_ Hinit].
  apply (Hinit fiveStudents);
    [reflexivity | discriminate | | reflexivity | reflexivity].
  apply (bool_decide_unpack (NoDup (map gs_id fiveStudents))).
  vm_compute. exact I.
Defined.
